(** * aws-msk-iam-sasl-signer-go: the token pipeline of package [signer]

    A shallow embedding of [signer/msk_auth_token_provider.go] and of
    [SignerOptions.Validate], together with the parts of the Go standard
    library the package calls ([strings], [strconv], [net/url], [net/http],
    [encoding/hex], [encoding/base64], [crypto/sha256], [errors]/[fmt]).

    Go strings are byte sequences: they are modelled by [string], whose
    characters are the 8-bit [ascii].  Go's [map[string][]string] is a
    [gmap string (list string)].  Calls into the AWS SDK are calls to the
    fields of a record of collaborators, and every such call is written to a
    trace. *)

From Stdlib Require Import ZArith NArith Ascii String List Lia Bool.
From stdpp Require Import base option list strings sorting gmap.

Local Open Scope N_scope.

(** ** Bytes *)

Definition byte_le (a b : ascii) : bool := N_of_ascii a <=? N_of_ascii b.

(** ['lo' <= c && c <= 'hi'] *)
Definition between (lo hi c : ascii) : bool := byte_le lo c && byte_le c hi.

Definition byte_eqb (a b : ascii) : bool := Ascii.eqb a b.

(** ** Package [strings] *)

Module strings.

(** [s[i:]] *)
Fixpoint from (i : nat) (s : string) : string :=
  match i, s with
  | O, _ => s
  | S i, String _ s => from i s
  | S _, EmptyString => EmptyString
  end.

(** [s[:i]] *)
Fixpoint upto (i : nat) (s : string) : string :=
  match i, s with
  | O, _ => EmptyString
  | S i, String c s => String c (upto i s)
  | S _, EmptyString => EmptyString
  end.

Fixpoint HasPrefix (s prefix : string) {struct prefix} : bool :=
  match prefix, s with
  | EmptyString, _ => true
  | String p prefix, String c s => byte_eqb p c && HasPrefix s prefix
  | String _ _, EmptyString => false
  end.

Definition HasSuffix (s suffix : string) : bool :=
  let n := String.length s in
  let k := String.length suffix in
  (k <=? n)%nat && String.eqb (from (n - k) s) suffix.

(** [Index] returns -1 when [substr] does not occur: [None] here. *)
Fixpoint Index (s substr : string) : option nat :=
  if HasPrefix s substr then Some O
  else match s with
       | EmptyString => None
       | String _ s => S <$> Index s substr
       end.

Fixpoint LastIndex (s substr : string) : option nat :=
  match s with
  | EmptyString => if HasPrefix s substr then Some O else None
  | String _ s' =>
      match LastIndex s' substr with
      | Some i => Some (S i)
      | None => if HasPrefix s substr then Some O else None
      end
  end.

Definition Contains (s substr : string) : bool :=
  match Index s substr with Some _ => true | None => false end.

(** [Cut] slices [s] around the first instance of [sep]. *)
Definition Cut (s sep : string) : string * string * bool :=
  match Index s sep with
  | Some i => (upto i s, from (i + String.length sep) s, true)
  | None => (s, EmptyString, false)
  end.

(** [Count] of the non-overlapping instances of a non-empty [substr]. *)
Fixpoint Count_from (fuel : nat) (s substr : string) : nat :=
  match fuel with
  | O => O
  | S fuel =>
      match Index s substr with
      | Some i => S (Count_from fuel (from (i + String.length substr) s) substr)
      | None => O
      end
  end.

Definition Count (s substr : string) : nat :=
  Count_from (String.length s) s substr.

Definition TrimSuffix (s suffix : string) : string :=
  if HasSuffix s suffix
  then upto (String.length s - String.length suffix) s
  else s.

(** [ToLower] on the ASCII letters; the callers below pass ASCII only. *)
Definition lower (c : ascii) : ascii :=
  if between "A" "Z" c then ascii_of_N (N_of_ascii c + 32) else c.

Fixpoint ToLower (s : string) : string :=
  match s with
  | EmptyString => EmptyString
  | String c s => String (lower c) (ToLower s)
  end.

Definition Join (elems : list string) (sep : string) : string :=
  String.concat sep elems.

Fixpoint all_bytes (p : ascii -> bool) (s : string) : bool :=
  match s with
  | EmptyString => true
  | String c s => p c && all_bytes p s
  end.

End strings.

(** ** Go errors

    An [error] value is one of the concrete error types that the package and
    the library functions it calls construct.  [wrapError] is what
    [fmt.Errorf] builds for a format with one [%w] verb; [errorString] is
    what [errors.New] and a [fmt.Errorf] without [%w] build.  Errors of the
    SDK are values of the same type. *)

Inductive error : Type :=
  | errorString (s : string)
  | wrapError (msg : string) (err : error)
  | url_EscapeError (s : string)
  | url_InvalidHostError (s : string)
  | url_Error (Op URL : string) (Err : error).

(** The result of a Go function that returns a pointer and an error, exactly
    one of them [nil]. *)
Inductive result (A : Type) : Type :=
  | Ok (a : A)
  | Err (e : error).

Arguments Ok {A} a.
Arguments Err {A} e.

Module strconv.

Definition digit (d : N) : ascii := ascii_of_N (48 + d).

(** The digit loop of [formatBits] for base 10, least significant first;
    20 digits are enough for a [uint64]. *)
Fixpoint formatBits (fuel : nat) (u : N) (acc : string) : string :=
  match fuel with
  | O => acc
  | S fuel =>
      let acc := String (digit (u mod 10)) acc in
      if u / 10 =? 0 then acc else formatBits fuel (u / 10) acc
  end.

(** [FormatInt(i, 10)] *)
Definition FormatInt (i : Z) : string :=
  let s := formatBits 20 (Z.abs_N i) EmptyString in
  if (i <? 0)%Z then String "-" s else s.

Definition lowerhex (d : N) : ascii :=
  if d <? 10 then ascii_of_N (48 + d) else ascii_of_N (87 + d).

(** [Quote]: exact on ASCII; bytes from 0x80 on are copied, which is what
    Go does for the printable runes of a valid UTF-8 string.  Go escapes the
    bytes of an invalid UTF-8 sequence and the runes that are not printable;
    here they are copied too, so on such input the quoted text inside an
    error message differs from Go's.  No statement below reads such a
    text. *)
Definition dquote : ascii := ascii_of_N 34.

Definition quote_byte (c : ascii) : string :=
  let n := N_of_ascii c in
  if byte_eqb c dquote then String "\" (String dquote EmptyString)
  else if byte_eqb c "\" then "\\"
  else if n =? 7 then "\a"
  else if n =? 8 then "\b"
  else if n =? 12 then "\f"
  else if n =? 10 then "\n"
  else if n =? 13 then "\r"
  else if n =? 9 then "\t"
  else if n =? 11 then "\v"
  else if (n <? 32) || (n =? 127)
       then String "\" (String "x" (String (lowerhex (n / 16))
              (String (lowerhex (n mod 16)) EmptyString)))
  else String c EmptyString.

Fixpoint quote_body (s : string) : string :=
  match s with
  | EmptyString => EmptyString
  | String c s => quote_byte c +:+ quote_body s
  end.

Definition Quote (s : string) : string :=
  String dquote (quote_body s +:+ String dquote EmptyString).

End strconv.

Module errors.

(** The [Error()] method. *)
Fixpoint Error (e : error) : string :=
  match e with
  | errorString s => s
  | wrapError msg _ => msg
  | url_EscapeError s => "invalid URL escape " +:+ strconv.Quote s
  | url_InvalidHostError s =>
      "invalid character " +:+ strconv.Quote s +:+ " in host name"
  | url_Error op u err => op +:+ " " +:+ strconv.Quote u +:+ ": " +:+ Error err
  end.

(** The [Unwrap()] method, where the type has one. *)
Definition Unwrap (e : error) : option error :=
  match e with
  | wrapError _ err => Some err
  | url_Error _ _ err => Some err
  | _ => None
  end.

(** The chain that [errors.Is] and [errors.As] walk: the error, what it
    wraps, and so on. *)
Fixpoint chain (e : error) : list error :=
  e :: match e with
       | wrapError _ err => chain err
       | url_Error _ _ err => chain err
       | _ => []
       end.

Definition New (text : string) : error := errorString text.

End errors.

Module fmt.

(** [fmt.Errorf(prefix + "%w", err)]: the message is the formatted text,
    the wrapped error is kept. *)
Definition Errorf_w (prefix : string) (err : error) : error :=
  wrapError (prefix +:+ errors.Error err) err.

(** [fmt.Errorf(text)] for a text without verbs. *)
Definition Errorf (text : string) : error := errorString text.

End fmt.

Module hex.

Definition hextable (d : N) : ascii := strconv.lowerhex d.

(** [hex.EncodeToString] *)
Fixpoint EncodeToString (src : string) : string :=
  match src with
  | EmptyString => EmptyString
  | String c src =>
      let v := N_of_ascii c in
      String (hextable (N.shiftr v 4))
        (String (hextable (N.land v 15)) (EncodeToString src))
  end.

End hex.


(** ** Package [net/url] (Go 1.20) *)

Module url.

Inductive encoding : Set :=
  | encodePath
  | encodePathSegment
  | encodeHost
  | encodeZone
  | encodeUserPassword
  | encodeQueryComponent
  | encodeFragment.

Definition encoding_eqb (a b : encoding) : bool :=
  match a, b with
  | encodePath, encodePath | encodePathSegment, encodePathSegment
  | encodeHost, encodeHost | encodeZone, encodeZone
  | encodeUserPassword, encodeUserPassword
  | encodeQueryComponent, encodeQueryComponent
  | encodeFragment, encodeFragment => true
  | _, _ => false
  end.

Definition upperhex (d : N) : ascii :=
  if d <? 10 then ascii_of_N (48 + d) else ascii_of_N (55 + d).

Definition ishex (c : ascii) : bool :=
  between "0" "9" c || between "a" "f" c || between "A" "F" c.

Definition unhex (c : ascii) : N :=
  if between "0" "9" c then N_of_ascii c - 48
  else if between "a" "f" c then N_of_ascii c - 97 + 10
  else if between "A" "F" c then N_of_ascii c - 65 + 10
  else 0.

(** Membership of a byte in a literal list of bytes ([switch c { case ... }]). *)
Definition one_of (cs : string) (c : ascii) : bool :=
  negb (strings.all_bytes (fun x => negb (byte_eqb x c)) cs).

Definition host_subdelims : string :=
  String "!" (String "$" (String "&" (String "'" (String "(" (String ")"
  (String "*" (String "+" (String "," (String ";" (String "=" (String ":"
  (String "[" (String "]" (String "<" (String ">"
  (String strconv.dquote EmptyString)))))))))))))))).

(** [shouldEscape]: whether the byte must be escaped in the given part of a
    URL. *)
Definition shouldEscape (c : ascii) (mode : encoding) : bool :=
  if between "a" "z" c || between "A" "Z" c || between "0" "9" c then false
  else if (encoding_eqb mode encodeHost || encoding_eqb mode encodeZone)
          && one_of host_subdelims c then false
  else if one_of "-_.~" c then false
  else if one_of "$&+,/:;=?@" c then
    match mode with
    | encodePath => byte_eqb c "?"
    | encodePathSegment => one_of "/;,?" c
    | encodeUserPassword => one_of "@/?:" c
    | encodeQueryComponent => true
    | encodeFragment => false
    | encodeHost | encodeZone => true
    end
  else if encoding_eqb mode encodeFragment && one_of "!()*" c then false
  else true.

(** The first loop of [unescape]: the check of the escapes, [None] when the
    string is well formed. *)
Fixpoint unescape_check (s : string) (mode : encoding) : option error :=
  match s with
  | EmptyString => None
  | String "%" rest =>
      match rest with
      | String a (String b rest') =>
          if negb (ishex a) || negb (ishex b)
          then Some (url_EscapeError (strings.upto 3 s))
          else if encoding_eqb mode encodeHost && (unhex a <? 8)
                  && negb (String.eqb (strings.upto 3 s) "%25")
          then Some (url_EscapeError (strings.upto 3 s))
          else if encoding_eqb mode encodeZone
                  && negb (String.eqb (strings.upto 3 s) "%25")
                  && negb (unhex a * 16 + unhex b =? 32)
                  && shouldEscape (ascii_of_N (unhex a * 16 + unhex b)) encodeHost
          then Some (url_EscapeError (strings.upto 3 s))
          else unescape_check rest' mode
      | _ => Some (url_EscapeError (strings.upto 3 s))
      end
  | String "+" rest => unescape_check rest mode
  | String c rest =>
      if (encoding_eqb mode encodeHost || encoding_eqb mode encodeZone)
         && (N_of_ascii c <? 128) && shouldEscape c encodeHost
      then Some (url_InvalidHostError (String c EmptyString))
      else unescape_check rest mode
  end.

(** The second loop of [unescape]: the decoded bytes of a checked string. *)
Fixpoint unescape_bytes (s : string) (mode : encoding) : string :=
  match s with
  | EmptyString => EmptyString
  | String "%" (String a (String b rest)) =>
      String (ascii_of_N (unhex a * 16 + unhex b)) (unescape_bytes rest mode)
  | String "+" rest =>
      String (if encoding_eqb mode encodeQueryComponent then " " else "+")
             (unescape_bytes rest mode)
  | String c rest => String c (unescape_bytes rest mode)
  end.

Definition unescape (s : string) (mode : encoding) : string * option error :=
  match unescape_check s mode with
  | Some err => (EmptyString, Some err)
  | None => (unescape_bytes s mode, None)
  end.

Definition QueryUnescape (s : string) : string * option error :=
  unescape s encodeQueryComponent.

Fixpoint escape (s : string) (mode : encoding) : string :=
  match s with
  | EmptyString => EmptyString
  | String c rest =>
      if byte_eqb c " " && encoding_eqb mode encodeQueryComponent
      then String "+" (escape rest mode)
      else if shouldEscape c mode
      then String "%" (String (upperhex (N.shiftr (N_of_ascii c) 4))
             (String (upperhex (N.land (N_of_ascii c) 15)) (escape rest mode)))
      else String c (escape rest mode)
  end.

Definition QueryEscape (s : string) : string := escape s encodeQueryComponent.

(** [type Values map[string][]string] *)
Abbreviation Values := (gmap string (list string)).

(** [v.Get(key)]: the first value of the key, or the empty string. *)
Definition Get (v : Values) (key : string) : string :=
  match v !! key with
  | Some (x :: _) => x
  | _ => EmptyString
  end.

(** [v.Set(key, value)]: [v[key] = []string{value}] *)
Definition Set_ (v : Values) (key value : string) : Values :=
  <[key := [value]]> v.

(** [v.Add(key, value)]: [v[key] = append(v[key], value)] *)
Definition Add (v : Values) (key value : string) : Values :=
  <[key := default [] (v !! key) ++ [value]]> v.

(** The loop of [parseQuery]; every round removes at least one byte of
    [query], so [String.length query] rounds are enough. *)
Fixpoint parseQuery_loop (fuel : nat) (m : Values) (err : option error)
    (query : string) : Values * option error :=
  match fuel with
  | O => (m, err)
  | S fuel =>
      if String.eqb query EmptyString then (m, err)
      else
        let '(key, query, _) := strings.Cut query "&" in
        if strings.Contains key ";"
        then parseQuery_loop fuel m
               (Some (fmt.Errorf "invalid semicolon separator in query")) query
        else if String.eqb key EmptyString
        then parseQuery_loop fuel m err query
        else
          let '(key, value, _) := strings.Cut key "=" in
          match QueryUnescape key with
          | (_, Some err1) =>
              parseQuery_loop fuel m
                (match err with None => Some err1 | Some _ => err end) query
          | (key, None) =>
              match QueryUnescape value with
              | (_, Some err1) =>
                  parseQuery_loop fuel m
                    (match err with None => Some err1 | Some _ => err end) query
              | (value, None) =>
                  parseQuery_loop fuel (Add m key value) err query
              end
          end
  end.

Definition ParseQuery (query : string) : Values * option error :=
  parseQuery_loop (String.length query) ∅ None query.

(** The keys of the map, as [sort.Strings] orders them. *)
Definition sorted_keys (v : Values) : list string :=
  merge_sort String.le (map_to_list v).*1.

(** [v.Encode()]: the pairs [key=value] with both sides escaped, sorted by
    key, joined by [&]. *)
Definition Encode (v : Values) : string :=
  foldl (fun buf k =>
           let vs := default [] (v !! k) in
           let keyEscaped := QueryEscape k in
           foldl (fun buf x =>
                    (if String.eqb buf EmptyString then buf else buf +:+ "&")
                      +:+ keyEscaped +:+ "=" +:+ QueryEscape x)
                 buf vs)
        EmptyString (sorted_keys v).

Record Userinfo : Set := {
  username : string;
  password : string;
  passwordSet : bool
}.

Record URL : Type := {
  Scheme : string;
  Opaque : string;
  User : option Userinfo;
  Host : string;
  Path : string;
  RawPath : string;
  OmitHost : bool;
  ForceQuery : bool;
  RawQuery : string;
  Fragment : string;
  RawFragment : string
}.

(** [new(URL)] *)
Definition zero : URL :=
  {| Scheme := EmptyString; Opaque := EmptyString; User := None;
     Host := EmptyString; Path := EmptyString; RawPath := EmptyString;
     OmitHost := false; ForceQuery := false; RawQuery := EmptyString;
     Fragment := EmptyString; RawFragment := EmptyString |}.

Definition with_RawQuery (u : URL) (q : string) : URL :=
  {| Scheme := Scheme u; Opaque := Opaque u; User := User u; Host := Host u;
     Path := Path u; RawPath := RawPath u; OmitHost := OmitHost u;
     ForceQuery := ForceQuery u; RawQuery := q; Fragment := Fragment u;
     RawFragment := RawFragment u |}.

Definition with_Host (u : URL) (h : string) : URL :=
  {| Scheme := Scheme u; Opaque := Opaque u; User := User u; Host := h;
     Path := Path u; RawPath := RawPath u; OmitHost := OmitHost u;
     ForceQuery := ForceQuery u; RawQuery := RawQuery u; Fragment := Fragment u;
     RawFragment := RawFragment u |}.

(** [u.Query()]: the parsed [RawQuery]; malformed pairs are dropped and the
    error of [ParseQuery] is discarded. *)
Definition Query (u : URL) : Values := (ParseQuery (RawQuery u)).1.

(** [getScheme]: the scheme and what follows its colon. *)
Fixpoint getScheme_from (i : nat) (rawURL rest : string)
    : string * string * option error :=
  match rest with
  | EmptyString => (EmptyString, rawURL, None)
  | String c rest' =>
      if between "a" "z" c || between "A" "Z" c
      then getScheme_from (S i) rawURL rest'
      else if between "0" "9" c || one_of "+-." c
      then match i with
           | O => (EmptyString, rawURL, None)
           | S _ => getScheme_from (S i) rawURL rest'
           end
      else if byte_eqb c ":"
      then match i with
           | O => (EmptyString, EmptyString,
                   Some (errors.New "missing protocol scheme"))
           | S _ => (strings.upto i rawURL, rest', None)
           end
      else (EmptyString, rawURL, None)
  end.

Definition getScheme (rawURL : string) : string * string * option error :=
  getScheme_from O rawURL rawURL.

Definition stringContainsCTLByte (s : string) : bool :=
  negb (strings.all_bytes
          (fun b => negb ((N_of_ascii b <? 32) || (N_of_ascii b =? 127))) s).

Definition validOptionalPort (port : string) : bool :=
  match port with
  | EmptyString => true
  | String c digits =>
      byte_eqb c ":" && strings.all_bytes (between "0" "9") digits
  end.

Definition parseHost (host : string) : string * option error :=
  let plain :=
    match unescape host encodeHost with
    | (_, Some err) => (EmptyString, Some err)
    | (host, None) => (host, None)
    end in
  if strings.HasPrefix host "["
  then
    match strings.LastIndex host "]" with
    | None => (EmptyString, Some (errors.New "missing ']' in host"))
    | Some i =>
        let colonPort := strings.from (i + 1) host in
        if negb (validOptionalPort colonPort)
        then (EmptyString,
              Some (fmt.Errorf ("invalid port " +:+ strconv.Quote colonPort
                                  +:+ " after host")))
        else
          match strings.Index (strings.upto i host) "%25" with
          | Some zone =>
              match unescape (strings.upto zone host) encodeHost with
              | (_, Some err) => (EmptyString, Some err)
              | (host1, None) =>
                  match unescape (strings.from zone (strings.upto i host))
                          encodeZone with
                  | (_, Some err) => (EmptyString, Some err)
                  | (host2, None) =>
                      match unescape (strings.from i host) encodeHost with
                      | (_, Some err) => (EmptyString, Some err)
                      | (host3, None) => (host1 +:+ host2 +:+ host3, None)
                      end
                  end
              end
          | None => plain
          end
    end
  else
    match strings.LastIndex host ":" with
    | Some i =>
        let colonPort := strings.from i host in
        if negb (validOptionalPort colonPort)
        then (EmptyString,
              Some (fmt.Errorf ("invalid port " +:+ strconv.Quote colonPort
                                  +:+ " after host")))
        else plain
    | None => plain
    end.

Definition validUserinfo (s : string) : bool :=
  strings.all_bytes
    (fun r => between "A" "Z" r || between "a" "z" r || between "0" "9" r
              || one_of "-._:~!$&'()*+,;=%@" r) s.

Definition parseAuthority (authority : string)
    : option Userinfo * string * option error :=
  let i := strings.LastIndex authority "@" in
  let '(host, err) :=
    match i with
    | None => parseHost authority
    | Some i => parseHost (strings.from (i + 1) authority)
    end in
  match err, i with
  | Some err, _ => (None, EmptyString, Some err)
  | None, None => (None, host, None)
  | None, Some i =>
      let userinfo := strings.upto i authority in
      if negb (validUserinfo userinfo)
      then (None, EmptyString, Some (errors.New "net/url: invalid userinfo"))
      else if negb (strings.Contains userinfo ":")
      then
        match unescape userinfo encodeUserPassword with
        | (_, Some err) => (None, EmptyString, Some err)
        | (userinfo, None) =>
            (Some {| username := userinfo; password := EmptyString;
                     passwordSet := false |}, host, None)
        end
      else
        let '(username, password, _) := strings.Cut userinfo ":" in
        match unescape username encodeUserPassword with
        | (_, Some err) => (None, EmptyString, Some err)
        | (username, None) =>
            match unescape password encodeUserPassword with
            | (_, Some err) => (None, EmptyString, Some err)
            | (password, None) =>
                (Some {| username := username; password := password;
                         passwordSet := true |}, host, None)
            end
        end
  end.

Definition with_Path (u : URL) (path rawPath : string) : URL :=
  {| Scheme := Scheme u; Opaque := Opaque u; User := User u; Host := Host u;
     Path := path; RawPath := rawPath; OmitHost := OmitHost u;
     ForceQuery := ForceQuery u; RawQuery := RawQuery u; Fragment := Fragment u;
     RawFragment := RawFragment u |}.

Definition with_Fragment (u : URL) (frag rawFrag : string) : URL :=
  {| Scheme := Scheme u; Opaque := Opaque u; User := User u; Host := Host u;
     Path := Path u; RawPath := RawPath u; OmitHost := OmitHost u;
     ForceQuery := ForceQuery u; RawQuery := RawQuery u; Fragment := frag;
     RawFragment := rawFrag |}.

(** [u.setPath(p)]: [RawPath] is kept only when it differs from the default
    encoding of [Path]. *)
Definition setPath (u : URL) (p : string) : URL * option error :=
  match unescape p encodePath with
  | (_, Some err) => (u, Some err)
  | (path, None) =>
      if String.eqb p (escape path encodePath)
      then (with_Path u path EmptyString, None)
      else (with_Path u path p, None)
  end.

Definition setFragment (u : URL) (f : string) : URL * option error :=
  match unescape f encodeFragment with
  | (_, Some err) => (u, Some err)
  | (frag, None) =>
      if String.eqb f (escape frag encodeFragment)
      then (with_Fragment u frag EmptyString, None)
      else (with_Fragment u frag f, None)
  end.

(** [parse(rawURL, viaRequest)]: a URL without its fragment. *)
Definition parse (rawURL : string) (viaRequest : bool) : result URL :=
  if stringContainsCTLByte rawURL
  then Err (errors.New "net/url: invalid control character in URL")
  else if String.eqb rawURL EmptyString && viaRequest
  then Err (errors.New "empty url")
  else if String.eqb rawURL "*"
  then Ok (with_Path zero "*" EmptyString)
  else
    match getScheme rawURL with
    | (_, _, Some err) => Err err
    | (scheme, rest, None) =>
        let scheme := strings.ToLower scheme in
        let '(rest, forceQuery, rawQuery) :=
          if strings.HasSuffix rest "?" && Nat.eqb (strings.Count rest "?") 1
          then (strings.upto (String.length rest - 1) rest, true, EmptyString)
          else let '(rest, rawQuery, _) := strings.Cut rest "?" in
               (rest, false, rawQuery) in
        let url :=
          {| Scheme := scheme; Opaque := EmptyString; User := None;
             Host := EmptyString; Path := EmptyString; RawPath := EmptyString;
             OmitHost := false; ForceQuery := forceQuery; RawQuery := rawQuery;
             Fragment := EmptyString; RawFragment := EmptyString |} in
        let has_scheme := negb (String.eqb scheme EmptyString) in
        let rootless := negb (strings.HasPrefix rest "/") in
        if rootless && has_scheme
        then Ok {| Scheme := scheme; Opaque := rest; User := None;
                   Host := EmptyString; Path := EmptyString;
                   RawPath := EmptyString; OmitHost := false;
                   ForceQuery := forceQuery; RawQuery := rawQuery;
                   Fragment := EmptyString; RawFragment := EmptyString |}
        else if rootless && viaRequest
        then Err (errors.New "invalid URI for request")
        else if rootless && strings.Contains (strings.Cut rest "/").1.1 ":"
        then Err (errors.New "first path segment in URL cannot contain colon")
        else
          let finish (url : URL) (rest : string) :=
            match setPath url rest with
            | (_, Some err) => Err err
            | (url, None) => Ok url
            end in
          if (has_scheme
              || (negb viaRequest && negb (strings.HasPrefix rest "///")))
             && strings.HasPrefix rest "//"
          then
            let authority := strings.from 2 rest in
            let '(authority, rest) :=
              match strings.Index authority "/" with
              | Some i => (strings.upto i authority, strings.from i authority)
              | None => (authority, EmptyString)
              end in
            match parseAuthority authority with
            | (_, _, Some err) => Err err
            | (user, host, None) =>
                finish {| Scheme := scheme; Opaque := EmptyString; User := user;
                          Host := host; Path := EmptyString;
                          RawPath := EmptyString; OmitHost := false;
                          ForceQuery := forceQuery; RawQuery := rawQuery;
                          Fragment := EmptyString; RawFragment := EmptyString |}
                       rest
            end
          else if has_scheme && strings.HasPrefix rest "/"
          then finish {| Scheme := scheme; Opaque := EmptyString; User := None;
                         Host := EmptyString; Path := EmptyString;
                         RawPath := EmptyString; OmitHost := true;
                         ForceQuery := forceQuery; RawQuery := rawQuery;
                         Fragment := EmptyString; RawFragment := EmptyString |}
                      rest
          else finish url rest
    end.

(** [url.Parse(rawURL)] *)
Definition Parse (rawURL : string) : result URL :=
  let '(u, frag, _) := strings.Cut rawURL "#" in
  match parse u false with
  | Err err => Err (url_Error "parse" u err)
  | Ok url =>
      if String.eqb frag EmptyString then Ok url
      else match setFragment url frag with
           | (_, Some err) => Err (url_Error "parse" rawURL err)
           | (url, None) => Ok url
           end
  end.

Definition validEncoded (s : string) (mode : encoding) : bool :=
  strings.all_bytes
    (fun c => one_of "!$&'()*+,;=:@" c || one_of "[]" c || byte_eqb c "%"
              || negb (shouldEscape c mode)) s.

Definition EscapedPath (u : URL) : string :=
  let hinted :=
    if negb (String.eqb (RawPath u) EmptyString)
       && validEncoded (RawPath u) encodePath
    then match unescape (RawPath u) encodePath with
         | (p, None) => String.eqb p (Path u)
         | (_, Some _) => false
         end
    else false in
  if hinted then RawPath u
  else if String.eqb (Path u) "*" then "*"
  else escape (Path u) encodePath.

Definition EscapedFragment (u : URL) : string :=
  let hinted :=
    if negb (String.eqb (RawFragment u) EmptyString)
       && validEncoded (RawFragment u) encodeFragment
    then match unescape (RawFragment u) encodeFragment with
         | (f, None) => String.eqb f (Fragment u)
         | (_, Some _) => false
         end
    else false in
  if hinted then RawFragment u else escape (Fragment u) encodeFragment.

(** The [String] method of [Userinfo] *)
Definition Userinfo_String (u : Userinfo) : string :=
  let s := escape (username u) encodeUserPassword in
  if passwordSet u then s +:+ ":" +:+ escape (password u) encodeUserPassword
  else s.

Definition nonempty (s : string) : bool := negb (String.eqb s EmptyString).

Definition is_Some_b {A} (o : option A) : bool :=
  match o with Some _ => true | None => false end.

(** The [String] method of [URL]: the URL reassembled, [buf] being the
    builder. *)
Definition String_ (u : URL) : string :=
  let buf := if nonempty (Scheme u) then Scheme u +:+ ":" else EmptyString in
  let buf :=
    if nonempty (Opaque u) then buf +:+ Opaque u
    else
      let buf :=
        if nonempty (Scheme u) || nonempty (Host u) || is_Some_b (User u)
        then
          if OmitHost u && negb (nonempty (Host u)) && negb (is_Some_b (User u))
          then buf
          else
            let buf :=
              if nonempty (Host u) || nonempty (Path u) || is_Some_b (User u)
              then buf +:+ "//" else buf in
            let buf :=
              match User u with
              | Some ui => buf +:+ Userinfo_String ui +:+ "@"
              | None => buf
              end in
            if nonempty (Host u) then buf +:+ escape (Host u) encodeHost
            else buf
        else buf in
      let path := EscapedPath u in
      let buf :=
        if nonempty path && negb (strings.HasPrefix path "/")
           && nonempty (Host u)
        then buf +:+ "/" else buf in
      let buf :=
        if negb (nonempty buf)
           && strings.Contains (strings.Cut path "/").1.1 ":"
        then buf +:+ "./" else buf in
      buf +:+ path in
  let buf :=
    if ForceQuery u || nonempty (RawQuery u)
    then buf +:+ "?" +:+ RawQuery u else buf in
  if nonempty (Fragment u) then buf +:+ "#" +:+ EscapedFragment u else buf.

End url.

(** ** Package [net/http]: [NewRequest] *)

Module http.

Definition MethodGet : string := "GET".

(** [type Header map[string][]string] *)
Abbreviation Header := (gmap string (list string)).

(** The fields of [http.Request] that [NewRequest] sets for a request without
    a body. *)
Record Request : Type := {
  Method : string;
  URL : url.URL;
  Proto : string;
  ProtoMajor : Z;
  ProtoMinor : Z;
  Header_ : Header;
  Body : option string;
  Host : string
}.

(** [httpguts.IsTokenRune] on bytes; a byte from 0x80 on is no token rune. *)
Definition isToken (c : ascii) : bool :=
  between "a" "z" c || between "A" "Z" c || between "0" "9" c
  || url.one_of "!#$%&'*+-.^_`|~" c.

Definition validMethod (method : string) : bool :=
  url.nonempty method && strings.all_bytes isToken method.

Definition hasPort (s : string) : bool :=
  match strings.LastIndex s ":", strings.LastIndex s "]" with
  | Some i, Some j => (j <? i)%nat
  | Some _, None => true
  | None, _ => false
  end.

Definition removeEmptyPort (host : string) : string :=
  if hasPort host then strings.TrimSuffix host ":" else host.

(** [http.NewRequest(method, url, nil)] *)
Definition NewRequest (method urlStr : string) : result Request :=
  let method := if String.eqb method EmptyString then "GET" else method in
  if negb (validMethod method)
  then Err (fmt.Errorf ("net/http: invalid method " +:+ strconv.Quote method))
  else
    match url.Parse urlStr with
    | Err err => Err err
    | Ok u =>
        let u := url.with_Host u (removeEmptyPort (url.Host u)) in
        Ok {| Method := method; URL := u; Proto := "HTTP/1.1";
              ProtoMajor := 1; ProtoMinor := 1; Header_ := ∅;
              Body := None; Host := url.Host u |}
    end.

End http.

(** ** Package [encoding/base64]: [RawURLEncoding] *)

Module base64.

Definition encodeURL : string :=
  "ABCDEFGHIJKLMNOPQRSTUVWXYZabcdefghijklmnopqrstuvwxyz0123456789-_".

(** The character of a 6-bit value in the URL-safe alphabet. *)
Definition enc (v : N) : ascii :=
  match String.get (N.to_nat v) encodeURL with
  | Some c => c
  | None => "A"
  end.

(** [RawURLEncoding.EncodeToString]: three bytes give four characters; a
    remainder of one or two bytes gives two or three, and no padding. *)
Fixpoint EncodeToString (src : string) : string :=
  match src with
  | String a (String b (String c rest)) =>
      let v := N.lor (N.lor (N.shiftl (N_of_ascii a) 16)
                            (N.shiftl (N_of_ascii b) 8)) (N_of_ascii c) in
      String (enc (N.land (N.shiftr v 18) 63))
        (String (enc (N.land (N.shiftr v 12) 63))
          (String (enc (N.land (N.shiftr v 6) 63))
            (String (enc (N.land v 63)) (EncodeToString rest))))
  | String a (String b EmptyString) =>
      let v := N.lor (N.shiftl (N_of_ascii a) 16) (N.shiftl (N_of_ascii b) 8) in
      String (enc (N.land (N.shiftr v 18) 63))
        (String (enc (N.land (N.shiftr v 12) 63))
          (String (enc (N.land (N.shiftr v 6) 63)) EmptyString))
  | String a EmptyString =>
      let v := N.shiftl (N_of_ascii a) 16 in
      String (enc (N.land (N.shiftr v 18) 63))
        (String (enc (N.land (N.shiftr v 12) 63)) EmptyString)
  | EmptyString => EmptyString
  end.

(** The 6-bit value of a character of the alphabet. *)
Definition dec (c : ascii) : option N :=
  if between "A" "Z" c then Some (N_of_ascii c - 65)
  else if between "a" "z" c then Some (N_of_ascii c - 97 + 26)
  else if between "0" "9" c then Some (N_of_ascii c - 48 + 52)
  else if byte_eqb c "-" then Some 62
  else if byte_eqb c "_" then Some 63
  else None.

(** [RawURLEncoding.DecodeString], as the tests use it to read a token:
    the lenient decoder, which ignores the unused low bits of the last
    character; [None] for an input with a byte outside the alphabet or with
    one character left over.  (Go's decoder also skips line breaks, which an
    encoded string never holds.) *)
Fixpoint DecodeString (s : string) : option string :=
  match s with
  | String a (String b (String c (String d rest))) =>
      va ← dec a; vb ← dec b; vc ← dec c; vd ← dec d;
      out ← DecodeString rest;
      let v := N.lor (N.lor (N.shiftl va 18) (N.shiftl vb 12))
                     (N.lor (N.shiftl vc 6) vd) in
      Some (String (ascii_of_N (N.land (N.shiftr v 16) 255))
             (String (ascii_of_N (N.land (N.shiftr v 8) 255))
               (String (ascii_of_N (N.land v 255)) out)))
  | String a (String b (String c EmptyString)) =>
      va ← dec a; vb ← dec b; vc ← dec c;
      let v := N.lor (N.lor (N.shiftl va 18) (N.shiftl vb 12)) (N.shiftl vc 6) in
      Some (String (ascii_of_N (N.land (N.shiftr v 16) 255))
             (String (ascii_of_N (N.land (N.shiftr v 8) 255)) EmptyString))
  | String a (String b EmptyString) =>
      va ← dec a; vb ← dec b;
      let v := N.lor (N.shiftl va 18) (N.shiftl vb 12) in
      Some (String (ascii_of_N (N.land (N.shiftr v 16) 255)) EmptyString)
  | String _ EmptyString => None
  | EmptyString => Some EmptyString
  end.

End base64.

(** ** Package [crypto/sha256] (FIPS 180-4), on 32-bit words held in [N] *)

Module sha256.

Definition mask32 : N := 4294967295.

Definition add32 (a b : N) : N := N.land (a + b) mask32.

(** [bits.RotateLeft32(x, -k)] *)
Definition rotr (k x : N) : N :=
  N.land (N.lor (N.shiftr x k) (N.shiftl x (32 - k))) mask32.

Definition not32 (x : N) : N := N.lxor x mask32.

(** The words that a text of hexadecimal numbers, separated by blanks,
    spells. *)
Fixpoint hex_words (s : string) (cur : option N) : list N :=
  match s with
  | EmptyString => match cur with Some w => [w] | None => [] end
  | String c s =>
      if byte_eqb c " "
      then match cur with Some w => w :: hex_words s None | None => hex_words s None end
      else hex_words s (Some (16 * default 0 cur + url.unhex c))
  end.

(** The round constants [_K] of [sha256block.go]. *)
Definition _K : list N :=
  hex_words
    ("428a2f98 71374491 b5c0fbcf e9b5dba5 3956c25b 59f111f1 923f82a4 ab1c5ed5 "
     +:+ "d807aa98 12835b01 243185be 550c7dc3 72be5d74 80deb1fe 9bdc06a7 c19bf174 "
     +:+ "e49b69c1 efbe4786 0fc19dc6 240ca1cc 2de92c6f 4a7484aa 5cb0a9dc 76f988da "
     +:+ "983e5152 a831c66d b00327c8 bf597fc7 c6e00bf3 d5a79147 06ca6351 14292967 "
     +:+ "27b70a85 2e1b2138 4d2c6dfc 53380d13 650a7354 766a0abb 81c2c92e 92722c85 "
     +:+ "a2bfe8a1 a81a664b c24b8b70 c76c51a3 d192e819 d6990624 f40e3585 106aa070 "
     +:+ "19a4c116 1e376c08 2748774c 34b0bcb5 391c0cb3 4ed8aa4a 5b9cca4f 682e6ff3 "
     +:+ "748f82ee 78a5636f 84c87814 8cc70208 90befffa a4506ceb bef9a3f7 c67178f2")
    None.

(** The initial hash value: [init0] to [init7]. *)
Definition init : list N :=
  hex_words "6a09e667 bb67ae85 3c6ef372 a54ff53a 510e527f 9b05688c 1f83d9ab 5be0cd19"
    None.

(** Four bytes, big endian, as one word. *)
Fixpoint words (p : list N) : list N :=
  match p with
  | a :: b :: c :: d :: p =>
      N.lor (N.lor (N.shiftl a 24) (N.shiftl b 16)) (N.lor (N.shiftl c 8) d)
        :: words p
  | _ => []
  end.

(** The message schedule; [w] holds the words so far, the latest first. *)
Fixpoint schedule (n : nat) (w : list N) : list N :=
  match n with
  | O => w
  | S n =>
      let v1 := nth 1 w 0 in
      let t1 := N.lxor (N.lxor (rotr 17 v1) (rotr 19 v1)) (N.shiftr v1 10) in
      let v2 := nth 14 w 0 in
      let t2 := N.lxor (N.lxor (rotr 7 v2) (rotr 18 v2)) (N.shiftr v2 3) in
      schedule n
        (add32 (add32 (add32 t1 (nth 6 w 0)) t2) (nth 15 w 0) :: w)
  end.

(** One round on the working variables [a..h]. *)
Definition round (st : list N) (kw : N * N) : list N :=
  match st with
  | [a; b; c; d; e; f; g; h] =>
      let t1 := add32 (add32 (add32 (add32 h
                  (N.lxor (N.lxor (rotr 6 e) (rotr 11 e)) (rotr 25 e)))
                  (N.lxor (N.land e f) (N.land (not32 e) g))) kw.1) kw.2 in
      let t2 := add32 (N.lxor (N.lxor (rotr 2 a) (rotr 13 a)) (rotr 22 a))
                  (N.lxor (N.lxor (N.land a b) (N.land a c)) (N.land b c)) in
      [add32 t1 t2; a; b; c; add32 d t1; e; f; g]
  | _ => st
  end.

(** [blockGeneric] on one 64-byte chunk. *)
Definition block (h : list N) (chunk : list N) : list N :=
  let w := rev (schedule 48 (rev (words chunk))) in
  zip_with add32 h (foldl round h (zip _K w)).

Fixpoint blocks (n : nat) (h : list N) (p : list N) : list N :=
  match n with
  | O => h
  | S n => blocks n (block h (take 64 p)) (drop 64 p)
  end.

(** A value as [k] big-endian bytes. *)
Fixpoint be_bytes (k : nat) (x : N) : list N :=
  match k with
  | O => []
  | S k => N.land (N.shiftr x (8 * N.of_nat k)) 255 :: be_bytes k x
  end.

(** The padding of [checkSum]: a 0x80 byte, zeros up to 56 modulo 64, and the
    length in bits as 8 bytes. *)
Definition pad (len : nat) : list N :=
  let r := (len mod 64)%nat in
  let zeros := (if r <? 56 then 55 - r else 119 - r)%nat in
  128 :: replicate zeros 0 ++ be_bytes 8 (8 * N.of_nat len).

(** [sha256.Sum256(data)]: the 32 bytes of the digest. *)
Definition Sum256 (data : string) : string :=
  let p := map N_of_ascii (list_ascii_of_string data) in
  let p := p ++ pad (List.length p) in
  let h := blocks (List.length p / 64) init p in
  string_of_list_ascii (map ascii_of_N (flat_map (be_bytes 4) h)).

End sha256.

(** ** The collaborators: [context], [time], [runtime] and the AWS SDK *)

Module context.

(** A [context.Context]; the package only passes it on. *)
Inductive Context : Set :=
  | TODO
  | Background.

End context.

Module time.

(** An instant, in nanoseconds since the Unix epoch (UTC). *)
Definition Time : Set := Z.

Definition Second : Z := 1000000000.

(** [t.Add(d)] *)
Definition Add (t : Time) (d : Z) : Time := (t + d)%Z.

End time.

Module aws.

Record Credentials : Set := {
  AccessKeyID : string;
  SecretAccessKey : string;
  SessionToken : string
}.

(** The interface [aws.CredentialsProvider]: one method, [Retrieve]. *)
Record CredentialsProvider : Type := {
  Retrieve : context.Context -> Credentials * option error
}.

(** The fields of [aws.Config] that the package and [sts.NewFromConfig]
    read. *)
Record Config : Type := {
  Region : string;
  Credentials_ : CredentialsProvider
}.

(** [aws.AnonymousCredentials{}]: its [Retrieve] always fails. *)
Definition AnonymousCredentials : CredentialsProvider :=
  {| Retrieve := fun _ =>
       ({| AccessKeyID := EmptyString; SecretAccessKey := EmptyString;
           SessionToken := EmptyString |},
        Some (fmt.Errorf
          "the AnonymousCredentials is not a valid credential provider, and cannot be used to sign AWS requests with")) |}.

End aws.

Module config.

(** The functional options that the package passes to [LoadDefaultConfig]. *)
Inductive LoadOption : Set :=
  | WithRegion (v : string)
  | WithSharedConfigProfile (v : string).

End config.

Module sts.

(** An STS client: the options [sts.NewFromConfig] copies from the
    configuration. *)
Record Client : Type := {
  Region : string;
  Credentials : aws.CredentialsProvider
}.

Definition NewFromConfig (cfg : aws.Config) : Client :=
  {| Region := aws.Region cfg; Credentials := aws.Credentials_ cfg |}.

(** [sts.AssumeRoleInput]; the fields the package leaves unset are [nil]. *)
Record AssumeRoleInput : Set := {
  RoleArn : option string;
  RoleSessionName : option string
}.

(** [types.Credentials] of the STS response: pointers, so optional. *)
Record types_Credentials : Set := {
  AccessKeyId : option string;
  SecretAccessKey : option string;
  SessionToken : option string
}.

Record AssumeRoleOutput : Set := {
  Credentials_ : option types_Credentials
}.

End sts.

(** What the package calls and cannot compute itself: the SDK's configuration
    loader, the STS service, the SigV4 presigner, the clock, the Go runtime's
    version, and the constant [version] of the package (declared in a file
    that is not part of this snapshot). *)
Record Env : Type := {
  version : string;
  runtime_Version : string;
  time_Now : time.Time;
  config_LoadDefaultConfig :
    context.Context -> list config.LoadOption -> aws.Config * option error;
  sts_AssumeRole :
    sts.Client -> context.Context -> sts.AssumeRoleInput ->
    option sts.AssumeRoleOutput * option error;
  v4_PresignHTTP :
    context.Context -> aws.Credentials -> http.Request ->
    string -> string -> string -> time.Time ->
    string * http.Header * option error
}.

(** ** Runs of the package: results, panics and the trace of calls *)

(** The functions of the package. *)
Inductive Func : Set :=
  | F_GenerateAuthToken
  | F_GenerateAuthTokenFromProfile
  | F_GenerateAuthTokenFromRole
  | F_GenerateAuthTokenFromCredentialsProvider
  | F_loadDefaultCredentials
  | F_loadCredentialsFromProfile
  | F_loadCredentialsFromRoleArn
  | F_loadCredentialsFromCredentialsProvider
  | F_constructAuthToken
  | F_buildRequest
  | F_signRequest
  | F_calculateSHA256Hash
  | F_base64Encode
  | F_addUserAgent.

(** What a run leaves in its trace: the entry into a function of the package
    and each call of a collaborator, with its arguments. *)
Inductive Event : Type :=
  | Enter (f : Func)
  | LoadDefaultConfig (ctx : context.Context) (optFns : list config.LoadOption)
  | Retrieve (ctx : context.Context)
  | AssumeRole (client : sts.Client) (ctx : context.Context)
      (params : sts.AssumeRoleInput)
  | Now
  | PresignHTTP (ctx : context.Context) (credentials : aws.Credentials)
      (req : http.Request) (payloadHash service region : string)
      (signingTime : time.Time).

Inductive outcome (A : Type) : Type :=
  | Returns (a : A)
  | Panics (msg : string).

Arguments Returns {A} a.
Arguments Panics {A} msg.

(** A computation of the package: how it ends, and the trace it leaves. *)
Definition Go (A : Type) : Type := outcome A * list Event.

#[global] Instance Go_ret : MRet Go := fun A a => (Returns a, []).

#[global] Instance Go_bind : MBind Go := fun A B f m =>
  match m with
  | (Returns a, t) => let '(o, t') := f a in (o, t ++ t')
  | (Panics msg, t) => (Panics msg, t)
  end.

Definition tell (e : Event) : Go unit := (Returns tt, [e]).

Definition panic {A} (msg : string) : Go A := (Panics msg, []).

(** A call of a function of the package: the entry is traced, then the body
    runs. *)
Definition call {A} (f : Func) (body : Go A) : Go A :=
  tell (Enter f) ≫= fun _ => body.

(** The dereference of a pointer: [nil] panics. *)
Definition deref {A} (p : option A) : Go A :=
  match p with
  | Some a => mret a
  | None => panic "invalid memory address or nil pointer dereference"
  end.

(** What the caller gets back, and the trace of the whole run. *)
Definition result_of {A} (m : Go A) : outcome A := m.1.
Definition trace_of {A} (m : Go A) : list Event := m.2.

(** ** Package [signer] *)

Module signer.

Definition ActionType : string := "Action".
Definition ActionName : string := "kafka-cluster:Connect".
Definition SigningName : string := "kafka-cluster".
Definition UserAgentKey : string := "User-Agent".
Definition LibName : string := "aws-msk-iam-sasl-signer-go".
Definition ExpiresQueryKey : string := "X-Amz-Expires".
Definition DefaultSessionName : string := "MSKSASLDefaultSession".
Definition DefaultExpirySeconds : Z := 900.

(** [fmt.Sprintf(endpointURLTemplate, region)] for the template
    ["kafka.%s.amazonaws.com"]. *)
Definition endpointURLTemplate (region : string) : string :=
  "kafka." +:+ region +:+ ".amazonaws.com".

(** The conversion [int64(x)]: the value modulo 2^64, as a signed number. *)
Definition int64 (x : Z) : Z :=
  ((x + 9223372036854775808) mod 18446744073709551616 - 9223372036854775808)%Z.

(** Calculate sha256Hash and hex encode it. *)
Definition calculateSHA256Hash (input : string) : string :=
  let hash := sha256.Sum256 input in
  hex.EncodeToString hash.

(** Base64 encode with raw url encoding. *)
Definition base64Encode (signedURL : string) : string :=
  let signedURLBytes := signedURL in
  base64.EncodeToString signedURLBytes.

(** Build https request with query parameters in order to sign. *)
Definition buildRequest (expirySeconds : Z) (endpointURL : string)
    : result http.Request :=
  let query : url.Values :=
    {[ ActionType := [ActionName];
       ExpiresQueryKey := [strconv.FormatInt (int64 expirySeconds)] ]} in
  let authURL :=
    {| url.Scheme := "https"; url.Opaque := EmptyString; url.User := None;
       url.Host := endpointURL; url.Path := "/"; url.RawPath := EmptyString;
       url.OmitHost := false; url.ForceQuery := false;
       url.RawQuery := url.Encode query;
       url.Fragment := EmptyString; url.RawFragment := EmptyString |} in
  http.NewRequest http.MethodGet (url.String_ authURL).

(** Add user agent to the signed url. *)
Definition addUserAgent (env : Env) (signedURL : string) : string * option error :=
  match url.Parse signedURL with
  | Err err =>
      (EmptyString, Some (fmt.Errorf_w "failed to parse signed url: " err))
  | Ok parsedSignedURL =>
      let query := url.Query parsedSignedURL in
      let userAgent :=
        strings.Join [LibName; version env; runtime_Version env] "/" in
      let query := url.Set_ query UserAgentKey userAgent in
      let parsedSignedURL :=
        url.with_RawQuery parsedSignedURL (url.Encode query) in
      (url.String_ parsedSignedURL, None)
  end.

(** Sign request with aws sig v4.  [credentials] is a pointer: it is
    dereferenced for the call of the presigner. *)
Definition signRequest (env : Env) (ctx : context.Context) (req : http.Request)
    (region : string) (credentials : option aws.Credentials)
    : Go (string * option error) :=
  credentials ← deref credentials;
  payloadHash ← call F_calculateSHA256Hash (mret (calculateSHA256Hash EmptyString));
  _ ← tell Now;
  let signingTime := time_Now env in
  _ ← tell (PresignHTTP ctx credentials req payloadHash SigningName region
              signingTime);
  let '(signedURL, _, err) :=
    v4_PresignHTTP env ctx credentials req payloadHash SigningName region
      signingTime in
  mret (signedURL, err).

(** Constructs Auth Token. *)
Definition constructAuthToken (env : Env) (ctx : context.Context)
    (region : string) (credentials : option aws.Credentials)
    : Go (string * option error) :=
  let endpointURL := endpointURLTemplate region in
  req ← call F_buildRequest (mret (buildRequest DefaultExpirySeconds endpointURL));
  match req with
  | Err err =>
      mret (EmptyString,
            Some (fmt.Errorf_w "failed to build request for signing: " err))
  | Ok req =>
      '(signedURL, err) ← call F_signRequest
                            (signRequest env ctx req region credentials);
      match err with
      | Some err =>
          mret (EmptyString,
                Some (fmt.Errorf_w "failed to sign request with aws sig v4: "
                        err))
      | None =>
          '(signedURLWithUserAgent, err) ←
            call F_addUserAgent (mret (addUserAgent env signedURL));
          match err with
          | Some err =>
              mret (EmptyString,
                    Some (fmt.Errorf_w
                            "failed to add user agent to the signed url: " err))
          | None =>
              token ← call F_base64Encode
                        (mret (base64Encode signedURLWithUserAgent));
              mret (token, None)
          end
      end
  end.

(** Loads credentials from the credentials provider: the address of what
    [Retrieve] returned, and its error. *)
Definition loadCredentialsFromCredentialsProvider (ctx : context.Context)
    (credentialsProvider : aws.CredentialsProvider)
    : Go (option aws.Credentials * option error) :=
  _ ← tell (Retrieve ctx);
  let '(creds, err) := aws.Retrieve credentialsProvider ctx in
  mret (Some creds, err).

(** Loads credentials from the default credential chain. *)
Definition loadDefaultCredentials (env : Env) (ctx : context.Context)
    (region : string) : Go (option aws.Credentials * option error) :=
  _ ← tell (LoadDefaultConfig ctx [config.WithRegion region]);
  let '(cfg, err) :=
    config_LoadDefaultConfig env ctx [config.WithRegion region] in
  match err with
  | Some err => mret (None, Some (fmt.Errorf_w "unable to load SDK config: " err))
  | None =>
      call F_loadCredentialsFromCredentialsProvider
        (loadCredentialsFromCredentialsProvider ctx (aws.Credentials_ cfg))
  end.

(** Loads credentials from a named aws profile. *)
Definition loadCredentialsFromProfile (env : Env) (ctx : context.Context)
    (region awsProfile : string) : Go (option aws.Credentials * option error) :=
  let optFns :=
    [config.WithRegion region; config.WithSharedConfigProfile awsProfile] in
  _ ← tell (LoadDefaultConfig ctx optFns);
  let '(cfg, err) := config_LoadDefaultConfig env ctx optFns in
  match err with
  | Some err => mret (None, Some (fmt.Errorf_w "unable to load SDK config: " err))
  | None =>
      call F_loadCredentialsFromCredentialsProvider
        (loadCredentialsFromCredentialsProvider ctx (aws.Credentials_ cfg))
  end.

(** Loads credentials by assuming the passed role.  This implementation
    creates a new sts client for every call, from the configuration loaded
    for [region]. *)
Definition loadCredentialsFromRoleArn (env : Env) (ctx : context.Context)
    (region roleArn stsSessionName : string)
    : Go (option aws.Credentials * option error) :=
  _ ← tell (LoadDefaultConfig ctx [config.WithRegion region]);
  let '(cfg, err) :=
    config_LoadDefaultConfig env ctx [config.WithRegion region] in
  match err with
  | Some err => mret (None, Some (fmt.Errorf_w "unable to load SDK config: " err))
  | None =>
      let stsClient := sts.NewFromConfig cfg in
      let assumeRoleInput :=
        {| sts.RoleArn := Some roleArn;
           sts.RoleSessionName := Some stsSessionName |} in
      _ ← tell (AssumeRole stsClient ctx assumeRoleInput);
      let '(assumeRoleOutput, err) :=
        sts_AssumeRole env stsClient ctx assumeRoleInput in
      match err with
      | Some err =>
          mret (None,
                Some (fmt.Errorf_w
                        ("unable to assume role, " +:+ roleArn +:+ ": ") err))
      | None =>
          assumeRoleOutput ← deref assumeRoleOutput;
          credentials ← deref (sts.Credentials_ assumeRoleOutput);
          accessKeyId ← deref (sts.AccessKeyId credentials);
          secretAccessKey ← deref (sts.SecretAccessKey credentials);
          sessionToken ← deref (sts.SessionToken credentials);
          let creds :=
            {| aws.AccessKeyID := accessKeyId;
               aws.SecretAccessKey := secretAccessKey;
               aws.SessionToken := sessionToken |} in
          mret (Some creds, None)
      end
  end.

(** GenerateAuthToken generates base64 encoded signed url as auth token from
    default credentials. *)
Definition GenerateAuthToken (env : Env) (ctx : context.Context)
    (region : string) : Go (string * option error) :=
  '(credentials, err) ← call F_loadDefaultCredentials
                          (loadDefaultCredentials env ctx region);
  match err with
  | Some err =>
      mret (EmptyString, Some (fmt.Errorf_w "failed to load credentials: " err))
  | None =>
      call F_constructAuthToken (constructAuthToken env ctx region credentials)
  end.

(** GenerateAuthTokenFromProfile generates base64 encoded signed url as auth
    token by loading IAM credentials from an AWS named profile. *)
Definition GenerateAuthTokenFromProfile (env : Env) (ctx : context.Context)
    (region awsProfile : string) : Go (string * option error) :=
  '(credentials, err) ← call F_loadCredentialsFromProfile
                          (loadCredentialsFromProfile env ctx region awsProfile);
  match err with
  | Some err =>
      mret (EmptyString, Some (fmt.Errorf_w "failed to load credentials: " err))
  | None =>
      call F_constructAuthToken (constructAuthToken env ctx region credentials)
  end.

(** GenerateAuthTokenFromRole generates base64 encoded signed url as auth token
    by loading IAM credentials from an aws role Arn. *)
Definition GenerateAuthTokenFromRole (env : Env) (ctx : context.Context)
    (region roleArn stsSessionName : string) : Go (string * option error) :=
  let stsSessionName :=
    if String.eqb stsSessionName EmptyString then DefaultSessionName
    else stsSessionName in
  '(credentials, err) ← call F_loadCredentialsFromRoleArn
                          (loadCredentialsFromRoleArn env ctx region roleArn
                             stsSessionName);
  match err with
  | Some err =>
      mret (EmptyString, Some (fmt.Errorf_w "failed to load credentials: " err))
  | None =>
      call F_constructAuthToken (constructAuthToken env ctx region credentials)
  end.

(** GenerateAuthTokenFromCredentialsProvider generates base64 encoded signed
    url as auth token by loading IAM credentials from an aws credentials
    provider. *)
Definition GenerateAuthTokenFromCredentialsProvider (env : Env)
    (ctx : context.Context) (region : string)
    (credentialsProvider : aws.CredentialsProvider) : Go (string * option error) :=
  '(credentials, err) ← call F_loadCredentialsFromCredentialsProvider
                          (loadCredentialsFromCredentialsProvider ctx
                             credentialsProvider);
  match err with
  | Some err =>
      mret (EmptyString, Some (fmt.Errorf_w "failed to load credentials: " err))
  | None =>
      call F_constructAuthToken (constructAuthToken env ctx region credentials)
  end.

(** [SignerOptions]: input options for the signer library. *)
Record SignerOptions : Set := {
  Region : option string;
  AwsProfile : option string;
  RoleARN : option string;
  STSSessionName : option string;
  STSRegion : option string;
  AwsMaxRetries : Z;
  AwsMaxBackOffMs : Z;
  AWSCredentials : option aws.Credentials
}.

(** The method [Validate] of [SignerOptions]; the receiver is a pointer and
    may be [nil]. *)
Definition Validate (so : option SignerOptions) : option error :=
  match so with
  | None => Some (fmt.Errorf "region must be provided")
  | Some so =>
      match Region so with
      | None => Some (fmt.Errorf "region must be provided")
      | Some _ =>
          let credentialsArgumentsCount := 0%Z in
          let credentialsArgumentsCount :=
            if url.is_Some_b (AwsProfile so)
            then (credentialsArgumentsCount + 1)%Z
            else credentialsArgumentsCount in
          let credentialsArgumentsCount :=
            if url.is_Some_b (RoleARN so)
            then (credentialsArgumentsCount + 1)%Z
            else credentialsArgumentsCount in
          let credentialsArgumentsCount :=
            if url.is_Some_b (AWSCredentials so)
            then (credentialsArgumentsCount + 1)%Z
            else credentialsArgumentsCount in
          if (1 <? credentialsArgumentsCount)%Z
          then Some (fmt.Errorf
                 "please provide only one of AWS profile, Role ARN and AWS Credentials")
          else None
      end
  end.

End signer.

(** ** Stand-ins for the collaborators, as the package's tests set them up *)

Module mock.

(** [MockCredentialsProvider] of the tests: [Retrieve] returns the credentials
    it holds. *)
Definition MockCredentialsProvider (credentials : aws.Credentials)
    : aws.CredentialsProvider :=
  {| aws.Retrieve := fun _ => (credentials, None) |}.

Definition mockCreds : aws.Credentials :=
  {| aws.AccessKeyID := "MOCK-ACCESS-KEY";
     aws.SecretAccessKey := "MOCK-SECRET-KEY";
     aws.SessionToken := "MOCK-SESSION-TOKEN" |}.

Definition TestRegion : string := "us-west-2".
Definition TestEndpoint : string := "kafka.us-west-2.amazonaws.com".

(** The region that the options select: the last [WithRegion]. *)
Definition region_of (optFns : list config.LoadOption) : string :=
  foldl (fun r o => match o with config.WithRegion v => v | _ => r end)
        EmptyString optFns.

(** A configuration loader that resolves [mockCreds] for every region and
    knows no named profile but ["default"]. *)
Definition LoadDefaultConfig (ctx : context.Context)
    (optFns : list config.LoadOption) : aws.Config * option error :=
  let cfg := {| aws.Region := region_of optFns;
                aws.Credentials_ := MockCredentialsProvider mockCreds |} in
  if forallb (fun o => match o with
                       | config.WithSharedConfigProfile p => String.eqb p "default"
                       | _ => true
                       end) optFns
  then (cfg, None)
  else (cfg, Some (errors.New "failed to get shared config profile"))%string.

(** An STS service that knows one role. *)
Definition AssumeRole (client : sts.Client) (ctx : context.Context)
    (params : sts.AssumeRoleInput)
    : option sts.AssumeRoleOutput * option error :=
  match sts.RoleArn params with
  | Some "arn:aws:iam::123456789012:role/msk" =>
      (Some {| sts.Credentials_ :=
                 Some {| sts.AccessKeyId := Some "ASIA-ROLE-KEY"%string;
                         sts.SecretAccessKey := Some "ROLE-SECRET"%string;
                         sts.SessionToken :=
                           Some (default EmptyString (sts.RoleSessionName params)) |} |},
       None)
  | _ => (None, Some (errors.New "AccessDenied: not authorized to perform sts:AssumeRole"))
  end%string.

(** A presigner that adds the SigV4 query parameters with a fixed signature
    to the URL of the request, and refuses credentials without keys. *)
Definition PresignHTTP (ctx : context.Context) (credentials : aws.Credentials)
    (req : http.Request) (payloadHash service region : string)
    (signingTime : time.Time) : string * http.Header * option error :=
  if String.eqb (aws.AccessKeyID credentials) EmptyString
  then (EmptyString, ∅, Some (errors.New "failed to retrieve credentials"))
  else
    let u := http.URL req in
    let query := url.Query u in
    let query := url.Set_ query "X-Amz-Algorithm" "AWS4-HMAC-SHA256" in
    let query :=
      url.Set_ query "X-Amz-Credential"
        (aws.AccessKeyID credentials +:+ "/20231109/" +:+ region +:+ "/"
           +:+ service +:+ "/aws4_request") in
    let query := url.Set_ query "X-Amz-Date" "20231109T000000Z" in
    let query := url.Set_ query "X-Amz-SignedHeaders" "host" in
    let query :=
      if String.eqb (aws.SessionToken credentials) EmptyString then query
      else url.Set_ query "X-Amz-Security-Token" (aws.SessionToken credentials) in
    let query := url.Set_ query "X-Amz-Signature" payloadHash in
    (url.String_ (url.with_RawQuery u (url.Encode query)),
     {[ "Host"%string := [http.Host req] ]}, None).

Definition env : Env :=
  {| version := "1.0.0";
     runtime_Version := "go1.20";
     time_Now := 1699488000000000000%Z;
     config_LoadDefaultConfig := LoadDefaultConfig;
     sts_AssumeRole := AssumeRole;
     v4_PresignHTTP := PresignHTTP |}.

(** The same, with a presigner that returns a text that is no URL. *)
Definition env_bad_url : Env :=
  {| version := "1.0.0";
     runtime_Version := "go1.20";
     time_Now := 1699488000000000000%Z;
     config_LoadDefaultConfig := LoadDefaultConfig;
     sts_AssumeRole := AssumeRole;
     v4_PresignHTTP := fun _ _ _ _ _ _ _ => (":invalidURL:"%string, ∅, None) |}.

End mock.

(** * What the code guarantees *)

#[local] Arguments String.append !_ _ / : simpl nomatch.

(** ** [SignerOptions.Validate] *)

(** How many of the three credential sources a configuration sets. *)
Definition sources_set (so : signer.SignerOptions) : nat :=
  List.length
    (filter (fun b : bool => b = true)
       [url.is_Some_b (signer.AwsProfile so); url.is_Some_b (signer.RoleARN so);
        url.is_Some_b (signer.AWSCredentials so)]).

Lemma Validate_nil_receiver : signer.Validate None <> None.
Proof. discriminate. Qed.

(** C5: [Validate] fails exactly when the region is unset or more than one of
    the named profile, the role ARN and the credentials object is set; with
    the region set and at most one of the three set it passes; a profile
    together with a role ARN fails. *)
Theorem Validate_fails_iff (so : signer.SignerOptions) :
  (signer.Validate (Some so) <> None <->
     signer.Region so = None \/ (1 < sources_set so)%nat) /\
  (signer.Validate (Some so) = None <->
     signer.Region so <> None /\ (sources_set so <= 1)%nat) /\
  (is_Some (signer.AwsProfile so) -> is_Some (signer.RoleARN so) ->
     signer.Validate (Some so) <> None).
Proof.
  destruct so as [reg prof role name sreg r b creds].
  unfold signer.Validate, sources_set; simpl.
  destruct reg as [reg|], prof as [prof|], role as [role|], creds as [creds|];
    simpl; repeat split; intros;
    repeat match goal with
           | H : _ \/ _ |- _ => destruct H
           | H : _ /\ _ |- _ => destruct H
           | H : is_Some None |- _ => destruct H as [? H]; discriminate H
           end;
    try discriminate; try congruence; try lia; auto;
    try (right; lia); try (left; reflexivity).
Qed.

(** ** [calculateSHA256Hash] *)

Definition is_lower_hex (c : ascii) : bool := between "0" "9" c || between "a" "f" c.

(** C8, as the claim writes the digest: the 63 characters of the claim are
    not what the function returns for the empty input. *)
Lemma sha256_empty_is_not_the_63_characters :
  signer.calculateSHA256Hash EmptyString
    <> "e3b0c44298fc1c149afbf4c8996fb92427ae41e4649b934ca495991b7852b85"
  /\ String.length
       "e3b0c44298fc1c149afbf4c8996fb92427ae41e4649b934ca495991b7852b85" = 63%nat.
Proof. split; [vm_compute; discriminate | reflexivity]. Qed.

(** C8, amended: the hash of the empty string is the standard digest
    e3b0c442...7852b855, 64 lower-case hex characters, and the hash of "test"
    is 9f86d081...b0f00a08, as the package's test asserts. *)
Theorem calculateSHA256Hash_known_digests :
  signer.calculateSHA256Hash EmptyString
    = "e3b0c44298fc1c149afbf4c8996fb92427ae41e4649b934ca495991b7852b855"
  /\ String.length (signer.calculateSHA256Hash EmptyString) = 64%nat
  /\ strings.all_bytes is_lower_hex (signer.calculateSHA256Hash EmptyString) = true
  /\ signer.calculateSHA256Hash "test"
    = "9f86d081884c7d659a2feaa0c55ad015a3bf4f1b2b0b822cd15d6c15b0f00a08".
Proof. repeat split; vm_compute; reflexivity. Qed.

(** ** Wrapped errors *)

Lemma byte_eqb_refl (c : ascii) : byte_eqb c c = true.
Proof. apply Ascii.eqb_refl. Qed.

Lemma HasPrefix_app (p s : string) : strings.HasPrefix (p +:+ s) p = true.
Proof.
  induction p as [|c p IH]; simpl; [reflexivity|].
  rewrite byte_eqb_refl. exact IH.
Qed.

Lemma chain_self (e : error) : In e (errors.chain e).
Proof. destruct e; simpl; auto. Qed.

(** What [fmt.Errorf] with [%w] keeps: the cause, under a message that starts
    with the text before the verb. *)
Lemma Errorf_w_wraps (prefix : string) (err : error) :
  errors.Unwrap (fmt.Errorf_w prefix err) = Some err
  /\ strings.HasPrefix (errors.Error (fmt.Errorf_w prefix err)) prefix = true
  /\ errors.Error (fmt.Errorf_w prefix err) = prefix +:+ errors.Error err
  /\ In err (errors.chain (fmt.Errorf_w prefix err)).
Proof.
  unfold fmt.Errorf_w; simpl. repeat split.
  - apply HasPrefix_app.
  - right. apply chain_self.
Qed.

(** ** [addUserAgent] on a text that is no URL *)

(** C6: when [url.Parse] rejects the input, [addUserAgent] returns the empty
    string and an error that says what failed and wraps the parser's error;
    the function is total, so there is no panic and no partial result. *)
Theorem addUserAgent_unparsable (env : Env) (signedURL : string) (err : error) :
  url.Parse signedURL = Err err ->
  signer.addUserAgent env signedURL
    = (EmptyString,
       Some (wrapError ("failed to parse signed url: " +:+ errors.Error err) err))
  /\ (forall e, (signer.addUserAgent env signedURL).2 = Some e ->
        errors.Unwrap e = Some err
        /\ strings.HasPrefix (errors.Error e) "failed to parse signed url: " = true
        /\ In err (errors.chain e)).
Proof.
  intros Hparse. unfold signer.addUserAgent. rewrite Hparse. split; [reflexivity|].
  simpl. intros e [= <-].
  destruct (Errorf_w_wraps "failed to parse signed url: " err) as (H1 & H2 & _ & H4).
  auto.
Qed.

Lemma addUserAgent_unparsable_witness :
  url.Parse ":invalidURL:"
    = Err (url_Error "parse" ":invalidURL:" (errorString "missing protocol scheme"))
  /\ signer.addUserAgent mock.env ":invalidURL:"
    = (EmptyString,
       Some (wrapError
               ("failed to parse signed url: " +:+
                errors.Error (url_Error "parse" ":invalidURL:"
                                (errorString "missing protocol scheme")))
               (url_Error "parse" ":invalidURL:"
                  (errorString "missing protocol scheme")))).
Proof.
  split; [reflexivity|].
  apply (addUserAgent_unparsable mock.env ":invalidURL:"). reflexivity.
Defined.

(** ** Runs of the entry points *)

(** One of the four public entry points, with the arguments that are its
    own. *)
Inductive EntryPoint : Type :=
  | Default_
  | FromProfile (awsProfile : string)
  | FromRole (roleArn stsSessionName : string)
  | FromCredentialsProvider (credentialsProvider : aws.CredentialsProvider).

Definition generate (env : Env) (ctx : context.Context) (region : string)
    (ep : EntryPoint) : Go (string * option error) :=
  match ep with
  | Default_ => signer.GenerateAuthToken env ctx region
  | FromProfile awsProfile =>
      signer.GenerateAuthTokenFromProfile env ctx region awsProfile
  | FromRole roleArn stsSessionName =>
      signer.GenerateAuthTokenFromRole env ctx region roleArn stsSessionName
  | FromCredentialsProvider credentialsProvider =>
      signer.GenerateAuthTokenFromCredentialsProvider env ctx region
        credentialsProvider
  end.

(** The session name that [GenerateAuthTokenFromRole] passes on. *)
Definition session_name (stsSessionName : string) : string :=
  if String.eqb stsSessionName EmptyString then signer.DefaultSessionName
  else stsSessionName.

(** The call of the loader that an entry point starts with. *)
Definition resolve (env : Env) (ctx : context.Context) (region : string)
    (ep : EntryPoint) : Go (option aws.Credentials * option error) :=
  match ep with
  | Default_ =>
      call F_loadDefaultCredentials (signer.loadDefaultCredentials env ctx region)
  | FromProfile awsProfile =>
      call F_loadCredentialsFromProfile
        (signer.loadCredentialsFromProfile env ctx region awsProfile)
  | FromRole roleArn stsSessionName =>
      call F_loadCredentialsFromRoleArn
        (signer.loadCredentialsFromRoleArn env ctx region roleArn
           (session_name stsSessionName))
  | FromCredentialsProvider credentialsProvider =>
      call F_loadCredentialsFromCredentialsProvider
        (signer.loadCredentialsFromCredentialsProvider ctx credentialsProvider)
  end.

(** The regions of the STS clients on which a run calls [AssumeRole], and the
    requests it sends. *)
Definition sts_regions (t : list Event) : list string :=
  omap (fun e => match e with
                 | AssumeRole client _ _ => Some (sts.Region client)
                 | _ => None
                 end) t.

Definition assume_role_requests (t : list Event) : list sts.AssumeRoleInput :=
  omap (fun e => match e with
                 | AssumeRole _ _ params => Some params
                 | _ => None
                 end) t.

Ltac go_unfold :=
  unfold call, tell, deref, panic, result_of, trace_of;
  unfold mbind, Go_bind, mret, Go_ret.

Ltac go_simpl := go_unfold; cbn [fst snd app].

Lemma generate_resolve (env : Env) (ctx : context.Context) (region : string)
    (ep : EntryPoint) :
  generate env ctx region ep
  = resolve env ctx region ep ≫= fun '(credentials, err) =>
      match err with
      | Some err =>
          mret (EmptyString,
                Some (fmt.Errorf_w "failed to load credentials: " err))
      | None =>
          call F_constructAuthToken
            (signer.constructAuthToken env ctx region credentials)
      end.
Proof. destruct ep; reflexivity. Qed.

(** The trace of the role loader: the configuration is loaded for [region],
    and on success one [AssumeRole] request goes to a client made from it. *)
Lemma loadCredentialsFromRoleArn_trace (env : Env) (ctx : context.Context)
    (region roleArn name : string) :
  let m := signer.loadCredentialsFromRoleArn env ctx region roleArn name in
  match config_LoadDefaultConfig env ctx [config.WithRegion region] with
  | (_, Some _) =>
      trace_of m = [LoadDefaultConfig ctx [config.WithRegion region]]
  | (cfg, None) =>
      trace_of m =
        [LoadDefaultConfig ctx [config.WithRegion region];
         AssumeRole (sts.NewFromConfig cfg) ctx
           {| sts.RoleArn := Some roleArn; sts.RoleSessionName := Some name |}]
  end.
Proof.
  unfold signer.loadCredentialsFromRoleArn.
  destruct (config_LoadDefaultConfig env ctx [config.WithRegion region])
    as [cfg [e|]]; go_simpl; [reflexivity|].
  destruct (sts_AssumeRole env _ ctx _) as [out [e|]]; go_simpl; [reflexivity|].
  destruct out as [[[[[a|] [s|] [t|]]|]]|]; reflexivity.
Qed.

(** The stages of the pipeline, in the order in which an entry point runs
    them. *)
Inductive Stage : Set :=
  | CredentialResolution
  | RequestBuilding
  | Signing
  | Finalization.

Definition stage_rank (s : Stage) : nat :=
  match s with
  | CredentialResolution => 0
  | RequestBuilding => 1
  | Signing => 2
  | Finalization => 3
  end.

(** The stage to which an event belongs; the entry into [constructAuthToken]
    or into an entry point belongs to none. *)
Definition stage_of (e : Event) : option Stage :=
  match e with
  | Enter F_loadDefaultCredentials | Enter F_loadCredentialsFromProfile
  | Enter F_loadCredentialsFromRoleArn
  | Enter F_loadCredentialsFromCredentialsProvider
  | LoadDefaultConfig _ _ | Retrieve _ | AssumeRole _ _ _ =>
      Some CredentialResolution
  | Enter F_buildRequest => Some RequestBuilding
  | Enter F_signRequest | Enter F_calculateSHA256Hash | Now
  | PresignHTTP _ _ _ _ _ _ _ => Some Signing
  | Enter F_addUserAgent | Enter F_base64Encode => Some Finalization
  | Enter _ => None
  end.

(** The text with which [constructAuthToken] and the entry points prefix the
    error of a stage. *)
Definition stage_message (s : Stage) : string :=
  match s with
  | CredentialResolution => "failed to load credentials: "
  | RequestBuilding => "failed to build request for signing: "
  | Signing => "failed to sign request with aws sig v4: "
  | Finalization => "failed to add user agent to the signed url: "
  end.

(** No event of the trace belongs to a stage after [s]. *)
Definition nothing_after (s : Stage) (t : list Event) : Prop :=
  Forall (fun e => forall s', stage_of e = Some s' ->
                              (stage_rank s' <= stage_rank s)%nat) t.

(** The events of the signing stage. *)
Definition signing_events (env : Env) (ctx : context.Context)
    (req : http.Request) (region : string) (creds : aws.Credentials)
    : list Event :=
  [Enter F_signRequest; Enter F_calculateSHA256Hash; Now;
   PresignHTTP ctx creds req (signer.calculateSHA256Hash EmptyString)
     signer.SigningName region (time_Now env)].

(** What the presigner answers in a run. *)
Definition presigned (env : Env) (ctx : context.Context) (req : http.Request)
    (region : string) (creds : aws.Credentials)
    : string * http.Header * option error :=
  v4_PresignHTTP env ctx creds req (signer.calculateSHA256Hash EmptyString)
    signer.SigningName region (time_Now env).

(** [constructAuthToken], case by case. *)
Lemma constructAuthToken_cases (env : Env) (ctx : context.Context)
    (region : string) (credentials : option aws.Credentials) :
  signer.constructAuthToken env ctx region credentials =
  match signer.buildRequest signer.DefaultExpirySeconds
          (signer.endpointURLTemplate region) with
  | Err err =>
      (Returns (EmptyString,
                Some (fmt.Errorf_w (stage_message RequestBuilding) err)),
       [Enter F_buildRequest])
  | Ok req =>
      match credentials with
      | None =>
          (Panics "invalid memory address or nil pointer dereference",
           [Enter F_buildRequest; Enter F_signRequest])
      | Some creds =>
          match presigned env ctx req region creds with
          | (_, _, Some err) =>
              (Returns (EmptyString,
                        Some (fmt.Errorf_w (stage_message Signing) err)),
               Enter F_buildRequest :: signing_events env ctx req region creds)
          | (signedURL, _, None) =>
              match signer.addUserAgent env signedURL with
              | (_, Some err) =>
                  (Returns (EmptyString,
                            Some (fmt.Errorf_w (stage_message Finalization) err)),
                   Enter F_buildRequest
                     :: signing_events env ctx req region creds
                     ++ [Enter F_addUserAgent])
              | (signedURLWithUserAgent, None) =>
                  (Returns (signer.base64Encode signedURLWithUserAgent, None),
                   Enter F_buildRequest
                     :: signing_events env ctx req region creds
                     ++ [Enter F_addUserAgent; Enter F_base64Encode])
              end
          end
      end
  end.
Proof.
  unfold signer.constructAuthToken, signer.signRequest, presigned, signing_events.
  destruct (signer.buildRequest _ _) as [req|err]; go_simpl; [|reflexivity].
  destruct credentials as [creds|]; go_simpl; [|reflexivity].
  destruct (v4_PresignHTTP env ctx creds req _ _ region _) as [[signedURL hdr] [err|]];
    go_simpl; [reflexivity|].
  destruct (signer.addUserAgent env signedURL) as [out [err|]]; reflexivity.
Qed.

(** [constructAuthToken] resolves no credentials. *)
Lemma constructAuthToken_no_credential_events (env : Env) (ctx : context.Context)
    (region : string) (credentials : option aws.Credentials) :
  Forall (fun e => stage_of e <> Some CredentialResolution)
    (trace_of (signer.constructAuthToken env ctx region credentials)).
Proof.
  rewrite constructAuthToken_cases.
  destruct (signer.buildRequest _ _) as [req|err];
    [destruct credentials as [creds|];
     [destruct (presigned env ctx req region creds) as [[signedURL hdr] [err|]];
      [|destruct (signer.addUserAgent env signedURL) as [out [err|]]] |] |];
    unfold trace_of, signing_events; simpl;
    repeat (constructor; [discriminate|]); constructor.
Qed.

(** The loaders leave only events of the credential stage. *)
Lemma resolve_events (env : Env) (ctx : context.Context) (region : string)
    (ep : EntryPoint) :
  Forall (fun e => stage_of e = Some CredentialResolution)
    (trace_of (resolve env ctx region ep)).
Proof.
  destruct ep as [|awsProfile|roleArn stsSessionName|credentialsProvider];
    unfold resolve, signer.loadDefaultCredentials,
      signer.loadCredentialsFromProfile, signer.loadCredentialsFromRoleArn,
      signer.loadCredentialsFromCredentialsProvider.
  - destruct (config_LoadDefaultConfig env ctx _) as [cfg [e|]]; go_simpl;
      [repeat constructor|].
    destruct (aws.Retrieve _ ctx) as [creds err]; repeat constructor.
  - destruct (config_LoadDefaultConfig env ctx _) as [cfg [e|]]; go_simpl;
      [repeat constructor|].
    destruct (aws.Retrieve _ ctx) as [creds err]; repeat constructor.
  - destruct (config_LoadDefaultConfig env ctx _) as [cfg [e|]]; go_simpl;
      [repeat constructor|].
    destruct (sts_AssumeRole env _ ctx _) as [out [e|]]; go_simpl;
      [repeat constructor|].
    destruct out as [[[[[a|] [s|] [t|]]|]]|]; repeat constructor.
  - go_simpl. destruct (aws.Retrieve _ ctx) as [creds err]; repeat constructor.
Qed.

(** An entry point, case by case on what its loader did. *)
Lemma generate_cases (env : Env) (ctx : context.Context) (region : string)
    (ep : EntryPoint) :
  generate env ctx region ep =
  match resolve env ctx region ep with
  | (Returns (_, Some err), t) =>
      (Returns (EmptyString,
                Some (fmt.Errorf_w (stage_message CredentialResolution) err)),
       t)
  | (Returns (credentials, None), t) =>
      let '(o, t') := signer.constructAuthToken env ctx region credentials in
      (o, t ++ Enter F_constructAuthToken :: t')
  | (Panics msg, t) => (Panics msg, t)
  end.
Proof.
  rewrite generate_resolve.
  destruct (resolve env ctx region ep) as [[[credentials [err|]]|msg] t];
    go_simpl; [rewrite app_nil_r; reflexivity| |reflexivity].
  destruct (signer.constructAuthToken env ctx region credentials) as [o t'].
  reflexivity.
Qed.

(** A stage fails with the error [cause]: the stages before it succeeded, and
    the function of the stage returned [cause]. *)
Definition stage_fails (env : Env) (ctx : context.Context) (region : string)
    (ep : EntryPoint) (s : Stage) (cause : error) : Prop :=
  let endpointURL := signer.endpointURLTemplate region in
  match s with
  | CredentialResolution =>
      exists credentials,
        result_of (resolve env ctx region ep) = Returns (credentials, Some cause)
  | RequestBuilding =>
      (exists credentials,
         result_of (resolve env ctx region ep) = Returns (credentials, None))
      /\ signer.buildRequest signer.DefaultExpirySeconds endpointURL = Err cause
  | Signing =>
      exists creds req,
        result_of (resolve env ctx region ep) = Returns (Some creds, None)
        /\ signer.buildRequest signer.DefaultExpirySeconds endpointURL = Ok req
        /\ (presigned env ctx req region creds).2 = Some cause
  | Finalization =>
      exists creds req signedURL signedHeaders,
        result_of (resolve env ctx region ep) = Returns (Some creds, None)
        /\ signer.buildRequest signer.DefaultExpirySeconds endpointURL = Ok req
        /\ presigned env ctx req region creds = (signedURL, signedHeaders, None)
        /\ (signer.addUserAgent env signedURL).2 = Some cause
  end.

Lemma nothing_after_app (s : Stage) (t1 t2 : list Event) :
  nothing_after s t1 -> nothing_after s t2 -> nothing_after s (t1 ++ t2).
Proof. unfold nothing_after. intros H1 H2. apply Forall_app; auto. Qed.

Lemma nothing_after_resolve (env : Env) (ctx : context.Context)
    (region : string) (ep : EntryPoint) (s : Stage) :
  nothing_after s (trace_of (resolve env ctx region ep)).
Proof.
  unfold nothing_after. eapply Forall_impl; [apply resolve_events|].
  intros e He s' Hs'. rewrite He in Hs'. injection Hs' as <-. simpl. lia.
Qed.

Ltac nothing_after_list :=
  unfold nothing_after, signing_events; simpl;
  repeat (constructor; [intros ? [= <-]; simpl; lia || (intros ? ?; discriminate)|]);
  try constructor.

(** C3: when a stage of an entry point fails, the entry point returns the
    empty token and an error that wraps the cause under the message of the
    stage, and the trace of the run holds no event of a later stage. *)
Theorem stage_failure_short_circuits (env : Env) (ctx : context.Context)
    (region : string) (ep : EntryPoint) (s : Stage) (cause : error) :
  stage_fails env ctx region ep s cause ->
  let err := wrapError (stage_message s +:+ errors.Error cause) cause in
  result_of (generate env ctx region ep) = Returns (EmptyString, Some err)
  /\ nothing_after s (trace_of (generate env ctx region ep))
  /\ errors.Unwrap err = Some cause
  /\ In cause (errors.chain err)
  /\ strings.HasPrefix (errors.Error err) (stage_message s) = true.
Proof.
  intros Hfail err.
  assert (Hwrap : errors.Unwrap err = Some cause
                  /\ In cause (errors.chain err)
                  /\ strings.HasPrefix (errors.Error err) (stage_message s) = true).
  { destruct (Errorf_w_wraps (stage_message s) cause) as (H1 & H2 & _ & H4).
    auto. }
  cut (result_of (generate env ctx region ep) = Returns (EmptyString, Some err)
       /\ nothing_after s (trace_of (generate env ctx region ep))).
  { intros [H1 H2]. tauto. }
  clear Hwrap. subst err.
  rewrite generate_cases.
  pose proof (nothing_after_resolve env ctx region ep s) as Hres.
  destruct s; unfold stage_fails in Hfail; unfold result_of, trace_of in *;
    destruct (resolve env ctx region ep) as [o t]; simpl in Hres, Hfail.
  - destruct Hfail as [credentials ->]. simpl. auto.
  - destruct Hfail as [[credentials ->] Hbuild].
    rewrite constructAuthToken_cases, Hbuild. simpl. split; [reflexivity|].
    apply nothing_after_app; [exact Hres|]. nothing_after_list.
  - destruct Hfail as (creds & req & -> & Hbuild & Hsign).
    rewrite constructAuthToken_cases, Hbuild.
    destruct (presigned env ctx req region creds) as [[signedURL hdr] e].
    simpl in Hsign. subst e. simpl. split; [reflexivity|].
    apply nothing_after_app; [exact Hres|]. nothing_after_list.
  - destruct Hfail as (creds & req & signedURL & hdr & -> & Hbuild & Hsign & Hua).
    rewrite constructAuthToken_cases, Hbuild, Hsign.
    destruct (signer.addUserAgent env signedURL) as [out e].
    simpl in Hua. subst e. simpl. split; [reflexivity|].
    apply nothing_after_app; [exact Hres|]. nothing_after_list.
Qed.

Definition anonymous_error : error :=
  errorString
    "the AnonymousCredentials is not a valid credential provider, and cannot be used to sign AWS requests with".

Definition no_keys : aws.Credentials :=
  {| aws.AccessKeyID := EmptyString; aws.SecretAccessKey := EmptyString;
     aws.SessionToken := EmptyString |}.

(** The request that [buildRequest] makes for the region of the tests. *)
Definition test_request : http.Request :=
  {| http.Method := "GET";
     http.URL :=
       {| url.Scheme := "https"; url.Opaque := EmptyString; url.User := None;
          url.Host := mock.TestEndpoint; url.Path := "/";
          url.RawPath := EmptyString; url.OmitHost := false;
          url.ForceQuery := false;
          url.RawQuery := "Action=kafka-cluster%3AConnect&X-Amz-Expires=900";
          url.Fragment := EmptyString; url.RawFragment := EmptyString |};
     http.Proto := "HTTP/1.1"; http.ProtoMajor := 1; http.ProtoMinor := 1;
     http.Header_ := ∅; http.Body := None; http.Host := mock.TestEndpoint |}.

Lemma stage_failure_short_circuits_witness :
  (* the provider of TestGenerateAuthTokenWithFailingCredentialsProvider *)
  result_of (generate mock.env context.TODO mock.TestRegion
               (FromCredentialsProvider aws.AnonymousCredentials))
    = Returns (EmptyString,
               Some (fmt.Errorf_w "failed to load credentials: " anonymous_error))
  (* a region with a blank: the URL of the request does not parse *)
  /\ result_of (generate mock.env context.TODO "us west" Default_)
    = Returns (EmptyString,
               Some (fmt.Errorf_w "failed to build request for signing: "
                       (url_Error "parse"
                          "https://kafka.us%20west.amazonaws.com/?Action=kafka-cluster%3AConnect&X-Amz-Expires=900"
                          (url_EscapeError "%20"))))
  (* credentials without keys: the presigner refuses them *)
  /\ result_of (generate mock.env context.TODO mock.TestRegion
                  (FromCredentialsProvider (mock.MockCredentialsProvider no_keys)))
    = Returns (EmptyString,
               Some (fmt.Errorf_w "failed to sign request with aws sig v4: "
                       (errorString "failed to retrieve credentials")))
  (* a presigner whose answer is no URL *)
  /\ result_of (generate mock.env_bad_url context.TODO mock.TestRegion Default_)
    = Returns (EmptyString,
               Some (fmt.Errorf_w "failed to add user agent to the signed url: "
                       (fmt.Errorf_w "failed to parse signed url: "
                          (url_Error "parse" ":invalidURL:"
                             (errorString "missing protocol scheme"))))).
Proof.
  split; [|split; [|split]].
  - apply (stage_failure_short_circuits mock.env context.TODO mock.TestRegion
             (FromCredentialsProvider aws.AnonymousCredentials)
             CredentialResolution anonymous_error).
    exists (Some no_keys). vm_compute. reflexivity.
  - apply (stage_failure_short_circuits mock.env context.TODO "us west" Default_
             RequestBuilding).
    split; [exists (Some mock.mockCreds)|]; vm_compute; reflexivity.
  - apply (stage_failure_short_circuits mock.env context.TODO mock.TestRegion
             (FromCredentialsProvider (mock.MockCredentialsProvider no_keys))
             Signing (errorString "failed to retrieve credentials")).
    exists no_keys, test_request. split; [|split]; vm_compute; reflexivity.
  - apply (stage_failure_short_circuits mock.env_bad_url context.TODO
             mock.TestRegion Default_ Finalization
             (fmt.Errorf_w "failed to parse signed url: "
                (url_Error "parse" ":invalidURL:"
                   (errorString "missing protocol scheme")))).
    exists mock.mockCreds, test_request, ":invalidURL:", ∅.
    split; [|split; [|split]]; vm_compute; reflexivity.
Defined.

(** ** The assume-role strategy *)

Lemma no_credential_events_no_requests (t : list Event) :
  Forall (fun e => stage_of e <> Some CredentialResolution) t ->
  assume_role_requests t = [] /\ sts_regions t = [].
Proof.
  induction 1 as [|e t He _ [IH1 IH2]]; [split; reflexivity|].
  unfold assume_role_requests, sts_regions in *. simpl.
  destruct e; simpl in *; try congruence; auto.
Qed.

(** The trace of an entry point: the trace of its loader, then events that
    are not of the credential stage. *)
Lemma generate_trace (env : Env) (ctx : context.Context) (region : string)
    (ep : EntryPoint) :
  exists rest,
    trace_of (generate env ctx region ep)
      = trace_of (resolve env ctx region ep) ++ rest
    /\ Forall (fun e => stage_of e <> Some CredentialResolution) rest.
Proof.
  rewrite generate_cases. unfold trace_of.
  destruct (resolve env ctx region ep) as [[[credentials [err|]]|msg] t]; simpl;
    try (exists []; rewrite app_nil_r; split; [reflexivity|constructor]).
  pose proof (constructAuthToken_no_credential_events env ctx region credentials)
    as Hc. unfold trace_of in Hc.
  destruct (signer.constructAuthToken env ctx region credentials) as [o t'].
  simpl in *. eexists; split; [reflexivity|]. constructor; [discriminate|exact Hc].
Qed.

(** The [AssumeRole] requests and the regions of their clients, in a run of
    [GenerateAuthTokenFromRole]. *)
Lemma FromRole_requests (env : Env) (ctx : context.Context)
    (region roleArn stsSessionName : string) :
  let t := trace_of (signer.GenerateAuthTokenFromRole env ctx region roleArn
                       stsSessionName) in
  match config_LoadDefaultConfig env ctx [config.WithRegion region] with
  | (cfg, None) =>
      assume_role_requests t
        = [ {| sts.RoleArn := Some roleArn;
               sts.RoleSessionName := Some (session_name stsSessionName) |} ]
      /\ sts_regions t = [aws.Region cfg]
  | (_, Some _) => assume_role_requests t = [] /\ sts_regions t = []
  end.
Proof.
  intros t.
  destruct (generate_trace env ctx region (FromRole roleArn stsSessionName))
    as (rest & Ht & Hrest).
  change (generate env ctx region (FromRole roleArn stsSessionName))
    with (signer.GenerateAuthTokenFromRole env ctx region roleArn stsSessionName)
    in Ht.
  fold t in Ht. rewrite Ht. clear Ht.
  destruct (no_credential_events_no_requests rest Hrest) as [Hr1 Hr2].
  unfold assume_role_requests, sts_regions in *.
  rewrite !omap_app, Hr1, Hr2, !app_nil_r.
  pose proof (loadCredentialsFromRoleArn_trace env ctx region roleArn
                (session_name stsSessionName)) as Hl.
  cbv zeta in Hl. unfold resolve, call, tell, trace_of in *.
  unfold mbind, Go_bind in *.
  destruct (signer.loadCredentialsFromRoleArn env ctx region roleArn
              (session_name stsSessionName)) as [o tl].
  destruct o as [a|msg]; simpl in *;
    destruct (config_LoadDefaultConfig env ctx [config.WithRegion region])
      as [cfg [e|]]; subst tl; split; reflexivity.
Qed.

(** C7: with the empty session name the request to STS carries the constant
    [MSKSASLDefaultSession]; a name that is not empty is passed on as it is.
    A request is sent once the configuration has loaded, and every request of
    the run carries that name. *)
Theorem FromRole_session_name (env : Env) (ctx : context.Context)
    (region roleArn stsSessionName : string) :
  let name :=
    if String.eqb stsSessionName EmptyString then "MSKSASLDefaultSession"
    else stsSessionName in
  assume_role_requests
    (trace_of (signer.GenerateAuthTokenFromRole env ctx region roleArn
                 stsSessionName))
  = match config_LoadDefaultConfig env ctx [config.WithRegion region] with
    | (_, None) =>
        [ {| sts.RoleArn := Some roleArn; sts.RoleSessionName := Some name |} ]
    | (_, Some _) => []
    end
  /\ signer.GenerateAuthTokenFromRole env ctx region roleArn EmptyString
     = signer.GenerateAuthTokenFromRole env ctx region roleArn
         signer.DefaultSessionName.
Proof.
  intros name. split; [|reflexivity].
  pose proof (FromRole_requests env ctx region roleArn stsSessionName) as H.
  cbv zeta in H.
  destruct (config_LoadDefaultConfig env ctx [config.WithRegion region])
    as [cfg [e|]]; destruct H as [H _]; exact H.
Qed.

(** The contract of [config.LoadDefaultConfig] for [config.WithRegion]: the
    configuration it returns has the region of the option. *)
Definition honours_WithRegion (env : Env) : Prop :=
  forall ctx region cfg,
    config_LoadDefaultConfig env ctx [config.WithRegion region] = (cfg, None) ->
    aws.Region cfg = region.

(** C9, as the claim states it: a caller that sets a distinct STS region in
    its options has no way to pass it on; the client of the request is scoped
    to the main region. *)
Lemma sts_region_of_the_options_is_not_used :
  let so :=
    {| signer.Region := Some "us-west-2";
       signer.AwsProfile := None;
       signer.RoleARN := Some "arn:aws:iam::123456789012:role/msk";
       signer.STSSessionName := None;
       signer.STSRegion := Some "us-east-1";
       signer.AwsMaxRetries := 0%Z;
       signer.AwsMaxBackOffMs := 0%Z;
       signer.AWSCredentials := None |} in
  signer.Validate (Some so) = None
  /\ sts_regions
       (trace_of (signer.loadCredentialsFromRoleArn mock.env context.TODO
                    (default EmptyString (signer.Region so))
                    (default EmptyString (signer.RoleARN so))
                    signer.DefaultSessionName))
     = ["us-west-2"]
  /\ ["us-west-2"] <> [default EmptyString (signer.STSRegion so)].
Proof. split; [|split]; [reflexivity | vm_compute; reflexivity | discriminate]. Qed.

(** C9, amended: the STS client is made from the configuration that was
    loaded for the main region, the only region the function takes; with a
    loader that honours [WithRegion], the client of every request is scoped
    to the main region. *)
Theorem sts_client_is_scoped_to_the_main_region (env : Env)
    (ctx : context.Context) (region roleArn stsSessionName : string) :
  let t := trace_of (signer.loadCredentialsFromRoleArn env ctx region roleArn
                       stsSessionName) in
  head t = Some (LoadDefaultConfig ctx [config.WithRegion region])
  /\ Forall (fun e => match e with
                      | AssumeRole client _ _ =>
                          exists cfg,
                            config_LoadDefaultConfig env ctx
                              [config.WithRegion region] = (cfg, None)
                            /\ client = sts.NewFromConfig cfg
                      | _ => True
                      end) t
  /\ (honours_WithRegion env -> Forall (fun r => r = region) (sts_regions t)).
Proof.
  intros t. subst t.
  pose proof (loadCredentialsFromRoleArn_trace env ctx region roleArn
                stsSessionName) as Hl.
  cbv zeta in Hl.
  destruct (config_LoadDefaultConfig env ctx [config.WithRegion region])
    as [cfg [e|]] eqn:Hcfg; rewrite Hl; (split; [reflexivity|]); split.
  - repeat constructor.
  - intros _. constructor.
  - repeat constructor. exists cfg. split; reflexivity.
  - intros Hcontract. repeat constructor. simpl.
    exact (Hcontract ctx region cfg Hcfg).
Qed.

Lemma sts_client_is_scoped_to_the_main_region_witness :
  honours_WithRegion mock.env
  /\ Forall (fun r => r = "us-west-2")
       (sts_regions
          (trace_of (signer.loadCredentialsFromRoleArn mock.env context.TODO
                       "us-west-2" "arn:aws:iam::123456789012:role/msk"
                       signer.DefaultSessionName))).
Proof.
  assert (H : honours_WithRegion mock.env).
  { intros ctx region cfg. unfold mock.env, mock.LoadDefaultConfig. simpl.
    intros [= <-]. reflexivity. }
  split; [exact H|].
  apply (sts_client_is_scoped_to_the_main_region mock.env context.TODO
           "us-west-2" "arn:aws:iam::123456789012:role/msk"
           signer.DefaultSessionName).
  exact H.
Defined.

(** ** What an entry point returns *)

(** A value among the results of a Go function of this package. *)
Inductive GoValue : Type :=
  | V_string (s : string)
  | V_error (err : option error)
  | V_Time (t : time.Time).

(** The results of an entry point, in the order of its signature
    [(string, error)]. *)
Definition results (r : string * option error) : list GoValue :=
  [V_string r.1; V_error r.2].

(** The instant at which a token signed now expires. *)
Definition expiration (env : Env) : time.Time :=
  time.Add (time_Now env) (signer.DefaultExpirySeconds * time.Second).

(** C1, as the claim states it: in a successful run of [GenerateAuthToken]
    the second result is the [nil] error; the expiration instant is not among
    the results. *)
Lemma no_expiration_among_the_results :
  exists token,
    result_of (signer.GenerateAuthToken mock.env context.TODO mock.TestRegion)
      = Returns (token, None)
    /\ results (token, None) = [V_string token; V_error None]
    /\ results (token, None) !! 1%nat <> Some (V_Time (expiration mock.env))
    /\ ~ In (V_Time (expiration mock.env)) (results (token, None)).
Proof.
  eexists. split; [vm_compute; reflexivity|]. split; [reflexivity|].
  split; [discriminate|]. simpl. intros [H|[H|[]]]; discriminate.
Qed.

(** All the stages of an entry point succeed, with these intermediate
    values. *)
Definition stages_succeed (env : Env) (ctx : context.Context) (region : string)
    (ep : EntryPoint) (creds : aws.Credentials) (req : http.Request)
    (signedURL signedURLWithUserAgent : string) : Prop :=
  result_of (resolve env ctx region ep) = Returns (Some creds, None)
  /\ signer.buildRequest signer.DefaultExpirySeconds
       (signer.endpointURLTemplate region) = Ok req
  /\ (exists signedHeaders,
        presigned env ctx req region creds = (signedURL, signedHeaders, None))
  /\ signer.addUserAgent env signedURL = (signedURLWithUserAgent, None).

(** C1, amended: on success an entry point returns two results, the token
    (the base64 text of the signed URL with the user agent) and the [nil]
    error; no instant is among them. *)
Theorem entry_point_returns_token_and_nil (env : Env) (ctx : context.Context)
    (region : string) (ep : EntryPoint) (creds : aws.Credentials)
    (req : http.Request) (signedURL signedURLWithUserAgent : string) :
  stages_succeed env ctx region ep creds req signedURL signedURLWithUserAgent ->
  let token := signer.base64Encode signedURLWithUserAgent in
  result_of (generate env ctx region ep) = Returns (token, None)
  /\ results (token, None) = [V_string token; V_error None]
  /\ forall t, ~ In (V_Time t) (results (token, None)).
Proof.
  intros (Hres & Hbuild & [hdr Hsign] & Hua) token.
  split; [|split; [reflexivity|]].
  - rewrite generate_cases. unfold result_of in *.
    destruct (resolve env ctx region ep) as [o t]. simpl in Hres. subst o.
    rewrite constructAuthToken_cases, Hbuild, Hsign, Hua. reflexivity.
  - intros t. simpl. intros [H|[H|[]]]; discriminate.
Qed.

(** The URL that the stand-in presigner returns for [test_request], and the
    same with the user agent. *)
Definition test_signedURL : string :=
  Eval vm_compute in
    (presigned mock.env context.TODO test_request mock.TestRegion
       mock.mockCreds).1.1.

Definition test_signedURLWithUserAgent : string :=
  Eval vm_compute in (signer.addUserAgent mock.env test_signedURL).1.

Lemma entry_point_returns_token_and_nil_witness :
  result_of (signer.GenerateAuthToken mock.env context.TODO mock.TestRegion)
    = Returns (signer.base64Encode test_signedURLWithUserAgent, None)
  /\ base64.DecodeString (signer.base64Encode test_signedURLWithUserAgent)
     = Some test_signedURLWithUserAgent.
Proof.
  split; [|vm_compute; reflexivity].
  apply (entry_point_returns_token_and_nil mock.env context.TODO mock.TestRegion
           Default_ mock.mockCreds test_request test_signedURL
           test_signedURLWithUserAgent).
  split; [|split; [|split]].
  - vm_compute; reflexivity.
  - vm_compute; reflexivity.
  - exists {[ "Host"%string := [mock.TestEndpoint] ]}. vm_compute; reflexivity.
  - vm_compute; reflexivity.
Defined.

(** ** Strings: cutting at a byte *)

Lemma append_assoc (a b c : string) : (a +:+ b) +:+ c = a +:+ (b +:+ c).
Proof. induction a as [|x a IH]; simpl; [reflexivity|]. rewrite IH. reflexivity. Qed.

Lemma append_nil_r (a : string) : a +:+ EmptyString = a.
Proof. induction a as [|x a IH]; simpl; [reflexivity|]. rewrite IH. reflexivity. Qed.

Lemma length_append (a b : string) :
  String.length (a +:+ b) = (String.length a + String.length b)%nat.
Proof. induction a as [|x a IH]; simpl; [reflexivity|]. rewrite IH. reflexivity. Qed.

Lemma eqb_empty_append (a b : string) :
  String.eqb (a +:+ b) EmptyString = String.eqb a EmptyString && String.eqb b EmptyString.
Proof. destruct a; simpl; [|reflexivity]. destruct b; reflexivity. Qed.

(** The byte [c] does not occur in [s]. *)
Definition lacks (c : ascii) (s : string) : bool :=
  strings.all_bytes (fun x => negb (byte_eqb c x)) s.

Lemma all_bytes_append (p : ascii -> bool) (a b : string) :
  strings.all_bytes p (a +:+ b) = strings.all_bytes p a && strings.all_bytes p b.
Proof.
  induction a as [|x a IH]; simpl; [reflexivity|].
  rewrite IH, andb_assoc. reflexivity.
Qed.

Lemma all_bytes_impl (p q : ascii -> bool) (s : string) :
  (forall c, p c = true -> q c = true) ->
  strings.all_bytes p s = true -> strings.all_bytes q s = true.
Proof.
  intros Hpq. induction s as [|x s IH]; simpl; [reflexivity|].
  intros [Hx Hs]%andb_true_iff. rewrite (Hpq _ Hx), (IH Hs). reflexivity.
Qed.

Lemma lacks_append (c : ascii) (a b : string) :
  lacks c (a +:+ b) = lacks c a && lacks c b.
Proof. apply all_bytes_append. Qed.

Lemma Index_byte_absent (c : ascii) (s : string) :
  lacks c s = true -> strings.Index s (String c EmptyString) = None.
Proof.
  induction s as [|x s IH]; simpl; [reflexivity|].
  intros [Hx Hs]%andb_true_iff. apply negb_true_iff in Hx. rewrite Hx. simpl.
  rewrite (IH Hs). reflexivity.
Qed.

Lemma Index_byte_first (c : ascii) (a b : string) :
  lacks c a = true ->
  strings.Index (a +:+ String c b) (String c EmptyString) = Some (String.length a).
Proof.
  induction a as [|x a IH]; simpl.
  - intros _. rewrite byte_eqb_refl. reflexivity.
  - intros [Hx Hs]%andb_true_iff. apply negb_true_iff in Hx. rewrite Hx. simpl.
    rewrite (IH Hs). reflexivity.
Qed.

Lemma upto_length_append (a b : string) : strings.upto (String.length a) (a +:+ b) = a.
Proof. induction a as [|x a IH]; simpl; [destruct b; reflexivity|]. rewrite IH. reflexivity. Qed.

Lemma from_length_append (a b : string) : strings.from (String.length a) (a +:+ b) = b.
Proof. induction a as [|x a IH]; simpl; [reflexivity|exact IH]. Qed.

(** [Cut] at a byte that first occurs after [a]. *)
Lemma Cut_byte_first (c : ascii) (a b : string) :
  lacks c a = true ->
  strings.Cut (a +:+ String c b) (String c EmptyString) = (a, b, true).
Proof.
  intros Ha. unfold strings.Cut. rewrite (Index_byte_first c a b Ha).
  rewrite upto_length_append.
  replace (String.length a + String.length (String c EmptyString))%nat
    with (String.length (a +:+ String c EmptyString))
    by (rewrite length_append; reflexivity).
  replace (a +:+ String c b) with ((a +:+ String c EmptyString) +:+ b)
    by (rewrite append_assoc; reflexivity).
  rewrite from_length_append. reflexivity.
Qed.

(** [Cut] at a byte that does not occur. *)
Lemma Cut_byte_absent (c : ascii) (s : string) :
  lacks c s = true ->
  strings.Cut s (String c EmptyString) = (s, EmptyString, false).
Proof. intros Hs. unfold strings.Cut. rewrite (Index_byte_absent c s Hs). reflexivity. Qed.

Lemma Contains_byte_absent (c : ascii) (s : string) :
  lacks c s = true -> strings.Contains s (String c EmptyString) = false.
Proof. intros Hs. unfold strings.Contains. rewrite (Index_byte_absent c s Hs). reflexivity. Qed.

(** ** Percent-encoding of a query component *)

Ltac each_byte c := destruct c as [[] [] [] [] [] [] [] []].

(** The bytes that [QueryEscape] writes: letters, digits, [-_.~], and the
    [%] and [+] of the encoding. *)
Definition query_safe (c : ascii) : bool :=
  between "a" "z" c || between "A" "Z" c || between "0" "9" c
  || url.one_of "-_.~%+" c.

Lemma escape_query_safe (s : string) :
  strings.all_bytes query_safe (url.QueryEscape s) = true.
Proof.
  unfold url.QueryEscape. induction s as [|c s IH]; [reflexivity|].
  cbn [url.escape].
  destruct (byte_eqb c " " && url.encoding_eqb url.encodeQueryComponent
              url.encodeQueryComponent) eqn:Hsp.
  - cbn [strings.all_bytes]. rewrite IH. reflexivity.
  - destruct (url.shouldEscape c url.encodeQueryComponent) eqn:Hesc.
    + cbn [strings.all_bytes]. rewrite IH.
      clear. each_byte c; vm_compute; reflexivity.
    + cbn [strings.all_bytes]. rewrite IH, andb_true_r.
      clear - Hesc. revert Hesc. each_byte c; vm_compute; congruence.
Qed.

Lemma query_safe_lacks (c : ascii) (s : string) :
  query_safe c = false ->
  strings.all_bytes query_safe s = true -> lacks c s = true.
Proof.
  intros Hc. apply all_bytes_impl. intros x Hx.
  apply negb_true_iff. destruct (byte_eqb c x) eqn:E; [|reflexivity].
  apply Ascii.eqb_eq in E. subst x. congruence.
Qed.

Lemma escape_lacks (c : ascii) (s : string) :
  query_safe c = false -> lacks c (url.QueryEscape s) = true.
Proof. intros Hc. apply (query_safe_lacks c _ Hc), escape_query_safe. Qed.

(** Decoding undoes the encoding of a query component. *)
Lemma QueryUnescape_QueryEscape (s : string) :
  url.QueryUnescape (url.QueryEscape s) = (s, None).
Proof.
  unfold url.QueryUnescape, url.QueryEscape, url.unescape.
  assert (H : url.unescape_check (url.escape s url.encodeQueryComponent)
                url.encodeQueryComponent = None
              /\ url.unescape_bytes (url.escape s url.encodeQueryComponent)
                   url.encodeQueryComponent = s).
  { induction s as [|c s [IH1 IH2]]; [split; reflexivity|].
    cbn [url.escape].
    destruct (byte_eqb c " " && url.encoding_eqb url.encodeQueryComponent
                url.encodeQueryComponent) eqn:Hsp.
    - apply andb_true_iff in Hsp as [Hsp _]. apply Ascii.eqb_eq in Hsp. subst c.
      cbn. rewrite IH1, IH2. split; reflexivity.
    - destruct (url.shouldEscape c url.encodeQueryComponent) eqn:Hesc.
      + assert (Hb : url.ishex (url.upperhex (N.shiftr (N_of_ascii c) 4)) = true
                     /\ url.ishex (url.upperhex (N.land (N_of_ascii c) 15)) = true
                     /\ ascii_of_N
                          (url.unhex (url.upperhex (N.shiftr (N_of_ascii c) 4)) * 16
                           + url.unhex (url.upperhex (N.land (N_of_ascii c) 15))) = c).
        { clear. each_byte c; vm_compute; repeat split; reflexivity. }
        destruct Hb as (Hh1 & Hh2 & Hv).
        cbn [url.unescape_check url.unescape_bytes].
        rewrite Hh1, Hh2, Hv. cbn. rewrite IH1, IH2. split; reflexivity.
      + assert (Hc : c <> "%"%char /\ c <> "+"%char).
        { clear - Hesc. split; intros ->; vm_compute in Hesc; discriminate. }
        destruct Hc as [Hc1 Hc2].
        assert (Hchk : forall r, url.unescape_check (String c r) url.encodeQueryComponent
                                 = url.unescape_check r url.encodeQueryComponent).
        { intros r. clear - Hc1 Hc2. revert Hc1 Hc2.
          each_byte c; intros; try reflexivity; congruence. }
        assert (Hbytes : forall r, url.unescape_bytes (String c r) url.encodeQueryComponent
                                   = String c (url.unescape_bytes r url.encodeQueryComponent)).
        { intros r. clear - Hc1 Hc2. revert Hc1 Hc2.
          each_byte c; intros; try reflexivity; congruence. }
        rewrite Hchk, Hbytes, IH1, IH2. split; reflexivity. }
  destruct H as [-> ->]. reflexivity.
Qed.

(** ** [Values.Encode] and [ParseQuery] *)

(** One pair of the encoded query. *)
Definition pair_text (p : string * string) : string :=
  url.QueryEscape p.1 +:+ "=" +:+ url.QueryEscape p.2.

(** The pairs joined by [&]. *)
Fixpoint render (l : list (string * string)) : string :=
  match l with
  | [] => EmptyString
  | p :: l =>
      pair_text p +:+ match l with [] => EmptyString | _ => "&" +:+ render l end
  end.

(** The pairs of a map, key by key in the order of [sort.Strings], the values
    of a key in their order. *)
Definition pairs_of (keys : list string) (v : url.Values) : list (string * string) :=
  flat_map (fun k => map (pair k) (default [] (v !! k))) keys.

Definition pairs (v : url.Values) : list (string * string) :=
  pairs_of (url.sorted_keys v) v.

(** The builder of [Encode], extended by some pairs. *)
Definition extend (buf : string) (l : list (string * string)) : string :=
  foldl (fun buf p =>
           (if String.eqb buf EmptyString then buf else buf +:+ "&")
             +:+ pair_text p) buf l.

Lemma pair_text_nonempty (p : string * string) (s : string) :
  String.eqb (pair_text p +:+ s) EmptyString = false.
Proof.
  unfold pair_text. rewrite !eqb_empty_append. simpl.
  rewrite andb_false_r. reflexivity.
Qed.

Lemma extend_render (l : list (string * string)) (buf : string) :
  extend buf l =
  match l with
  | [] => buf
  | _ => (if String.eqb buf EmptyString then EmptyString else buf +:+ "&")
           +:+ render l
  end.
Proof.
  revert buf. induction l as [|p l IH]; intros buf; [reflexivity|].
  unfold extend in *. cbn [foldl]. rewrite IH. clear IH.
  assert (Hpre : (if String.eqb buf EmptyString then buf else buf +:+ "&")
                 = (if String.eqb buf EmptyString then EmptyString else buf +:+ "&")).
  { destruct (String.eqb_spec buf EmptyString) as [->|]; reflexivity. }
  rewrite Hpre.
  destruct l as [|q l].
  - cbn [render]. rewrite append_nil_r. reflexivity.
  - assert (Hne : String.eqb
                    ((if String.eqb buf EmptyString then EmptyString else buf +:+ "&")
                       +:+ pair_text p) EmptyString = false).
    { rewrite eqb_empty_append.
      pose proof (pair_text_nonempty p EmptyString) as H.
      rewrite append_nil_r in H. rewrite H. apply andb_false_r. }
    rewrite Hne. cbn [render]. rewrite !append_assoc. reflexivity.
Qed.

Lemma Encode_render (v : url.Values) : url.Encode v = render (pairs v).
Proof.
  unfold url.Encode, pairs, pairs_of.
  assert (H : forall keys buf,
             foldl (fun buf k =>
                      let vs := default [] (v !! k) in
                      let keyEscaped := url.QueryEscape k in
                      foldl (fun buf x =>
                               (if String.eqb buf EmptyString then buf
                                else buf +:+ "&")
                                 +:+ keyEscaped +:+ "=" +:+ url.QueryEscape x)
                            buf vs) buf keys
             = extend buf (flat_map (fun k => map (pair k) (default [] (v !! k))) keys)).
  { induction keys as [|k keys IH]; intros buf; [reflexivity|].
    cbn [foldl flat_map]. unfold extend. rewrite foldl_app. fold (extend).
    rewrite IH. unfold extend. f_equal.
    generalize (default [] (v !! k)). intros vs. revert buf.
    induction vs as [|x vs IHvs]; intros buf; [reflexivity|].
    cbn [foldl map]. rewrite IHvs. reflexivity. }
  rewrite H, extend_render.
  destruct (flat_map _ _); reflexivity.
Qed.

Lemma pair_text_lacks (c : ascii) (p : string * string) :
  query_safe c = false -> byte_eqb c "=" = false ->
  lacks c (pair_text p) = true.
Proof.
  intros Hc Heq. unfold pair_text. rewrite !lacks_append.
  rewrite !(escape_lacks c _ Hc). unfold lacks. cbn [strings.all_bytes].
  rewrite Heq. reflexivity.
Qed.

(** One round of [parseQuery] on a well-formed pair. *)
Lemma parseQuery_loop_pair (fuel : nat) (m : url.Values) (err : option error)
    (k x : string) (l : list (string * string)) :
  url.parseQuery_loop (S fuel) m err (render ((k, x) :: l))
  = url.parseQuery_loop fuel (url.Add m k x) err (render l).
Proof.
  cbn [url.parseQuery_loop render].
  rewrite pair_text_nonempty.
  assert (Hcut : strings.Cut
                   (pair_text (k, x)
                      +:+ match l with [] => EmptyString | _ => "&" +:+ render l end)
                   "&" = (pair_text (k, x), render l, negb (bool_decide (l = [])))).
  { destruct l as [|q l].
    - rewrite append_nil_r. rewrite Cut_byte_absent; [reflexivity|].
      apply pair_text_lacks; reflexivity.
    - change ("&" +:+ render (q :: l)) with (String "&" (render (q :: l))).
      rewrite Cut_byte_first; [reflexivity|].
      apply pair_text_lacks; reflexivity. }
  rewrite Hcut. clear Hcut.
  rewrite Contains_byte_absent by (apply pair_text_lacks; reflexivity).
  pose proof (pair_text_nonempty (k, x) EmptyString) as Hne.
  rewrite append_nil_r in Hne. rewrite Hne. clear Hne.
  unfold pair_text at 1. cbn [fst snd].
  change ("=" +:+ url.QueryEscape x) with (String "=" (url.QueryEscape x)).
  rewrite Cut_byte_first by (apply escape_lacks; reflexivity).
  rewrite !QueryUnescape_QueryEscape. reflexivity.
Qed.

Lemma render_cons_length (p : string * string) (l : list (string * string)) :
  (String.length (render l) < String.length (render (p :: l)))%nat.
Proof.
  cbn [render]. rewrite length_append.
  assert (0 < String.length (pair_text p))%nat.
  { unfold pair_text. rewrite !length_append. simpl. lia. }
  destruct l; [simpl in *; lia|]. rewrite length_append. simpl. lia.
Qed.

(** [parseQuery] reads the rendered pairs back, one [Add] for each. *)
Lemma parseQuery_loop_render (l : list (string * string)) (fuel : nat)
    (m : url.Values) (err : option error) :
  (String.length (render l) <= fuel)%nat ->
  url.parseQuery_loop fuel m err (render l)
  = (foldl (fun m p => url.Add m p.1 p.2) m l, err).
Proof.
  revert fuel m. induction l as [|[k x] l IH]; intros fuel m Hfuel.
  - destruct fuel; reflexivity.
  - pose proof (render_cons_length (k, x) l) as Hlen.
    destruct fuel as [|fuel]; [lia|].
    rewrite parseQuery_loop_pair. rewrite IH by lia. reflexivity.
Qed.

(** The values of one key, added in a row. *)
Lemma foldl_Add_key (k : string) (vs : list string) (m : url.Values) :
  foldl (fun m p => url.Add m p.1 p.2) m (map (pair k) vs)
  = match vs with
    | [] => m
    | _ => <[k := default [] (m !! k) ++ vs]> m
    end.
Proof.
  revert m. induction vs as [|x vs IH]; intros m; [reflexivity|].
  cbn [foldl map fst snd]. rewrite IH. unfold url.Add.
  destruct vs as [|y vs]; [reflexivity|].
  rewrite lookup_insert_eq. cbn [default]. rewrite insert_insert_eq.
  unfold id. rewrite <- app_assoc. reflexivity.
Qed.

Lemma foldl_Add_pairs (v : url.Values) (keys : list string) (m : url.Values)
    (k : string) :
  NoDup keys ->
  foldl (fun m p => url.Add m p.1 p.2) m (pairs_of keys v) !! k
  = if bool_decide (k ∈ keys)
    then match default [] (v !! k) with
         | [] => m !! k
         | vs => Some (default [] (m !! k) ++ vs)
         end
    else m !! k.
Proof.
  intros Hnd. revert m. induction Hnd as [|k0 keys Hk0 Hnd IH]; intros m.
  - reflexivity.
  - unfold pairs_of in *. cbn [flat_map]. rewrite foldl_app, IH. clear IH.
    rewrite foldl_Add_key.
    destruct (decide (k = k0)) as [->|Hne].
    + rewrite (bool_decide_eq_false_2 (k0 ∈ keys)) by exact Hk0.
      rewrite bool_decide_eq_true_2 by (left; reflexivity).
      destruct (default [] (v !! k0)) as [|x vs]; [reflexivity|].
      rewrite lookup_insert_eq. reflexivity.
    + assert (Hin : bool_decide (k ∈ k0 :: keys) = bool_decide (k ∈ keys)).
      { apply bool_decide_ext. rewrite elem_of_cons. tauto. }
      rewrite Hin.
      assert (Hm : (match default [] (v !! k0) with
                    | [] => m
                    | _ => <[k0 := default [] (m !! k0) ++ default [] (v !! k0)]> m
                    end) !! k = m !! k).
      { destruct (default [] (v !! k0)); [reflexivity|].
        rewrite lookup_insert_ne by congruence. reflexivity. }
      rewrite Hm. reflexivity.
Qed.

(** No key of the map has an empty list of values. *)
Definition values_nonempty (v : url.Values) : Prop :=
  forall k vs, v !! k = Some vs -> vs <> [].

Lemma sorted_keys_perm (v : url.Values) : url.sorted_keys v ≡ₚ (map_to_list v).*1.
Proof. apply merge_sort_Permutation. Qed.

Lemma sorted_keys_NoDup (v : url.Values) : NoDup (url.sorted_keys v).
Proof. rewrite sorted_keys_perm. apply NoDup_fst_map_to_list. Qed.

Lemma elem_of_sorted_keys (v : url.Values) (k : string) :
  k ∈ url.sorted_keys v <-> is_Some (v !! k).
Proof.
  rewrite sorted_keys_perm. rewrite list_elem_of_fmap. split.
  - intros [[k' vs] [-> H]]. apply elem_of_map_to_list in H. eauto.
  - intros [vs H]. exists (k, vs). split; [reflexivity|].
    apply elem_of_map_to_list. exact H.
Qed.

(** The keys of the encoded query are in the order of [sort.Strings]. *)
Lemma sorted_keys_Sorted (v : url.Values) : Sorted String.le (url.sorted_keys v).
Proof. apply (Sorted_merge_sort String.le). Qed.

(** [ParseQuery] undoes [Encode], for a map without empty lists of values. *)
Lemma ParseQuery_Encode (v : url.Values) :
  values_nonempty v -> url.ParseQuery (url.Encode v) = (v, None).
Proof.
  intros Hne. unfold url.ParseQuery. rewrite Encode_render.
  rewrite parseQuery_loop_render by lia. f_equal.
  apply map_eq. intros k. unfold pairs.
  rewrite foldl_Add_pairs by apply sorted_keys_NoDup.
  rewrite lookup_empty. cbn [default app].
  destruct (v !! k) as [vs|] eqn:Hk.
  - rewrite bool_decide_eq_true_2 by (apply elem_of_sorted_keys; eauto).
    cbn [default]. destruct vs as [|x vs]; [|reflexivity].
    exfalso. exact (Hne k [] Hk eq_refl).
  - cbn [default]. destruct (bool_decide _); reflexivity.
Qed.

Lemma values_nonempty_Add (m : url.Values) (k x : string) :
  values_nonempty m -> values_nonempty (url.Add m k x).
Proof.
  intros Hm k' vs. unfold url.Add. rewrite lookup_insert.
  destruct (decide (k = k')) as [->|Hne].
  - intros [= <-]. destruct (default [] (m !! k')); discriminate.
  - apply Hm.
Qed.

Lemma values_nonempty_Set (m : url.Values) (k x : string) :
  values_nonempty m -> values_nonempty (url.Set_ m k x).
Proof.
  intros Hm k' vs. unfold url.Set_. rewrite lookup_insert.
  destruct (decide (k = k')) as [->|Hne].
  - intros [= <-]. discriminate.
  - apply Hm.
Qed.

Lemma parseQuery_loop_nonempty (fuel : nat) (m : url.Values)
    (err : option error) (query : string) :
  values_nonempty m -> values_nonempty (url.parseQuery_loop fuel m err query).1.
Proof.
  revert m err query. induction fuel as [|fuel IH]; intros m err query Hm;
    [exact Hm|].
  cbn [url.parseQuery_loop].
  destruct (String.eqb query EmptyString); [exact Hm|].
  destruct (strings.Cut query "&") as [[key rest] found].
  destruct (strings.Contains key ";"); [apply IH; exact Hm|].
  destruct (String.eqb key EmptyString); [apply IH; exact Hm|].
  destruct (strings.Cut key "=") as [[key' value] found'].
  destruct (url.QueryUnescape key') as [k [e|]]; [apply IH; exact Hm|].
  destruct (url.QueryUnescape value) as [x [e|]]; [apply IH; exact Hm|].
  apply IH, values_nonempty_Add, Hm.
Qed.

(** The parameters of a URL never have an empty list of values. *)
Lemma Query_nonempty (u : url.URL) : values_nonempty (url.Query u).
Proof.
  unfold url.Query, url.ParseQuery. apply parseQuery_loop_nonempty.
  intros k vs H. rewrite lookup_empty in H. discriminate.
Qed.

(** ** [addUserAgent] on a URL *)

(** The value of the parameter: library name, library version and runtime
    version, joined by [/]. *)
Definition userAgent (env : Env) : string :=
  signer.LibName +:+ "/" +:+ version env +:+ "/" +:+ runtime_Version env.

(** The URL that [addUserAgent] turns back into text. *)
Definition withUserAgent (env : Env) (u : url.URL) : url.URL :=
  url.with_RawQuery u
    (url.Encode (url.Set_ (url.Query u) signer.UserAgentKey (userAgent env))).

Lemma addUserAgent_parsed (env : Env) (signedURL : string) (u : url.URL) :
  url.Parse signedURL = Ok u ->
  signer.addUserAgent env signedURL = (url.String_ (withUserAgent env u), None).
Proof.
  intros Hu. unfold signer.addUserAgent. rewrite Hu.
  unfold withUserAgent, userAgent, strings.Join. cbn [String.concat].
  reflexivity.
Qed.

(** The parameters of the URL with the user agent: those of the URL, and
    [User-Agent]. *)
Lemma Query_withUserAgent (env : Env) (u : url.URL) :
  url.ParseQuery (url.RawQuery (withUserAgent env u))
  = (<[signer.UserAgentKey := [userAgent env]]> (url.Query u), None).
Proof.
  unfold withUserAgent. cbn [url.RawQuery url.with_RawQuery].
  apply ParseQuery_Encode, values_nonempty_Set, Query_nonempty.
Qed.

(** ** [base64.RawURLEncoding] *)

(** A byte of the URL-safe alphabet. *)
Definition in_alphabet (c : ascii) : bool := url.one_of base64.encodeURL c.

Lemma below_64_cases (P : N -> Prop) :
  (forall n, (n < 64)%nat -> P (N.of_nat n)) -> forall v, v < 64 -> P v.
Proof.
  intros H v Hv. rewrite <- (N2Nat.id v). apply H. lia.
Qed.

Ltac below_64 v Hv :=
  revert v Hv; apply below_64_cases; intros n Hn;
  do 64 (destruct n as [|n]; [vm_compute; reflexivity|]); lia.

Lemma enc_in_alphabet (v : N) : v < 64 -> in_alphabet (base64.enc v) = true.
Proof. intros Hv. below_64 v Hv. Qed.

Lemma dec_enc (v : N) : v < 64 -> base64.dec (base64.enc v) = Some v.
Proof. intros Hv. below_64 v Hv. Qed.

Lemma land_63 (x : N) : N.land x 63 = x mod 64.
Proof. change 63 with (N.ones 6). rewrite N.land_ones. reflexivity. Qed.

Lemma land_255 (x : N) : N.land x 255 = x mod 256.
Proof. change 255 with (N.ones 8). rewrite N.land_ones. reflexivity. Qed.

Lemma land_63_lt (x : N) : N.land x 63 < 64.
Proof. rewrite land_63. apply N.mod_lt. discriminate. Qed.

(** Bits that do not overlap: the bitwise or is the sum. *)
Lemma lor_add (a y k : N) :
  a mod 2 ^ k = 0 -> y < 2 ^ k -> N.lor a y = a + y.
Proof.
  intros Ha Hy.
  assert (Hland : N.land a y = 0).
  { apply N.bits_inj_0. intros n. rewrite N.land_spec.
    destruct (N.ltb_spec n k) as [Hn|Hn].
    - assert (Hbit : N.testbit a n = false).
      { rewrite <- (N.mod_pow2_bits_low a k n Hn), Ha. apply N.bits_0. }
      rewrite Hbit. reflexivity.
    - destruct (N.eq_dec y 0) as [->|Hy0];
        [rewrite N.bits_0; apply andb_false_r|].
      rewrite (N.bits_above_log2 y n); [apply andb_false_r|].
      apply N.log2_lt_pow2 in Hy; lia. }
  rewrite <- N.lxor_lor by exact Hland.
  symmetry. apply N.add_nocarry_lxor. exact Hland.
Qed.

Ltac euclid := zify; Z.to_euclidean_division_equations; lia.

Lemma mul_mod_0 (a m : N) : m <> 0 -> (a * m) mod m = 0.
Proof. intros Hm. apply N.Div0.mod_mul. Qed.

(** The 24 bits of three bytes. *)
Lemma three_bytes_value (a b c : N) :
  a < 256 -> b < 256 -> c < 256 ->
  N.lor (N.lor (N.shiftl a 16) (N.shiftl b 8)) c = a * 65536 + b * 256 + c.
Proof.
  intros Ha Hb Hc. rewrite !N.shiftl_mul_pow2.
  change (2 ^ 16) with 65536. change (2 ^ 8) with 256.
  rewrite (lor_add (a * 65536) (b * 256) 16);
    [|apply (mul_mod_0 a 65536); discriminate | change (2 ^ 16) with 65536; lia].
  rewrite (lor_add (a * 65536 + b * 256) c 8);
    [reflexivity | change (2 ^ 8) with 256; euclid | exact Hc].
Qed.

(** The 24 bits of four characters. *)
Lemma four_sextets_value (s1 s2 s3 s4 : N) :
  s1 < 64 -> s2 < 64 -> s3 < 64 -> s4 < 64 ->
  N.lor (N.lor (N.shiftl s1 18) (N.shiftl s2 12)) (N.lor (N.shiftl s3 6) s4)
  = s1 * 262144 + s2 * 4096 + s3 * 64 + s4.
Proof.
  intros H1 H2 H3 H4. rewrite !N.shiftl_mul_pow2.
  change (2 ^ 18) with 262144. change (2 ^ 12) with 4096. change (2 ^ 6) with 64.
  rewrite (lor_add (s3 * 64) s4 6);
    [|apply (mul_mod_0 s3 64); discriminate | exact H4].
  rewrite (lor_add (s1 * 262144) (s2 * 4096) 18);
    [|apply (mul_mod_0 s1 262144); discriminate | change (2 ^ 18) with 262144; lia].
  rewrite (lor_add (s1 * 262144 + s2 * 4096) (s3 * 64 + s4) 12);
    [lia | change (2 ^ 12) with 4096; euclid | change (2 ^ 12) with 4096; lia].
Qed.

Lemma shiftr_div (x k : N) : N.shiftr x k = x / 2 ^ k.
Proof. apply N.shiftr_div_pow2. Qed.

(** A full group: three bytes, four characters, three bytes. *)
Lemma decode_group (a b c : N) :
  a < 256 -> b < 256 -> c < 256 ->
  let v := N.lor (N.lor (N.shiftl a 16) (N.shiftl b 8)) c in
  let v' := N.lor (N.lor (N.shiftl (N.land (N.shiftr v 18) 63) 18)
                         (N.shiftl (N.land (N.shiftr v 12) 63) 12))
                  (N.lor (N.shiftl (N.land (N.shiftr v 6) 63) 6)
                         (N.land v 63)) in
  N.land (N.shiftr v' 16) 255 = a
  /\ N.land (N.shiftr v' 8) 255 = b
  /\ N.land v' 255 = c.
Proof.
  intros Ha Hb Hc v v'. subst v'.
  rewrite four_sextets_value by apply land_63_lt.
  subst v. rewrite three_bytes_value by assumption.
  rewrite !land_63, !land_255, !shiftr_div.
  change (2 ^ 18) with 262144. change (2 ^ 12) with 4096.
  change (2 ^ 6) with 64. change (2 ^ 16) with 65536. change (2 ^ 8) with 256.
  repeat split; euclid.
Qed.

(** The last group of two bytes: three characters. *)
Lemma decode_two (a b : N) :
  a < 256 -> b < 256 ->
  let v := N.lor (N.shiftl a 16) (N.shiftl b 8) in
  let v' := N.lor (N.lor (N.shiftl (N.land (N.shiftr v 18) 63) 18)
                         (N.shiftl (N.land (N.shiftr v 12) 63) 12))
                  (N.shiftl (N.land (N.shiftr v 6) 63) 6) in
  N.land (N.shiftr v' 16) 255 = a /\ N.land (N.shiftr v' 8) 255 = b.
Proof.
  intros Ha Hb v v'.
  destruct (decode_group a b 0 Ha Hb eq_refl) as (H1 & H2 & _).
  rewrite N.lor_0_r in H1, H2. fold v in H1, H2.
  assert (Hlow : N.land v 63 = 0).
  { subst v. rewrite <- (N.lor_0_r (N.lor _ _)).
    rewrite three_bytes_value by (assumption || reflexivity).
    rewrite land_63. euclid. }
  rewrite Hlow, N.lor_0_r in H1, H2. split; assumption.
Qed.

(** The last group of one byte: two characters. *)
Lemma decode_one (a : N) :
  a < 256 ->
  let v := N.shiftl a 16 in
  let v' := N.lor (N.shiftl (N.land (N.shiftr v 18) 63) 18)
                  (N.shiftl (N.land (N.shiftr v 12) 63) 12) in
  N.land (N.shiftr v' 16) 255 = a.
Proof.
  intros Ha v v'.
  destruct (decode_two a 0 Ha eq_refl) as (H1 & _).
  change (N.shiftl 0 8) with 0 in H1. rewrite N.lor_0_r in H1. fold v in H1.
  assert (Hlow : N.land (N.shiftr v 6) 63 = 0).
  { subst v. rewrite N.shiftl_mul_pow2, land_63, shiftr_div.
    change (2 ^ 16) with 65536. change (2 ^ 6) with 64. euclid. }
  rewrite Hlow in H1. change (N.shiftl 0 6) with 0 in H1.
  rewrite N.lor_0_r in H1. exact H1.
Qed.

(** Induction on a string, three bytes at a time. *)
Lemma string_ind3 (P : string -> Prop) :
  P EmptyString ->
  (forall a, P (String a EmptyString)) ->
  (forall a b, P (String a (String b EmptyString))) ->
  (forall a b c s, P s -> P (String a (String b (String c s)))) ->
  forall s, P s.
Proof.
  intros H0 H1 H2 H3.
  assert (H : forall s, P s /\ (forall a, P (String a s))
                        /\ (forall a b, P (String a (String b s)))).
  { induction s as [|c s (IHs & IH1 & IH2)].
    - auto.
    - split; [apply IH1|]. split; [intros a; apply IH2|].
      intros a b. apply H3. exact IHs. }
  intros s. apply H.
Qed.

Lemma byte_bounded (c : ascii) : N_of_ascii c < 256.
Proof. apply N_ascii_bounded. Qed.

(** Decoding undoes the encoding. *)
Lemma DecodeString_EncodeToString (s : string) :
  base64.DecodeString (base64.EncodeToString s) = Some s.
Proof.
  induction s as [|a|a b|a b c s IH] using string_ind3.
  - reflexivity.
  - cbn [base64.EncodeToString base64.DecodeString].
    rewrite !dec_enc by apply land_63_lt. cbn [mbind option_bind].
    rewrite (decode_one (N_of_ascii a) (byte_bounded a)), ascii_N_embedding.
    reflexivity.
  - cbn [base64.EncodeToString base64.DecodeString].
    rewrite !dec_enc by apply land_63_lt. cbn [mbind option_bind].
    destruct (decode_two (N_of_ascii a) (N_of_ascii b)
                (byte_bounded a) (byte_bounded b)) as [-> ->].
    rewrite !ascii_N_embedding. reflexivity.
  - cbn [base64.EncodeToString base64.DecodeString].
    rewrite !dec_enc by apply land_63_lt. cbn [mbind option_bind].
    rewrite IH. cbn [mbind option_bind].
    destruct (decode_group (N_of_ascii a) (N_of_ascii b) (N_of_ascii c)
                (byte_bounded a) (byte_bounded b) (byte_bounded c))
      as (-> & -> & ->).
    rewrite !ascii_N_embedding. reflexivity.
Qed.

(** Every character of an encoding is of the URL-safe alphabet, so none is
    the padding [=], nor the [+] and [/] of the standard alphabet. *)
Lemma EncodeToString_alphabet (s : string) :
  strings.all_bytes in_alphabet (base64.EncodeToString s) = true.
Proof.
  induction s as [|a|a b|a b c s IH] using string_ind3;
    cbn [base64.EncodeToString strings.all_bytes];
    rewrite ?IH, ?enc_in_alphabet by apply land_63_lt; reflexivity.
Qed.

Lemma alphabet_lacks (c : ascii) (s : string) :
  in_alphabet c = false ->
  strings.all_bytes in_alphabet s = true -> lacks c s = true.
Proof.
  intros Hc. apply all_bytes_impl. intros x Hx.
  apply negb_true_iff. destruct (byte_eqb c x) eqn:E; [|reflexivity].
  apply Ascii.eqb_eq in E. subst x. congruence.
Qed.

(** Four characters for three bytes, and no padding: the length is
    [(4 n + 2) / 3], rounded down. *)
Lemma EncodeToString_length (s : string) :
  String.length (base64.EncodeToString s)
  = ((4 * String.length s + 2) / 3)%nat.
Proof.
  induction s as [|a|a b|a b c s IH] using string_ind3;
    cbn [base64.EncodeToString String.length]; try reflexivity.
  rewrite IH.
  replace (4 * S (S (S (String.length s))) + 2)%nat
    with ((4 * String.length s + 2) + 4 * 3)%nat by lia.
  rewrite Nat.div_add by discriminate. lia.
Qed.

(** ** The token finalizer *)

(** C4: for a signed URL that parses, [addUserAgent] returns the text of the
    URL whose query is the old one with [User-Agent] set to
    library-name/library-version/runtime-version and encoded anew; the token
    is the base64 text of these bytes in the URL-safe alphabet without
    padding. *)
Theorem finalizer_sets_user_agent_and_encodes (env : Env) (signedURL : string)
    (u : url.URL) :
  url.Parse signedURL = Ok u ->
  let withAgent := withUserAgent env u in
  let token := signer.base64Encode (signer.addUserAgent env signedURL).1 in
  signer.addUserAgent env signedURL = (url.String_ withAgent, None)
  /\ url.RawQuery withAgent
     = url.Encode (<[signer.UserAgentKey := [userAgent env]]> (url.Query u))
  /\ url.Query withAgent !! "User-Agent" = Some [userAgent env]
  /\ url.Get (url.Query withAgent) "User-Agent"
     = "aws-msk-iam-sasl-signer-go" +:+ "/" +:+ version env +:+ "/"
         +:+ runtime_Version env
  /\ strings.HasPrefix (url.Get (url.Query withAgent) "User-Agent")
       (signer.LibName +:+ "/") = true
  /\ token = base64.EncodeToString (url.String_ withAgent)
  /\ base64.DecodeString token = Some (url.String_ withAgent)
  /\ strings.all_bytes in_alphabet token = true
  /\ lacks "=" token = true
  /\ String.length token
     = ((4 * String.length (url.String_ withAgent) + 2) / 3)%nat.
Proof.
  intros Hu withAgent token.
  pose proof (addUserAgent_parsed env signedURL u Hu) as Hadd.
  pose proof (Query_withUserAgent env u) as Hq.
  assert (Hlookup : url.Query withAgent !! "User-Agent" = Some [userAgent env]).
  { unfold url.Query. subst withAgent. rewrite Hq. cbn [fst].
    apply lookup_insert_eq. }
  assert (Hget : url.Get (url.Query withAgent) "User-Agent" = userAgent env).
  { unfold url.Get. rewrite Hlookup. reflexivity. }
  assert (Htoken : token = base64.EncodeToString (url.String_ withAgent)).
  { subst token. rewrite Hadd. reflexivity. }
  split; [exact Hadd|]. split; [reflexivity|]. split; [exact Hlookup|].
  split; [exact Hget|]. split; [rewrite Hget; reflexivity|].
  split; [exact Htoken|]. rewrite Htoken.
  split; [apply DecodeString_EncodeToString|].
  split; [apply EncodeToString_alphabet|].
  split; [|apply EncodeToString_length].
  apply alphabet_lacks; [reflexivity|apply EncodeToString_alphabet].
Qed.

(** The signed URL of the package's [TestAddUserAgent]. *)
Definition TestAddUserAgent_signedURL : string :=
  "https://kafka.us-west-2.amazonaws.com/?Action=kafka-cluster%3AConnect".

Definition TestAddUserAgent_URL : url.URL :=
  {| url.Scheme := "https"; url.Opaque := EmptyString; url.User := None;
     url.Host := "kafka.us-west-2.amazonaws.com"; url.Path := "/";
     url.RawPath := EmptyString; url.OmitHost := false; url.ForceQuery := false;
     url.RawQuery := "Action=kafka-cluster%3AConnect";
     url.Fragment := EmptyString; url.RawFragment := EmptyString |}.

Lemma finalizer_sets_user_agent_and_encodes_witness :
  url.Parse TestAddUserAgent_signedURL = Ok TestAddUserAgent_URL
  /\ signer.addUserAgent mock.env TestAddUserAgent_signedURL
     = (url.String_ (withUserAgent mock.env TestAddUserAgent_URL), None)
  /\ url.String_ (withUserAgent mock.env TestAddUserAgent_URL)
     = TestAddUserAgent_signedURL
         +:+ "&User-Agent=aws-msk-iam-sasl-signer-go%2F1.0.0%2Fgo1.20".
Proof.
  assert (H : url.Parse TestAddUserAgent_signedURL = Ok TestAddUserAgent_URL)
    by (vm_compute; reflexivity).
  split; [exact H|]. split; [|vm_compute; reflexivity].
  apply (finalizer_sets_user_agent_and_encodes mock.env
           TestAddUserAgent_signedURL TestAddUserAgent_URL H).
Defined.

(** ** What [addUserAgent] leaves as it is *)






(** ** [strconv.FormatInt] *)

(** A decimal digit, or the sign. *)
Definition is_digit (c : ascii) : bool := between "0" "9" c.
Definition decimal_byte (c : ascii) : bool := is_digit c || byte_eqb c "-".

(** The number that a text of decimal digits spells, read from the left. *)
Fixpoint digits_value (s : string) (acc : N) : option N :=
  match s with
  | EmptyString => Some acc
  | String c s =>
      if is_digit c then digits_value s (10 * acc + (N_of_ascii c - 48))
      else None
  end.

(** [strconv.Atoi] on what [FormatInt] writes: an optional [-] and digits. *)
Definition Atoi (s : string) : option Z :=
  match s with
  | EmptyString => None
  | String c digits =>
      if byte_eqb c "-" then (fun n => (- Z.of_N n)%Z) <$> digits_value digits 0
      else Z.of_N <$> digits_value s 0
  end.

Lemma digit_spec (d : N) :
  d < 10 -> is_digit (strconv.digit d) = true
            /\ N_of_ascii (strconv.digit d) - 48 = d.
Proof.
  intros Hd. assert (H : (N.to_nat d < 10)%nat) by lia.
  rewrite <- (N2Nat.id d). revert H. generalize (N.to_nat d). intros n Hn.
  do 10 (destruct n as [|n]; [split; reflexivity|]). lia.
Qed.

Lemma formatBits_digits (fuel : nat) (u : N) (acc : string) :
  strings.all_bytes is_digit acc = true ->
  strings.all_bytes is_digit (strconv.formatBits fuel u acc) = true.
Proof.
  revert u acc. induction fuel as [|fuel IH]; intros u acc Hacc; [exact Hacc|].
  cbn [strconv.formatBits].
  assert (Hd : strings.all_bytes is_digit (String (strconv.digit (u mod 10)) acc)
               = true).
  { cbn [strings.all_bytes]. rewrite Hacc.
    destruct (digit_spec (u mod 10)) as [-> _]; [|reflexivity].
    apply N.mod_lt. discriminate. }
  destruct (u / 10 =? 0); [exact Hd|]. apply IH, Hd.
Qed.

Lemma formatBits_value (fuel : nat) (u : N) (acc : string) :
  u < 10 ^ N.of_nat fuel ->
  digits_value (strconv.formatBits fuel u acc) 0 = digits_value acc u.
Proof.
  revert u acc. induction fuel as [|fuel IH]; intros u acc Hu.
  - change (10 ^ N.of_nat 0) with 1 in Hu. assert (u = 0) as -> by lia. reflexivity.
  - cbn [strconv.formatBits].
    assert (Hstep : digits_value (String (strconv.digit (u mod 10)) acc) (u / 10)
                    = digits_value acc u).
    { cbn [digits_value].
      destruct (digit_spec (u mod 10)) as [-> ->];
        [apply N.mod_lt; discriminate|].
      f_equal. pose proof (N.div_mod u 10). lia. }
    destruct (N.eqb_spec (u / 10) 0) as [H0|H0].
    + rewrite <- H0 at 1. exact Hstep.
    + rewrite IH; [exact Hstep|].
      rewrite Nat2N.inj_succ, N.pow_succ_r' in Hu.
      apply N.Div0.div_lt_upper_bound. exact Hu.
Qed.

Lemma formatBits_nonempty (fuel : nat) (u : N) (acc : string) :
  String.eqb (strconv.formatBits (S fuel) u acc) EmptyString = false.
Proof.
  assert (H : forall f v a, String.eqb a EmptyString = false ->
                            String.eqb (strconv.formatBits f v a) EmptyString = false).
  { induction f as [|f IH]; intros v a Ha; [exact Ha|].
    cbn [strconv.formatBits]. destruct (v / 10 =? 0); [reflexivity|].
    apply IH. reflexivity. }
  cbn [strconv.formatBits]. destruct (u / 10 =? 0); [reflexivity|].
  apply H. reflexivity.
Qed.

(** What [FormatInt] writes is a decimal numeral: digits after an optional
    sign. *)
Lemma FormatInt_decimal (i : Z) :
  strings.all_bytes decimal_byte (strconv.FormatInt i) = true
  /\ String.eqb (strconv.FormatInt i) EmptyString = false.
Proof.
  unfold strconv.FormatInt.
  pose proof (formatBits_digits 20 (Z.abs_N i) EmptyString eq_refl) as Hd.
  assert (Hdec : strings.all_bytes decimal_byte
                   (strconv.formatBits 20 (Z.abs_N i) EmptyString) = true).
  { revert Hd. apply all_bytes_impl. intros c Hc. unfold decimal_byte.
    rewrite Hc. reflexivity. }
  destruct (i <? 0)%Z.
  - split; [|reflexivity]. cbn [strings.all_bytes]. rewrite Hdec. reflexivity.
  - split; [exact Hdec|]. apply formatBits_nonempty.
Qed.

(** Reading the numeral gives the number back, for every 64-bit number. *)
Lemma Atoi_FormatInt (i : Z) :
  (- 2 ^ 63 <= i < 2 ^ 63)%Z -> Atoi (strconv.FormatInt i) = Some i.
Proof.
  intros Hi. unfold strconv.FormatInt.
  assert (Hv : digits_value (strconv.formatBits 20 (Z.abs_N i) EmptyString) 0
               = Some (Z.abs_N i)).
  { rewrite formatBits_value; [reflexivity|].
    change (10 ^ N.of_nat 20) with 100000000000000000000. lia. }
  destruct (Z.ltb_spec i 0) as [Hneg|Hpos].
  - unfold Atoi. rewrite byte_eqb_refl, Hv. cbn. f_equal. lia.
  - unfold Atoi.
    pose proof (formatBits_nonempty 19 (Z.abs_N i) EmptyString) as Hne.
    destruct (strconv.formatBits 20 (Z.abs_N i) EmptyString) as [|c s] eqn:E;
      [discriminate Hne|]. clear Hne.
    assert (Hc : byte_eqb c "-" = false).
    { pose proof (formatBits_digits 20 (Z.abs_N i) EmptyString eq_refl) as Hd.
      rewrite E in Hd. cbn [strings.all_bytes] in Hd.
      apply andb_true_iff in Hd as [Hd _]. clear - Hd. revert Hd.
      unfold byte_eqb. destruct (Ascii.eqb_spec c "-") as [->|]; [|reflexivity].
      vm_compute. discriminate. }
    rewrite Hc, Hv. cbn. f_equal. lia.
Qed.

Lemma int64_range (x : Z) : (- 2 ^ 63 <= signer.int64 x < 2 ^ 63)%Z.
Proof.
  unfold signer.int64.
  pose proof (Z.mod_pos_bound (x + 9223372036854775808) 18446744073709551616
                eq_refl).
  change (2 ^ 63)%Z with 9223372036854775808%Z. lia.
Qed.

Lemma int64_id (x : Z) : (- 2 ^ 63 <= x < 2 ^ 63)%Z -> signer.int64 x = x.
Proof.
  change (2 ^ 63)%Z with 9223372036854775808%Z.
  intros Hx. unfold signer.int64. rewrite Z.mod_small; lia.
Qed.

(** ** Texts that the encodings leave as they are *)

Lemma escape_id (mode : url.encoding) (s : string) :
  strings.all_bytes
    (fun c => negb (url.shouldEscape c mode)
              && negb (byte_eqb c " " && url.encoding_eqb mode url.encodeQueryComponent)) s
  = true ->
  url.escape s mode = s.
Proof.
  induction s as [|c s IH]; [reflexivity|]. cbn [strings.all_bytes url.escape].
  intros [[H1 H2]%andb_true_iff Hs]%andb_true_iff.
  apply negb_true_iff in H1, H2. rewrite H1, H2, (IH Hs). reflexivity.
Qed.

Lemma QueryEscape_decimal (s : string) :
  strings.all_bytes decimal_byte s = true -> url.QueryEscape s = s.
Proof.
  intros Hs. apply escape_id. revert Hs. apply all_bytes_impl.
  intros c. each_byte c; vm_compute; congruence.
Qed.

(** ** The request of [buildRequest] *)

(** The two parameters of the request. *)
Definition request_query (expiry : string) : url.Values :=
  {[ signer.ActionType := [signer.ActionName];
     signer.ExpiresQueryKey := [expiry] ]}.

Lemma request_query_keys (expiry : string) :
  url.sorted_keys (request_query expiry) = ["Action"; "X-Amz-Expires"].
Proof. vm_compute. reflexivity. Qed.

(** The encoded query: the two pairs, [Action] first. *)
Lemma Encode_request_query (expiry : string) :
  strings.all_bytes decimal_byte expiry = true ->
  url.Encode (request_query expiry)
  = "Action=kafka-cluster%3AConnect&X-Amz-Expires=" +:+ expiry.
Proof.
  intros Hd. rewrite Encode_render. unfold pairs.
  rewrite request_query_keys. unfold pairs_of. cbn [flat_map].
  assert (H1 : request_query expiry !! "Action" = Some [signer.ActionName])
    by reflexivity.
  assert (H2 : request_query expiry !! "X-Amz-Expires" = Some [expiry])
    by reflexivity.
  rewrite H1, H2. cbn [default]. unfold id. cbn [map app render].
  unfold pair_text. cbn [fst snd].
  rewrite (QueryEscape_decimal expiry Hd).
  vm_compute (url.QueryEscape "Action").
  vm_compute (url.QueryEscape signer.ActionName).
  vm_compute (url.QueryEscape "X-Amz-Expires").
  rewrite append_nil_r. reflexivity.
Qed.

(** *** Bytes of the text of the URL *)

(** A byte that is no control character and none of [#], [?], [/], [@]: the
    bytes that [escape] writes for a host. *)
Definition host_out (c : ascii) : bool :=
  negb ((N_of_ascii c <? 32) || (N_of_ascii c =? 127))
  && negb (url.one_of "#?/@" c).

Lemma escape_host_out (h : string) :
  strings.all_bytes host_out (url.escape h url.encodeHost) = true.
Proof.
  induction h as [|c h IH]; [reflexivity|]. cbn [url.escape].
  replace (byte_eqb c " " && url.encoding_eqb url.encodeHost url.encodeQueryComponent)
    with false by (cbn; rewrite andb_false_r; reflexivity).
  destruct (url.shouldEscape c url.encodeHost) eqn:Hesc;
    cbn [strings.all_bytes]; rewrite IH.
  - clear. each_byte c; vm_compute; reflexivity.
  - rewrite andb_true_r. clear - Hesc. revert Hesc.
    each_byte c; vm_compute; congruence.
Qed.

Lemma host_out_lacks (c : ascii) (s : string) :
  host_out c = false ->
  strings.all_bytes host_out s = true -> lacks c s = true.
Proof.
  intros Hc. apply all_bytes_impl. intros x Hx.
  apply negb_true_iff. destruct (byte_eqb c x) eqn:E; [|reflexivity].
  apply Ascii.eqb_eq in E. subst x. congruence.
Qed.

Definition not_ctl (c : ascii) : bool :=
  negb ((N_of_ascii c <? 32) || (N_of_ascii c =? 127)).

Lemma stringContainsCTLByte_false (s : string) :
  strings.all_bytes not_ctl s = true -> url.stringContainsCTLByte s = false.
Proof.
  intros H. unfold url.stringContainsCTLByte. apply negb_false_iff. exact H.
Qed.

(** The last byte of a text. *)
Fixpoint last_byte (s : string) : option ascii :=
  match s with
  | EmptyString => None
  | String c EmptyString => Some c
  | String _ s => last_byte s
  end.

Lemma from_last (s : string) :
  strings.from (String.length s - 1) s
  = match last_byte s with Some c => String c EmptyString | None => EmptyString end.
Proof.
  induction s as [|c s IH]; [reflexivity|].
  destruct s as [|d s]; [reflexivity|].
  cbn [String.length last_byte] in *.
  replace (S (S (String.length s)) - 1)%nat with (S (String.length s)) by lia.
  cbn [strings.from]. rewrite <- IH.
  replace (S (String.length s) - 1)%nat with (String.length s) by lia.
  reflexivity.
Qed.

Lemma HasSuffix_byte (s : string) (c : ascii) :
  strings.HasSuffix s (String c EmptyString)
  = match last_byte s with Some x => byte_eqb x c | None => false end.
Proof.
  unfold strings.HasSuffix. cbn [String.length]. rewrite from_last.
  destruct s as [|x s]; [reflexivity|].
  replace (1 <=? String.length (String x s))%nat with true
    by (symmetry; apply Nat.leb_le; cbn; lia).
  destruct (last_byte (String x s)) as [y|]; [|reflexivity].
  cbn. unfold byte_eqb. destruct (Ascii.eqb y c); reflexivity.
Qed.

Lemma last_byte_append (a b : string) :
  b <> EmptyString -> last_byte (a +:+ b) = last_byte b.
Proof.
  intros Hb. induction a as [|c a IH]; [reflexivity|].
  cbn [String.append last_byte]. rewrite IH.
  destruct (a +:+ b) eqn:E; [|reflexivity].
  destruct a; [cbn in E; congruence|discriminate].
Qed.

Lemma last_byte_all (p : ascii -> bool) (s : string) (c : ascii) :
  strings.all_bytes p s = true -> last_byte s = Some c -> p c = true.
Proof.
  induction s as [|x s IH]; [discriminate|].
  cbn [strings.all_bytes]. intros [Hx Hs]%andb_true_iff.
  destruct s as [|y s]; [intros [= <-]; exact Hx|].
  intros Hl. apply IH; assumption.
Qed.

Lemma LastIndex_byte_absent (c : ascii) (s : string) :
  lacks c s = true -> strings.LastIndex s (String c EmptyString) = None.
Proof.
  induction s as [|x s IH]; [reflexivity|].
  cbn [lacks strings.all_bytes strings.LastIndex]. unfold lacks in IH.
  intros [Hx Hs]%andb_true_iff. rewrite (IH Hs).
  apply negb_true_iff in Hx. cbn [strings.HasPrefix]. rewrite Hx. reflexivity.
Qed.

(** *** [url.Parse] on the text of the request's URL *)

Lemma getScheme_https (rest : string) :
  url.getScheme ("https:" +:+ rest) = ("https", rest, None).
Proof. reflexivity. Qed.

(** The query of the request: no [#], no control character, not empty, and
    not ending in [?]. *)
Definition query_out (q : string) : Prop :=
  strings.all_bytes (fun c => not_ctl c && negb (byte_eqb "#" c)) q = true
  /\ (exists c, last_byte q = Some c /\ byte_eqb c "?" = false).

(** The URL that [Parse] makes of [https://<host>/?<query>]. *)
Definition request_url (host rawQuery : string) : url.URL :=
  {| url.Scheme := "https"; url.Opaque := EmptyString; url.User := None;
     url.Host := host; url.Path := "/"; url.RawPath := EmptyString;
     url.OmitHost := false; url.ForceQuery := false; url.RawQuery := rawQuery;
     url.Fragment := EmptyString; url.RawFragment := EmptyString |}.

Lemma parseAuthority_host (E : string) :
  lacks "@" E = true ->
  url.parseAuthority E
  = match url.parseHost E with
    | (host, None) => (None, host, None)
    | (_, Some err) => (None, EmptyString, Some err)
    end.
Proof.
  intros H. unfold url.parseAuthority. rewrite (LastIndex_byte_absent _ _ H).
  destruct (url.parseHost E) as [host [err|]]; reflexivity.
Qed.

Lemma Parse_request_text (E q : string) :
  strings.all_bytes host_out E = true ->
  query_out q ->
  url.Parse ("https://" +:+ E +:+ "/?" +:+ q)
  = match url.parseHost E with
    | (host, None) => Ok (request_url host q)
    | (_, Some err) =>
        Err (url_Error "parse" ("https://" +:+ E +:+ "/?" +:+ q) err)
    end.
Proof.
  intros HE [Hq (last & Hlast & Hlastq)].
  assert (Hqne : q <> EmptyString) by (intros ->; discriminate Hlast).
  set (rest2 := "//" +:+ E +:+ "/").
  set (rest1 := rest2 +:+ String "?" q).
  assert (Hwire : "https://" +:+ E +:+ "/?" +:+ q = "https:" +:+ rest1).
  { subst rest1 rest2. cbn [String.append]. rewrite !append_assoc. reflexivity. }
  rewrite Hwire.
  assert (Hhash : lacks "#" ("https:" +:+ rest1) = true).
  { assert (Hlq : lacks "#" q = true).
    { revert Hq. apply all_bytes_impl. intros c [_ H]%andb_true_iff. exact H. }
    subst rest1 rest2. change (String "?" q) with ("?" +:+ q).
    rewrite !lacks_append, Hlq, (host_out_lacks "#" E eq_refl HE).
    reflexivity. }
  assert (Hctl : strings.all_bytes not_ctl ("https:" +:+ rest1) = true).
  { subst rest1 rest2. rewrite !all_bytes_append.
    assert (H1 : strings.all_bytes not_ctl E = true).
    { revert HE. apply all_bytes_impl. intros c [H _]%andb_true_iff. exact H. }
    assert (H2 : strings.all_bytes not_ctl q = true).
    { revert Hq. apply all_bytes_impl. intros c [H _]%andb_true_iff. exact H. }
    change (String "?" q) with ("?" +:+ q).
    rewrite !all_bytes_append, H1, H2. reflexivity. }
  unfold url.Parse. rewrite (Cut_byte_absent _ _ Hhash).
  unfold url.parse. rewrite (stringContainsCTLByte_false _ Hctl).
  change (String.eqb ("https:" +:+ rest1) EmptyString && false) with false.
  change (String.eqb ("https:" +:+ rest1) "*") with false.
  cbv iota. rewrite getScheme_https.
  change (strings.ToLower "https") with "https"%string.
  assert (Hsuffix : strings.HasSuffix rest1 "?" = false).
  { rewrite HasSuffix_byte. subst rest1.
    rewrite last_byte_append by discriminate.
    change (String "?" q) with ("?" +:+ q). rewrite last_byte_append by exact Hqne.
    rewrite Hlast. exact Hlastq. }
  rewrite Hsuffix. cbn [andb].
  assert (Hcut : strings.Cut rest1 "?" = (rest2, q, true)).
  { subst rest1. apply Cut_byte_first. subst rest2. rewrite !lacks_append.
    rewrite (host_out_lacks "?" E eq_refl HE). reflexivity. }
  rewrite Hcut.
  change (strings.HasPrefix rest2 "/") with true.
  change (strings.HasPrefix rest2 "//") with true.
  change (String.eqb "https" EmptyString) with false.
  cbn [negb andb orb].
  change (strings.from 2 rest2) with (E +:+ "/").
  rewrite (Index_byte_first "/" E EmptyString (host_out_lacks "/" E eq_refl HE)).
  rewrite upto_length_append, from_length_append.
  rewrite (parseAuthority_host E (host_out_lacks "@" E eq_refl HE)).
  destruct (url.parseHost E) as [host [err|]]; reflexivity.
Qed.

(** *** [parseHost] on an escaped host *)

Lemma escape_cons_host (c : ascii) (h : string) :
  url.escape (String c h) url.encodeHost
  = if url.shouldEscape c url.encodeHost
    then String "%" (String (url.upperhex (N.shiftr (N_of_ascii c) 4))
           (String (url.upperhex (N.land (N_of_ascii c) 15))
              (url.escape h url.encodeHost)))
    else String c (url.escape h url.encodeHost).
Proof.
  cbn [url.escape].
  replace (byte_eqb c " " && url.encoding_eqb url.encodeHost url.encodeQueryComponent)
    with false by (cbn; rewrite andb_false_r; reflexivity).
  reflexivity.
Qed.

(** Decoding an escaped host gives the host, in the mode of hosts and in the
    mode of zones. *)
Lemma unescape_bytes_escape_host (h : string) (mode : url.encoding) :
  url.encoding_eqb mode url.encodeQueryComponent = false ->
  url.unescape_bytes (url.escape h url.encodeHost) mode = h.
Proof.
  intros Hmode. induction h as [|c h IH]; [reflexivity|].
  rewrite escape_cons_host.
  destruct (url.shouldEscape c url.encodeHost) eqn:Hesc.
  - cbn [url.unescape_bytes]. rewrite IH. f_equal.
    clear. each_byte c; vm_compute; reflexivity.
  - assert (Hc : c <> "%"%char).
    { intros ->. vm_compute in Hesc. discriminate. }
    assert (Hstep : forall r, url.unescape_bytes (String c r) mode
                              = String c (url.unescape_bytes r mode)).
    { intros r. clear - Hc Hmode. revert Hc.
      each_byte c; intros; try reflexivity; try congruence.
      cbn [url.unescape_bytes]. rewrite Hmode. reflexivity. }
    rewrite Hstep, IH. reflexivity.
Qed.

Lemma unescape_result (s : string) (mode : url.encoding) (x : string) :
  url.unescape s mode = (x, None) -> x = url.unescape_bytes s mode.
Proof.
  unfold url.unescape. destruct (url.unescape_check s mode); [discriminate|].
  intros [= <-]. reflexivity.
Qed.

Lemma upto_from (p : nat) (s : string) : strings.upto p s +:+ strings.from p s = s.
Proof.
  revert s. induction p as [|p IH]; intros s; [reflexivity|].
  destruct s as [|c s]; [reflexivity|]. cbn. rewrite IH. reflexivity.
Qed.

Lemma upto_length (p : nat) (s : string) : (String.length (strings.upto p s) <= p)%nat.
Proof.
  revert s. induction p as [|p IH]; intros s; [cbn; lia|].
  destruct s as [|c s]; [cbn; lia|]. cbn. specialize (IH s). lia.
Qed.

Lemma upto_upto (n m : nat) (s : string) :
  (n <= m)%nat -> strings.upto n (strings.upto m s) = strings.upto n s.
Proof.
  revert m s. induction n as [|n IH]; intros m s Hnm; [reflexivity|].
  destruct m as [|m]; [lia|]. destruct s as [|c s]; [reflexivity|].
  cbn. rewrite IH by lia. reflexivity.
Qed.

Lemma HasPrefix_length (s p : string) :
  strings.HasPrefix s p = true -> (String.length p <= String.length s)%nat.
Proof.
  revert s. induction p as [|c p IH]; intros s; [cbn; lia|].
  destruct s as [|x s]; [discriminate|]. cbn.
  intros [_ H]%andb_true_iff. specialize (IH s H). lia.
Qed.

Lemma from_length (i : nat) (s : string) :
  String.length (strings.from i s) = (String.length s - i)%nat.
Proof.
  revert s. induction i as [|i IH]; intros s; [cbn; lia|].
  destruct s as [|c s]; [reflexivity|]. cbn. apply IH.
Qed.

(** Where [Index] finds the text, the text is. *)
Lemma Index_Some (s sub : string) (i : nat) :
  strings.Index s sub = Some i ->
  strings.HasPrefix (strings.from i s) sub = true.
Proof.
  revert i. induction s as [|c s IH]; intros i.
  - cbn [strings.Index]. destruct (strings.HasPrefix EmptyString sub) eqn:E;
      [intros [= <-]; exact E|discriminate].
  - cbn [strings.Index]. destruct (strings.HasPrefix (String c s) sub) eqn:E.
    + intros [= <-]. exact E.
    + destruct (strings.Index s sub) as [j|] eqn:Ej; [|discriminate].
      intros [= <-]. cbn [strings.from]. apply IH. reflexivity.
Qed.

Lemma LastIndex_Some (s sub : string) (i : nat) :
  strings.LastIndex s sub = Some i ->
  strings.HasPrefix (strings.from i s) sub = true.
Proof.
  revert i. induction s as [|c s IH]; intros i.
  - cbn [strings.LastIndex]. destruct (strings.HasPrefix EmptyString sub) eqn:E;
      [intros [= <-]; exact E|discriminate].
  - cbn [strings.LastIndex]. destruct (strings.LastIndex s sub) as [j|] eqn:Ej.
    + intros [= <-]. cbn [strings.from]. apply IH. reflexivity.
    + destruct (strings.HasPrefix (String c s) sub) eqn:E;
        [intros [= <-]; exact E|discriminate].
Qed.

(** The hex digits of an escape are neither a [%] nor a bracket. *)
Lemma upperhex_plain (c x : ascii) :
  x = "%"%char \/ x = "]"%char ->
  byte_eqb x (url.upperhex (N.shiftr (N_of_ascii c) 4)) = false
  /\ byte_eqb x (url.upperhex (N.land (N_of_ascii c) 15)) = false.
Proof.
  intros [-> | ->]; each_byte c; vm_compute; split; reflexivity.
Qed.

(** A [%] or a [\]] in an escaped host stands where the escape of a byte
    begins: the text splits there into two escaped hosts. *)
Lemma escape_split (x : ascii) (h : string) (p : nat) :
  x = "%"%char \/ x = "]"%char ->
  strings.HasPrefix (strings.from p (url.escape h url.encodeHost))
    (String x EmptyString) = true ->
  exists h1 h2,
    h = h1 +:+ h2
    /\ strings.upto p (url.escape h url.encodeHost) = url.escape h1 url.encodeHost
    /\ strings.from p (url.escape h url.encodeHost) = url.escape h2 url.encodeHost.
Proof.
  intros Hx. revert p. induction h as [|c h IH]; intros p Hp.
  - destruct p; discriminate Hp.
  - destruct p as [|p].
    { exists EmptyString, (String c h). repeat split; reflexivity. }
    rewrite escape_cons_host in *.
    destruct (url.shouldEscape c url.encodeHost) eqn:Hesc.
    + destruct (upperhex_plain c x Hx) as [Hhi Hlo].
      destruct p as [|[|p]].
      * cbn [strings.from strings.HasPrefix] in Hp. rewrite Hhi in Hp. discriminate.
      * cbn [strings.from strings.HasPrefix] in Hp. rewrite Hlo in Hp. discriminate.
      * cbn [strings.from] in Hp. destruct (IH p Hp) as (h1 & h2 & -> & Hu & Hf).
        exists (String c h1), h2. split; [reflexivity|].
        rewrite escape_cons_host, Hesc. cbn [strings.upto strings.from].
        rewrite Hu, Hf. split; reflexivity.
    + cbn [strings.from] in Hp. destruct (IH p Hp) as (h1 & h2 & -> & Hu & Hf).
      exists (String c h1), h2. split; [reflexivity|].
      rewrite escape_cons_host, Hesc. cbn [strings.upto strings.from].
      rewrite Hu, Hf. split; reflexivity.
Qed.

Lemma HasPrefix_first (s : string) (c : ascii) (rest : string) :
  strings.HasPrefix s (String c rest) = true ->
  strings.HasPrefix s (String c EmptyString) = true.
Proof.
  destruct s as [|x s]; [discriminate|]. cbn.
  intros [H _]%andb_true_iff. rewrite H. reflexivity.
Qed.

(** When [parseHost] accepts an escaped host, it returns the host. *)
Lemma parseHost_escape (h host : string) :
  url.parseHost (url.escape h url.encodeHost) = (host, None) -> host = h.
Proof.
  set (E := url.escape h url.encodeHost).
  assert (Hplain : forall x,
             match url.unescape E url.encodeHost with
             | (_, Some err) => (EmptyString, Some err)
             | (host, None) => (host, None)
             end = (x, None) -> x = h).
  { intros x. destruct (url.unescape E url.encodeHost) as [y [err|]] eqn:Hy;
      [discriminate|]. intros [= <-].
    rewrite (unescape_result _ _ _ Hy). subst E.
    apply unescape_bytes_escape_host. reflexivity. }
  unfold url.parseHost. fold E. cbv zeta.
  destruct (strings.HasPrefix E "[").
  - destruct (strings.LastIndex E "]") as [i|] eqn:Hi; [|discriminate].
    destruct (negb (url.validOptionalPort (strings.from (i + 1) E)));
      [discriminate|].
    destruct (strings.Index (strings.upto i E) "%25") as [zone|] eqn:Hzone;
      [|apply Hplain].
    destruct (url.unescape (strings.upto zone E) url.encodeHost)
      as [host1 [err|]] eqn:H1; [discriminate|].
    destruct (url.unescape (strings.from zone (strings.upto i E)) url.encodeZone)
      as [host2 [err|]] eqn:H2; [discriminate|].
    destruct (url.unescape (strings.from i E) url.encodeHost)
      as [host3 [err|]] eqn:H3; [discriminate|].
    intros [= <-].
    apply LastIndex_Some in Hi.
    destruct (escape_split "]" h i (or_intror eq_refl) Hi)
      as (h12 & h3 & -> & Hu12 & Hf3).
    fold E in Hu12, Hf3.
    apply Index_Some in Hzone.
    assert (Hle : (zone <= i)%nat).
    { pose proof (HasPrefix_length _ _ Hzone) as Hl.
      rewrite from_length in Hl. pose proof (upto_length i E). cbn in Hl. lia. }
    rewrite <- (upto_upto zone i E Hle) in H1.
    rewrite Hu12 in H1, H2, Hzone.
    apply HasPrefix_first in Hzone.
    destruct (escape_split "%" h12 zone (or_introl eq_refl) Hzone)
      as (h1 & h2 & -> & Hu1 & Hf2).
    rewrite Hu1 in H1. rewrite Hf2 in H2. rewrite Hf3 in H3.
    rewrite (unescape_result _ _ _ H1), (unescape_result _ _ _ H2),
      (unescape_result _ _ _ H3).
    rewrite !unescape_bytes_escape_host by reflexivity.
    rewrite append_assoc. reflexivity.
  - destruct (strings.LastIndex E ":") as [i|]; [|apply Hplain].
    destruct (negb (url.validOptionalPort (strings.from i E)));
      [discriminate|apply Hplain].
Qed.

(** *** The text of the request's URL *)

Lemma String_request_url (h q : string) :
  q <> EmptyString ->
  url.String_ (request_url h q)
  = "https://" +:+ url.escape h url.encodeHost +:+ "/?" +:+ q.
Proof.
  intros Hq. unfold url.String_, request_url, url.nonempty, url.EscapedPath.
  cbn [url.Scheme url.Opaque url.User url.Host url.Path url.RawPath url.OmitHost
       url.ForceQuery url.RawQuery url.Fragment url.RawFragment url.is_Some_b].
  change (String.eqb "https" EmptyString) with false.
  change (String.eqb EmptyString EmptyString) with true.
  cbn [negb andb orb].
  change (String.eqb "/" "*") with false. cbv iota.
  change (url.escape "/" url.encodePath) with "/"%string.
  change (String.eqb "/" EmptyString) with false.
  change (strings.HasPrefix "/" "/") with true.
  cbn [negb andb orb].
  destruct q as [|c q]; [congruence|].
  change (String.eqb (String c q) EmptyString) with false. cbn [negb orb].
  destruct h as [|x h].
  - reflexivity.
  - change (String.eqb (String x h) EmptyString) with false. cbn [negb orb andb].
    set (E := url.escape (String x h) url.encodeHost).
    change (String.eqb ((("https" +:+ ":") +:+ "//") +:+ E) EmptyString) with false.
    cbn [negb andb]. rewrite !append_assoc. reflexivity.
Qed.

(** *** Host names of letters, digits, hyphens and dots *)

Definition dns_byte (c : ascii) : bool :=
  between "a" "z" c || between "A" "Z" c || between "0" "9" c
  || url.one_of "-." c.

Definition dns_name (h : string) : Prop := strings.all_bytes dns_byte h = true.

Lemma parseHost_dns_name (h : string) :
  dns_name h ->
  url.escape h url.encodeHost = h
  /\ url.parseHost h = (h, None)
  /\ http.removeEmptyPort h = h.
Proof.
  intros Hh. unfold dns_name in Hh.
  assert (Hcolon : strings.LastIndex h ":" = None).
  { apply LastIndex_byte_absent. revert Hh. apply all_bytes_impl.
    intros c. each_byte c; vm_compute; congruence. }
  assert (Hbracket : strings.HasPrefix h "[" = false).
  { destruct h as [|c h]; [reflexivity|]. cbn [strings.all_bytes] in Hh.
    apply andb_true_iff in Hh as [Hc _]. cbn [strings.HasPrefix].
    rewrite andb_true_r. clear - Hc. revert Hc.
    each_byte c; vm_compute; congruence. }
  assert (Hun : url.unescape h url.encodeHost = (h, None)).
  { unfold url.unescape.
    assert (H : url.unescape_check h url.encodeHost = None
                /\ url.unescape_bytes h url.encodeHost = h).
    { induction h as [|c h IH]; [split; reflexivity|].
      cbn [strings.all_bytes] in Hh. apply andb_true_iff in Hh as [Hc Hh].
      assert (Hcol : strings.LastIndex h ":" = None).
      { cbn [strings.LastIndex] in Hcolon.
        destruct (strings.LastIndex h ":"); [discriminate|reflexivity]. }
      assert (Hbr : strings.HasPrefix h "[" = false).
      { destruct h as [|d h]; [reflexivity|]. cbn [strings.all_bytes] in Hh.
        apply andb_true_iff in Hh as [Hd _]. cbn [strings.HasPrefix].
        rewrite andb_true_r. clear - Hd. revert Hd.
        each_byte d; vm_compute; congruence. }
      destruct (IH Hh Hcol Hbr) as [IH1 IH2].
      assert (Hchk : forall r, url.unescape_check (String c r) url.encodeHost
                               = url.unescape_check r url.encodeHost).
      { intros r. clear - Hc. revert Hc.
        each_byte c; intros Hc; try reflexivity; vm_compute in Hc; discriminate. }
      assert (Hbytes : forall r, url.unescape_bytes (String c r) url.encodeHost
                                 = String c (url.unescape_bytes r url.encodeHost)).
      { intros r. clear - Hc. revert Hc.
        each_byte c; intros Hc; try reflexivity; vm_compute in Hc; discriminate. }
      rewrite Hchk, Hbytes, IH1, IH2. split; reflexivity. }
    destruct H as [-> ->]. reflexivity. }
  split; [|split].
  - apply escape_id. revert Hh. apply all_bytes_impl.
    intros c. each_byte c; vm_compute; congruence.
  - unfold url.parseHost. rewrite Hbracket, Hcolon, Hun. reflexivity.
  - unfold http.removeEmptyPort, http.hasPort. rewrite Hcolon. reflexivity.
Qed.

(** *** [buildRequest], case by case *)

Definition expires_text (expirySeconds : Z) : string :=
  strconv.FormatInt (signer.int64 expirySeconds).

Definition request_rawQuery (expirySeconds : Z) : string :=
  "Action=kafka-cluster%3AConnect&X-Amz-Expires=" +:+ expires_text expirySeconds.

(** The text of the URL that [buildRequest] hands to [http.NewRequest]. *)
Definition request_text (expirySeconds : Z) (endpointURL : string) : string :=
  "https://" +:+ url.escape endpointURL url.encodeHost +:+ "/?"
    +:+ request_rawQuery expirySeconds.

(** The request that [http.NewRequest] makes of a host and a query. *)
Definition get_request (host rawQuery : string) : http.Request :=
  {| http.Method := "GET"; http.URL := request_url host rawQuery;
     http.Proto := "HTTP/1.1"; http.ProtoMajor := 1; http.ProtoMinor := 1;
     http.Header_ := ∅; http.Body := None; http.Host := host |}.

Lemma request_rawQuery_out (expirySeconds : Z) :
  query_out (request_rawQuery expirySeconds).
Proof.
  unfold request_rawQuery, expires_text.
  destruct (FormatInt_decimal (signer.int64 expirySeconds)) as [Hd Hne].
  set (d := strconv.FormatInt (signer.int64 expirySeconds)) in *.
  assert (Hdne : d <> EmptyString) by (intros E; rewrite E in Hne; discriminate).
  split.
  - rewrite all_bytes_append. apply andb_true_iff. split; [reflexivity|].
    revert Hd. apply all_bytes_impl. intros c. each_byte c; vm_compute; congruence.
  - rewrite last_byte_append by exact Hdne.
    destruct (last_byte d) as [c|] eqn:Hl.
    + exists c. split; [reflexivity|].
      pose proof (last_byte_all _ _ _ Hd Hl) as Hc. clear - Hc. revert Hc.
      each_byte c; vm_compute; congruence.
    + destruct d as [|x d]; [congruence|]. exfalso. clear - Hl.
      revert x Hl. induction d as [|y d IH]; intros x Hl; [discriminate|].
      exact (IH y Hl).
Qed.

Lemma request_rawQuery_nonempty (expirySeconds : Z) :
  request_rawQuery expirySeconds <> EmptyString.
Proof. discriminate. Qed.

Lemma buildRequest_cases (expirySeconds : Z) (endpointURL : string) :
  signer.buildRequest expirySeconds endpointURL
  = match url.parseHost (url.escape endpointURL url.encodeHost) with
    | (host, None) =>
        Ok (get_request (http.removeEmptyPort host)
              (request_rawQuery expirySeconds))
    | (_, Some err) =>
        Err (url_Error "parse" (request_text expirySeconds endpointURL) err)
    end.
Proof.
  unfold signer.buildRequest.
  change ({[ signer.ActionType := [signer.ActionName];
             signer.ExpiresQueryKey :=
               [strconv.FormatInt (signer.int64 expirySeconds)] ]} : url.Values)
    with (request_query (expires_text expirySeconds)).
  rewrite Encode_request_query
    by apply (FormatInt_decimal (signer.int64 expirySeconds)).
  fold (request_rawQuery expirySeconds).
  fold (request_url endpointURL (request_rawQuery expirySeconds)).
  rewrite String_request_url by apply request_rawQuery_nonempty.
  unfold http.NewRequest.
  change (String.eqb http.MethodGet EmptyString) with false. cbv iota.
  change (http.validMethod http.MethodGet) with true. cbn [negb].
  rewrite Parse_request_text
    by (apply escape_host_out || apply request_rawQuery_out).
  fold (request_text expirySeconds endpointURL).
  destruct (url.parseHost (url.escape endpointURL url.encodeHost))
    as [host [err|]]; reflexivity.
Qed.

Lemma request_query_nonempty (expiry : string) :
  values_nonempty (request_query expiry).
Proof.
  intros k vs. unfold request_query. rewrite lookup_insert.
  destruct (decide (signer.ActionType = k)); [intros [= <-]; discriminate|].
  rewrite lookup_singleton. destruct (decide (signer.ExpiresQueryKey = k));
    [intros [= <-]; discriminate|discriminate].
Qed.

(** A text with a blank is no host name: [url.Parse] refuses the URL that
    [buildRequest] writes for it, and no request is made. *)
Lemma buildRequest_refuses_a_host_with_a_blank :
  signer.buildRequest 900 "a b"
  = Err (url_Error "parse"
           "https://a%20b/?Action=kafka-cluster%3AConnect&X-Amz-Expires=900"
           (url_EscapeError "%20")).
Proof. vm_compute. reflexivity. Qed.

(** C2: for every expiry and every endpoint host name (a name of letters,
    digits, hyphens and dots, as [kafka.<region>.amazonaws.com] is),
    [buildRequest] returns a GET request for [https://<host>/] whose query is
    [Action=kafka-cluster%3AConnect&X-Amz-Expires=<expiry>]: exactly two
    parameters, [Action] with the value [kafka-cluster:Connect] and
    [X-Amz-Expires] with the decimal numeral of the expiry, percent-encoded,
    keys sorted.  For any other text in the place of the host name it
    returns either a request of the same shape (the host without an empty
    port) or the error of [url.Parse]. *)
Theorem buildRequest_request (expirySeconds : Z) (endpointURL : string) :
  let expires := strconv.FormatInt (signer.int64 expirySeconds) in
  let rawQuery := "Action=kafka-cluster%3AConnect&X-Amz-Expires=" +:+ expires in
  match signer.buildRequest expirySeconds endpointURL with
  | Ok req =>
      http.Method req = "GET"
      /\ http.Body req = None
      /\ http.URL req = request_url (http.removeEmptyPort endpointURL) rawQuery
      /\ http.Host req = http.removeEmptyPort endpointURL
      /\ url.RawQuery (http.URL req)
         = url.Encode {[ "Action" := ["kafka-cluster:Connect"];
                         "X-Amz-Expires" := [expires] ]}
      /\ url.ParseQuery (url.RawQuery (http.URL req))
         = ({[ "Action" := ["kafka-cluster:Connect"];
               "X-Amz-Expires" := [expires] ]}, None)
      /\ dom (url.Query (http.URL req))
         = ({[ "Action"; "X-Amz-Expires" ]} : gset string)
      /\ Sorted String.le (url.sorted_keys (url.Query (http.URL req)))
  | Err err =>
      exists cause,
        (url.parseHost (url.escape endpointURL url.encodeHost)).2 = Some cause
        /\ err = url_Error "parse" (request_text expirySeconds endpointURL) cause
  end
  /\ Atoi expires = Some (signer.int64 expirySeconds)
  /\ ((- 2 ^ 63 <= expirySeconds < 2 ^ 63)%Z ->
        Atoi expires = Some expirySeconds)
  /\ (dns_name endpointURL ->
        signer.buildRequest expirySeconds endpointURL
        = Ok (get_request endpointURL rawQuery)
        /\ exists req,
             signer.buildRequest expirySeconds endpointURL = Ok req
             /\ http.Method req = "GET"
             /\ url.String_ (http.URL req)
                = "https://" +:+ endpointURL +:+ "/?" +:+ rawQuery
             /\ url.Scheme (http.URL req) = "https"
             /\ url.Host (http.URL req) = endpointURL
             /\ url.Path (http.URL req) = "/"
             /\ url.Query (http.URL req)
                = {[ "Action" := ["kafka-cluster:Connect"];
                     "X-Amz-Expires" := [expires] ]}
             /\ dom (url.Query (http.URL req))
                = ({[ "Action"; "X-Amz-Expires" ]} : gset string)
             /\ url.RawQuery (http.URL req)
                = url.Encode {[ "Action" := ["kafka-cluster:Connect"];
                                "X-Amz-Expires" := [expires] ]}
             /\ Sorted String.le (url.sorted_keys (url.Query (http.URL req)))).
Proof.
  intros expires rawQuery.
  assert (Hq : url.Encode (request_query expires) = rawQuery).
  { apply Encode_request_query.
    apply (FormatInt_decimal (signer.int64 expirySeconds)). }
  assert (Hatoi : Atoi expires = Some (signer.int64 expirySeconds)).
  { apply Atoi_FormatInt, int64_range. }
  split; [|split; [exact Hatoi|split]].
  - rewrite buildRequest_cases.
    destruct (url.parseHost (url.escape endpointURL url.encodeHost))
      as [host [err|]] eqn:Hhost.
    + exists err. split; reflexivity.
    + apply parseHost_escape in Hhost. subst host.
      assert (Hparse : url.ParseQuery rawQuery = (request_query expires, None)).
      { rewrite <- Hq. apply ParseQuery_Encode, request_query_nonempty. }
      change (request_rawQuery expirySeconds) with rawQuery.
      set (req := get_request (http.removeEmptyPort endpointURL) rawQuery).
      assert (HQ : url.Query (http.URL req) = request_query expires).
      { unfold url.Query. change (url.RawQuery (http.URL req)) with rawQuery.
        rewrite Hparse. reflexivity. }
      rewrite HQ. change (url.RawQuery (http.URL req)) with rawQuery.
      split; [reflexivity|]. split; [reflexivity|]. split; [reflexivity|].
      split; [reflexivity|]. split; [symmetry; exact Hq|].
      split; [exact Hparse|]. split; [|apply sorted_keys_Sorted].
      unfold request_query. rewrite dom_insert_L, dom_singleton_L. reflexivity.
  - intros Hrange. rewrite Hatoi, int64_id by exact Hrange. reflexivity.
  - intros Hdns.
    destruct (parseHost_dns_name endpointURL Hdns) as (Hesc & Hhost & Hport).
    assert (Hreq : signer.buildRequest expirySeconds endpointURL
                   = Ok (get_request endpointURL rawQuery)).
    { rewrite buildRequest_cases, Hesc, Hhost, Hport. reflexivity. }
    assert (Hparse : url.ParseQuery rawQuery = (request_query expires, None)).
    { rewrite <- Hq. apply ParseQuery_Encode, request_query_nonempty. }
    split; [exact Hreq|].
    exists (get_request endpointURL rawQuery).
    set (req := get_request endpointURL rawQuery).
    assert (HQ : url.Query (http.URL req) = request_query expires).
    { unfold url.Query. change (url.RawQuery (http.URL req)) with rawQuery.
      rewrite Hparse. reflexivity. }
    split; [exact Hreq|]. split; [reflexivity|].
    split.
    { change (http.URL req) with (request_url endpointURL rawQuery).
      rewrite String_request_url
        by exact (request_rawQuery_nonempty expirySeconds).
      rewrite Hesc. reflexivity. }
    split; [reflexivity|]. split; [reflexivity|]. split; [reflexivity|].
    rewrite HQ. split; [reflexivity|].
    split; [unfold request_query; rewrite dom_insert_L, dom_singleton_L;
            reflexivity|].
    split; [symmetry; exact Hq|apply sorted_keys_Sorted].
Qed.

Lemma buildRequest_request_witness :
  signer.buildRequest signer.DefaultExpirySeconds mock.TestEndpoint
  = Ok test_request
  /\ Atoi (strconv.FormatInt (signer.int64 900)) = Some 900%Z.
Proof.
  destruct (buildRequest_request signer.DefaultExpirySeconds mock.TestEndpoint)
    as (_ & _ & Hatoi & Hdns).
  split.
  - assert (Hname : dns_name mock.TestEndpoint) by (vm_compute; reflexivity).
    destruct (Hdns Hname) as [Hreq _]. rewrite Hreq. reflexivity.
  - apply Hatoi. clear. vm_compute. split; [discriminate|reflexivity].
Defined.

(** * More of the package *)

(** ** [calculateSHA256Hash]: the shape of the digest *)

Lemma round_length (st : list N) (kw : N * N) :
  List.length (sha256.round st kw) = List.length st.
Proof.
  destruct st as [|a [|b [|c [|d [|e [|f [|g [|h [|i st]]]]]]]]]; reflexivity.
Qed.

Lemma foldl_round_length (l : list (N * N)) (st : list N) :
  List.length (foldl sha256.round st l) = List.length st.
Proof.
  revert st. induction l as [|kw l IH]; intros st; [reflexivity|].
  cbn [foldl]. rewrite IH. apply round_length.
Qed.

Lemma block_length (h chunk : list N) :
  List.length (sha256.block h chunk) = List.length h.
Proof.
  unfold sha256.block. rewrite length_zip_with, foldl_round_length. lia.
Qed.

Lemma blocks_length (n : nat) (h p : list N) :
  List.length (sha256.blocks n h p) = List.length h.
Proof.
  revert h p. induction n as [|n IH]; intros h p; [reflexivity|].
  cbn [sha256.blocks]. rewrite IH. apply block_length.
Qed.

Lemma be_bytes_words_length (h : list N) :
  List.length (flat_map (sha256.be_bytes 4) h) = (4 * List.length h)%nat.
Proof.
  induction h as [|x h IH]; [reflexivity|].
  cbn [flat_map]. rewrite length_app, IH. cbn [sha256.be_bytes List.length]. lia.
Qed.

Lemma string_of_list_ascii_length (l : list ascii) :
  String.length (string_of_list_ascii l) = List.length l.
Proof. induction l as [|c l IH]; [reflexivity|]. simpl. rewrite IH. reflexivity. Qed.

(** The digest has 32 bytes, whatever the data. *)
Lemma Sum256_length (data : string) : String.length (sha256.Sum256 data) = 32%nat.
Proof.
  unfold sha256.Sum256.
  rewrite string_of_list_ascii_length, length_map, be_bytes_words_length,
    blocks_length.
  reflexivity.
Qed.

Lemma EncodeToString_hex_length (src : string) :
  String.length (hex.EncodeToString src) = (2 * String.length src)%nat.
Proof.
  induction src as [|c src IH]; [reflexivity|].
  cbn [hex.EncodeToString String.length]. rewrite IH. lia.
Qed.

Lemma EncodeToString_lower_hex (src : string) :
  strings.all_bytes is_lower_hex (hex.EncodeToString src) = true.
Proof.
  induction src as [|c src IH]; [reflexivity|].
  cbn [hex.EncodeToString strings.all_bytes]. rewrite IH, !andb_true_r.
  apply andb_true_iff. clear. each_byte c; split; vm_compute; reflexivity.
Qed.

(** X1: whatever the input, [calculateSHA256Hash] returns 64 characters, each
    a digit or a lower-case letter from [a] to [f]. *)
Theorem calculateSHA256Hash_is_64_lower_hex (input : string) :
  String.length (signer.calculateSHA256Hash input) = 64%nat
  /\ strings.all_bytes is_lower_hex (signer.calculateSHA256Hash input) = true.
Proof.
  unfold signer.calculateSHA256Hash. split.
  - rewrite EncodeToString_hex_length, Sum256_length. reflexivity.
  - apply EncodeToString_lower_hex.
Qed.

(** ** [base64Encode] *)

Lemma EncodeToString_empty (s : string) :
  base64.EncodeToString s = EmptyString -> s = EmptyString.
Proof.
  intros H. pose proof (DecodeString_EncodeToString s) as Hd.
  rewrite H in Hd. vm_compute in Hd. congruence.
Qed.

(** X2: the text that [base64Encode] returns decodes, in the URL-safe
    alphabet without padding, to the input; so two inputs with the same
    encoding are the same, and only the empty input has the empty encoding.
    Every character of it is of the URL-safe alphabet, none is [=], [+] or
    [/], and there are [(4 n + 2) / 3] of them for [n] bytes. *)
Theorem base64Encode_round_trip (signedURL : string) :
  base64.DecodeString (signer.base64Encode signedURL) = Some signedURL
  /\ (forall other,
        signer.base64Encode other = signer.base64Encode signedURL
        <-> other = signedURL)
  /\ (signer.base64Encode signedURL = EmptyString <-> signedURL = EmptyString)
  /\ strings.all_bytes in_alphabet (signer.base64Encode signedURL) = true
  /\ lacks "=" (signer.base64Encode signedURL) = true
  /\ lacks "+" (signer.base64Encode signedURL) = true
  /\ lacks "/" (signer.base64Encode signedURL) = true
  /\ String.length (signer.base64Encode signedURL)
     = ((4 * String.length signedURL + 2) / 3)%nat.
Proof.
  unfold signer.base64Encode.
  pose proof (EncodeToString_alphabet signedURL) as Ha.
  split; [apply DecodeString_EncodeToString|].
  split.
  { intros other. split; [|intros ->; reflexivity].
    intros H. pose proof (DecodeString_EncodeToString other) as Hd.
    rewrite H, DecodeString_EncodeToString in Hd. congruence. }
  split.
  { split; [apply EncodeToString_empty|intros ->; reflexivity]. }
  split; [exact Ha|].
  split; [apply alphabet_lacks; [reflexivity|exact Ha]|].
  split; [apply alphabet_lacks; [reflexivity|exact Ha]|].
  split; [apply alphabet_lacks; [reflexivity|exact Ha]|].
  apply EncodeToString_length.
Qed.

(** ** The loaders of credentials *)

Definition is_call (e : Event) : bool :=
  match e with
  | Enter _ => false
  | _ => true
  end.

(** The calls of collaborators in a trace, in their order. *)
Definition calls (t : list Event) : list Event := List.filter is_call t.

(** The options with which an entry point loads the configuration of the SDK;
    the entry point that is given a credentials provider loads none. *)
Definition load_options (region : string) (ep : EntryPoint)
    : option (list config.LoadOption) :=
  match ep with
  | Default_ | FromRole _ _ => Some [config.WithRegion region]
  | FromProfile awsProfile =>
      Some [config.WithRegion region; config.WithSharedConfigProfile awsProfile]
  | FromCredentialsProvider _ => None
  end.

(** The loader that an entry point calls. *)
Definition loader (ep : EntryPoint) : Func :=
  match ep with
  | Default_ => F_loadDefaultCredentials
  | FromProfile _ => F_loadCredentialsFromProfile
  | FromRole _ _ => F_loadCredentialsFromRoleArn
  | FromCredentialsProvider _ => F_loadCredentialsFromCredentialsProvider
  end.

(** The request that [loadCredentialsFromRoleArn] sends for an entry point. *)
Definition role_input (roleArn stsSessionName : string) : sts.AssumeRoleInput :=
  {| sts.RoleArn := Some roleArn;
     sts.RoleSessionName := Some (session_name stsSessionName) |}.

(** The credentials of an STS response in which no pointer is [nil]. *)
Definition sts_fields (out : option sts.AssumeRoleOutput)
    : option aws.Credentials :=
  match out with
  | Some {| sts.Credentials_ :=
              Some {| sts.AccessKeyId := Some accessKeyId;
                      sts.SecretAccessKey := Some secretAccessKey;
                      sts.SessionToken := Some sessionToken |} |} =>
      Some {| aws.AccessKeyID := accessKeyId;
              aws.SecretAccessKey := secretAccessKey;
              aws.SessionToken := sessionToken |}
  | _ => None
  end.

Definition nil_dereference : string :=
  "invalid memory address or nil pointer dereference".

(** The loaders, case by case on what the collaborators answer. *)
Lemma resolve_cases (env : Env) (ctx : context.Context) (region : string)
    (ep : EntryPoint) :
  resolve env ctx region ep =
  match ep with
  | FromCredentialsProvider credentialsProvider =>
      (Returns (Some (aws.Retrieve credentialsProvider ctx).1,
                (aws.Retrieve credentialsProvider ctx).2),
       [Enter F_loadCredentialsFromCredentialsProvider; Retrieve ctx])
  | _ =>
      let optFns := default [] (load_options region ep) in
      match config_LoadDefaultConfig env ctx optFns with
      | (_, Some cause) =>
          (Returns (None, Some (fmt.Errorf_w "unable to load SDK config: " cause)),
           [Enter (loader ep); LoadDefaultConfig ctx optFns])
      | (cfg, None) =>
          match ep with
          | FromRole roleArn stsSessionName =>
              let client := sts.NewFromConfig cfg in
              let input := role_input roleArn stsSessionName in
              let t := [Enter (loader ep); LoadDefaultConfig ctx optFns;
                        AssumeRole client ctx input] in
              match sts_AssumeRole env client ctx input with
              | (_, Some cause) =>
                  (Returns (None,
                            Some (fmt.Errorf_w
                                    ("unable to assume role, " +:+ roleArn
                                       +:+ ": ") cause)), t)
              | (out, None) =>
                  match sts_fields out with
                  | Some creds => (Returns (Some creds, None), t)
                  | None => (Panics nil_dereference, t)
                  end
              end
          | _ =>
              (Returns (Some (aws.Retrieve (aws.Credentials_ cfg) ctx).1,
                        (aws.Retrieve (aws.Credentials_ cfg) ctx).2),
               [Enter (loader ep); LoadDefaultConfig ctx optFns;
                Enter F_loadCredentialsFromCredentialsProvider; Retrieve ctx])
          end
      end
  end.
Proof.
  destruct ep as [|awsProfile|roleArn stsSessionName|credentialsProvider];
    unfold resolve, signer.loadDefaultCredentials,
      signer.loadCredentialsFromProfile, signer.loadCredentialsFromRoleArn,
      signer.loadCredentialsFromCredentialsProvider, load_options, role_input;
    cbn [default id loader].
  - destruct (config_LoadDefaultConfig env ctx _) as [cfg [e|]]; go_simpl;
      [reflexivity|].
    destruct (aws.Retrieve _ ctx) as [creds err]; reflexivity.
  - destruct (config_LoadDefaultConfig env ctx _) as [cfg [e|]]; go_simpl;
      [reflexivity|].
    destruct (aws.Retrieve _ ctx) as [creds err]; reflexivity.
  - destruct (config_LoadDefaultConfig env ctx _) as [cfg [e|]]; go_simpl;
      [reflexivity|].
    fold (session_name stsSessionName).
    destruct (sts_AssumeRole env _ ctx _) as [out [e|]]; go_simpl;
      [reflexivity|].
    destruct out as [[[[[a|] [s|] [t|]]|]]|]; reflexivity.
  - go_simpl. destruct (aws.Retrieve _ ctx) as [creds err]; reflexivity.
Qed.

(** X3: when the configuration of the SDK does not load, an entry point that
    loads one returns the empty token and an error whose text is
    [failed to load credentials: unable to load SDK config: ] followed by the
    text of the cause; the cause is wrapped twice, and the loading of the
    configuration is the only call the run makes. *)
Theorem configuration_failure_is_wrapped_twice (env : Env)
    (ctx : context.Context) (region : string) (ep : EntryPoint)
    (optFns : list config.LoadOption) (cfg : aws.Config) (cause : error) :
  load_options region ep = Some optFns ->
  config_LoadDefaultConfig env ctx optFns = (cfg, Some cause) ->
  exists err inner,
    result_of (generate env ctx region ep) = Returns (EmptyString, Some err)
    /\ errors.Error err
       = "failed to load credentials: unable to load SDK config: "
           +:+ errors.Error cause
    /\ errors.Unwrap err = Some inner
    /\ errors.Error inner = "unable to load SDK config: " +:+ errors.Error cause
    /\ errors.Unwrap inner = Some cause
    /\ errors.chain err = err :: inner :: errors.chain cause
    /\ calls (trace_of (generate env ctx region ep))
       = [LoadDefaultConfig ctx optFns].
Proof.
  intros Hopt Hcfg.
  exists (fmt.Errorf_w "failed to load credentials: "
            (fmt.Errorf_w "unable to load SDK config: " cause)),
         (fmt.Errorf_w "unable to load SDK config: " cause).
  rewrite generate_cases, resolve_cases.
  destruct ep as [|awsProfile|roleArn stsSessionName|credentialsProvider];
    [| | |discriminate Hopt];
    injection Hopt as <-; cbn [default id load_options]; rewrite Hcfg;
    repeat (split; [reflexivity|]); reflexivity.
Qed.

Lemma configuration_failure_is_wrapped_twice_witness :
  exists err inner,
    result_of (generate mock.env context.TODO mock.TestRegion
                 (FromProfile "unknown"))
      = Returns (EmptyString, Some err)
    /\ errors.Error err
       = "failed to load credentials: unable to load SDK config: "
           +:+ errors.Error (errors.New "failed to get shared config profile")
    /\ errors.Unwrap err = Some inner
    /\ errors.Error inner
       = "unable to load SDK config: "
           +:+ errors.Error (errors.New "failed to get shared config profile")
    /\ errors.Unwrap inner
       = Some (errors.New "failed to get shared config profile")
    /\ errors.chain err
       = err :: inner
           :: errors.chain (errors.New "failed to get shared config profile")
    /\ calls (trace_of (generate mock.env context.TODO mock.TestRegion
                          (FromProfile "unknown")))
       = [LoadDefaultConfig context.TODO
            [config.WithRegion mock.TestRegion;
             config.WithSharedConfigProfile "unknown"]].
Proof.
  apply (configuration_failure_is_wrapped_twice mock.env context.TODO
           mock.TestRegion (FromProfile "unknown")
           [config.WithRegion mock.TestRegion;
            config.WithSharedConfigProfile "unknown"]
           {| aws.Region := mock.TestRegion;
              aws.Credentials_ := mock.MockCredentialsProvider mock.mockCreds |}
           (errors.New "failed to get shared config profile")).
  - reflexivity.
  - vm_compute. reflexivity.
Defined.

(** X4: when STS refuses the role, [GenerateAuthTokenFromRole] returns the
    empty token and an error whose text names the role ARN:
    [failed to load credentials: unable to assume role, <arn>: ] followed by
    the text of the cause, which stays reachable by unwrapping; the response
    of the failed call is not read, and the run calls nothing after
    [AssumeRole]. *)
Theorem assume_role_failure_names_the_role (env : Env) (ctx : context.Context)
    (region roleArn stsSessionName : string) (cfg : aws.Config)
    (out : option sts.AssumeRoleOutput) (cause : error) :
  config_LoadDefaultConfig env ctx [config.WithRegion region] = (cfg, None) ->
  sts_AssumeRole env (sts.NewFromConfig cfg) ctx
    (role_input roleArn stsSessionName) = (out, Some cause) ->
  exists err inner,
    result_of (signer.GenerateAuthTokenFromRole env ctx region roleArn
                 stsSessionName)
      = Returns (EmptyString, Some err)
    /\ errors.Error err
       = "failed to load credentials: unable to assume role, " +:+ roleArn
           +:+ ": " +:+ errors.Error cause
    /\ errors.Unwrap err = Some inner
    /\ errors.Unwrap inner = Some cause
    /\ errors.chain err = err :: inner :: errors.chain cause
    /\ calls (trace_of (signer.GenerateAuthTokenFromRole env ctx region roleArn
                          stsSessionName))
       = [LoadDefaultConfig ctx [config.WithRegion region];
          AssumeRole (sts.NewFromConfig cfg) ctx
            (role_input roleArn stsSessionName)].
Proof.
  intros Hcfg Hsts.
  exists (fmt.Errorf_w "failed to load credentials: "
            (fmt.Errorf_w ("unable to assume role, " +:+ roleArn +:+ ": ")
               cause)),
         (fmt.Errorf_w ("unable to assume role, " +:+ roleArn +:+ ": ") cause).
  change (signer.GenerateAuthTokenFromRole env ctx region roleArn stsSessionName)
    with (generate env ctx region (FromRole roleArn stsSessionName)).
  rewrite generate_cases, resolve_cases.
  cbn [default id load_options]. rewrite Hcfg. cbv zeta. rewrite Hsts.
  split; [reflexivity|]. split.
  { unfold fmt.Errorf_w. cbn [errors.Error]. rewrite !append_assoc.
    reflexivity. }
  repeat (split; [reflexivity|]). reflexivity.
Qed.

Lemma assume_role_failure_names_the_role_witness :
  exists err inner,
    result_of (signer.GenerateAuthTokenFromRole mock.env context.TODO
                 mock.TestRegion "arn:aws:iam::123456789012:role/other"
                 EmptyString)
      = Returns (EmptyString, Some err)
    /\ errors.Error err
       = "failed to load credentials: unable to assume role, "
           +:+ "arn:aws:iam::123456789012:role/other"
           +:+ ": "
           +:+ errors.Error
                 (errors.New
                    "AccessDenied: not authorized to perform sts:AssumeRole")
    /\ errors.Unwrap err = Some inner
    /\ errors.Unwrap inner
       = Some (errors.New
                 "AccessDenied: not authorized to perform sts:AssumeRole")
    /\ errors.chain err
       = err :: inner
           :: errors.chain
                (errors.New
                   "AccessDenied: not authorized to perform sts:AssumeRole")
    /\ calls (trace_of (signer.GenerateAuthTokenFromRole mock.env context.TODO
                          mock.TestRegion
                          "arn:aws:iam::123456789012:role/other" EmptyString))
       = [LoadDefaultConfig context.TODO [config.WithRegion mock.TestRegion];
          AssumeRole
            (sts.NewFromConfig
               {| aws.Region := mock.TestRegion;
                  aws.Credentials_ :=
                    mock.MockCredentialsProvider mock.mockCreds |})
            context.TODO
            (role_input "arn:aws:iam::123456789012:role/other" EmptyString)].
Proof.
  apply (assume_role_failure_names_the_role mock.env context.TODO
           mock.TestRegion "arn:aws:iam::123456789012:role/other" EmptyString
           {| aws.Region := mock.TestRegion;
              aws.Credentials_ := mock.MockCredentialsProvider mock.mockCreds |}
           None
           (errors.New "AccessDenied: not authorized to perform sts:AssumeRole")).
  - vm_compute. reflexivity.
  - vm_compute. reflexivity.
Defined.

(** With credentials at hand, [constructAuthToken] returns. *)
Lemma constructAuthToken_returns (env : Env) (ctx : context.Context)
    (region : string) (creds : aws.Credentials) :
  exists r,
    result_of (signer.constructAuthToken env ctx region (Some creds))
    = Returns r.
Proof.
  rewrite constructAuthToken_cases.
  destruct (signer.buildRequest _ _) as [req|err]; [|eexists; reflexivity].
  destruct (presigned env ctx req region creds) as [[signedURL hdr] [err|]];
    [eexists; reflexivity|].
  destruct (signer.addUserAgent env signedURL) as [out [err|]];
    eexists; reflexivity.
Qed.

(** X5: a run of an entry point panics exactly when it is the role entry
    point, the configuration loads, [AssumeRole] returns no error, and its
    response, the credentials in it or one of their three fields is [nil]:
    the loader dereferences them without a check.  The package's own code
    panics in no other run; in particular the credentials that reach
    [signRequest] are never [nil].  (Collaborators are taken to return, and a
    credentials provider to be a value with a [Retrieve] method, not the
    [nil] interface.) *)
Theorem panics_exactly_on_an_incomplete_sts_response (env : Env)
    (ctx : context.Context) (region : string) (ep : EntryPoint) :
  (exists msg, result_of (generate env ctx region ep) = Panics msg)
  <-> exists roleArn stsSessionName cfg out,
        ep = FromRole roleArn stsSessionName
        /\ config_LoadDefaultConfig env ctx [config.WithRegion region]
           = (cfg, None)
        /\ sts_AssumeRole env (sts.NewFromConfig cfg) ctx
             (role_input roleArn stsSessionName) = (out, None)
        /\ sts_fields out = None.
Proof.
  rewrite generate_cases, resolve_cases.
  assert (Hc : forall creds t msg,
             result_of
               (let '(o, t') :=
                  signer.constructAuthToken env ctx region (Some creds) in
                (o, t ++ Enter F_constructAuthToken :: t'))
             = Panics msg -> False).
  { intros creds t msg.
    destruct (constructAuthToken_returns env ctx region creds) as [r Hr].
    destruct (signer.constructAuthToken env ctx region (Some creds)) as [o t'].
    unfold result_of in *. cbn [fst] in *. rewrite Hr. discriminate. }
  split.
  - intros [msg Hp].
    destruct ep as [|awsProfile|roleArn stsSessionName|credentialsProvider];
      cbn [default id load_options] in Hp.
    + exfalso.
      destruct (config_LoadDefaultConfig env ctx _) as [cfg [e|]];
        [discriminate Hp|].
      destruct (aws.Retrieve _ ctx) as [creds [e|]]; cbn [fst snd] in Hp;
        [discriminate Hp|exact (Hc _ _ _ Hp)].
    + exfalso.
      destruct (config_LoadDefaultConfig env ctx _) as [cfg [e|]];
        [discriminate Hp|].
      destruct (aws.Retrieve _ ctx) as [creds [e|]]; cbn [fst snd] in Hp;
        [discriminate Hp|exact (Hc _ _ _ Hp)].
    + destruct (config_LoadDefaultConfig env ctx _) as [cfg [e|]] eqn:Hcfg;
        [discriminate Hp|].
      cbv zeta in Hp.
      destruct (sts_AssumeRole env _ ctx _) as [out [e|]] eqn:Hsts;
        [discriminate Hp|].
      destruct (sts_fields out) as [creds|] eqn:Hf;
        [exfalso; exact (Hc _ _ _ Hp)|].
      exists roleArn, stsSessionName, cfg, out. auto.
    + exfalso.
      destruct (aws.Retrieve _ ctx) as [creds [e|]]; cbn [fst snd] in Hp;
        [discriminate Hp|exact (Hc _ _ _ Hp)].
  - intros (roleArn & stsSessionName & cfg & out & -> & Hcfg & Hsts & Hf).
    cbn [default id load_options]. rewrite Hcfg. cbv zeta.
    rewrite Hsts, Hf. exists nil_dereference. reflexivity.
Qed.

(** The collaborators of the tests, with an STS service whose response
    carries no credentials. *)
Definition env_sts_without_credentials : Env :=
  {| version := "1.0.0";
     runtime_Version := "go1.20";
     time_Now := 1699488000000000000%Z;
     config_LoadDefaultConfig := mock.LoadDefaultConfig;
     sts_AssumeRole := fun _ _ _ => (Some {| sts.Credentials_ := None |}, None);
     v4_PresignHTTP := mock.PresignHTTP |}.

Lemma panics_exactly_on_an_incomplete_sts_response_witness :
  exists msg,
    result_of (generate env_sts_without_credentials context.TODO mock.TestRegion
                 (FromRole "arn:aws:iam::123456789012:role/msk" EmptyString))
    = Panics msg.
Proof.
  apply (proj2 (panics_exactly_on_an_incomplete_sts_response
                  env_sts_without_credentials context.TODO mock.TestRegion
                  (FromRole "arn:aws:iam::123456789012:role/msk" EmptyString))).
  exists "arn:aws:iam::123456789012:role/msk"%string, EmptyString,
    {| aws.Region := mock.TestRegion;
       aws.Credentials_ := mock.MockCredentialsProvider mock.mockCreds |},
    (Some {| sts.Credentials_ := None |}).
  split; [reflexivity|]. split; [vm_compute; reflexivity|].
  split; reflexivity.
Defined.

(** ** The request and the call of the presigner *)

(** The query of every request that [constructAuthToken] builds. *)
Definition token_rawQuery : string :=
  "Action=kafka-cluster%3AConnect&X-Amz-Expires=900".

Lemma dns_name_endpoint (region : string) :
  dns_name region -> dns_name (signer.endpointURLTemplate region).
Proof.
  unfold dns_name, signer.endpointURLTemplate. intros H.
  rewrite !all_bytes_append, H. reflexivity.
Qed.

Lemma buildRequest_region (region : string) :
  dns_name region ->
  signer.buildRequest signer.DefaultExpirySeconds
    (signer.endpointURLTemplate region)
  = Ok (get_request (signer.endpointURLTemplate region) token_rawQuery).
Proof.
  intros H. apply dns_name_endpoint in H. rewrite buildRequest_cases.
  destruct (parseHost_dns_name _ H) as (-> & -> & ->). reflexivity.
Qed.

(** X6: for a region of letters, digits, hyphens and dots,
    [constructAuthToken] builds the GET request for
    [https://kafka.<region>.amazonaws.com/?Action=kafka-cluster%3AConnect&X-Amz-Expires=900],
    with the host [kafka.<region>.amazonaws.com]; the building of the request
    cannot fail, so the run always goes on to [signRequest]. *)
Theorem constructAuthToken_request_for_region (env : Env)
    (ctx : context.Context) (region : string)
    (credentials : option aws.Credentials) :
  dns_name region ->
  let host := "kafka." +:+ region +:+ ".amazonaws.com" in
  exists req,
    signer.buildRequest signer.DefaultExpirySeconds
      (signer.endpointURLTemplate region) = Ok req
    /\ http.Method req = "GET"
    /\ http.Host req = host
    /\ url.Host (http.URL req) = host
    /\ url.String_ (http.URL req)
       = "https://" +:+ host
           +:+ "/?Action=kafka-cluster%3AConnect&X-Amz-Expires=900"
    /\ In (Enter F_signRequest)
         (trace_of (signer.constructAuthToken env ctx region credentials)).
Proof.
  intros Hdns host.
  exists (get_request (signer.endpointURLTemplate region) token_rawQuery).
  split; [apply buildRequest_region, Hdns|].
  split; [reflexivity|]. split; [reflexivity|]. split; [reflexivity|].
  split.
  - cbn [get_request http.URL]. rewrite String_request_url by discriminate.
    destruct (parseHost_dns_name _ (dns_name_endpoint region Hdns)) as (-> & _).
    reflexivity.
  - rewrite constructAuthToken_cases, (buildRequest_region region Hdns).
    destruct credentials as [creds|]; [|right; left; reflexivity].
    destruct (presigned env ctx _ region creds) as [[signedURL hdr] [err|]];
      [right; left; reflexivity|].
    destruct (signer.addUserAgent env signedURL) as [out [err|]];
      right; left; reflexivity.
Qed.

Lemma constructAuthToken_request_for_region_witness :
  exists req,
    signer.buildRequest signer.DefaultExpirySeconds
      (signer.endpointURLTemplate "eu-central-1") = Ok req
    /\ http.Method req = "GET"
    /\ http.Host req = "kafka." +:+ "eu-central-1" +:+ ".amazonaws.com"
    /\ url.Host (http.URL req)
       = "kafka." +:+ "eu-central-1" +:+ ".amazonaws.com"
    /\ url.String_ (http.URL req)
       = "https://" +:+ ("kafka." +:+ "eu-central-1" +:+ ".amazonaws.com")
           +:+ "/?Action=kafka-cluster%3AConnect&X-Amz-Expires=900"
    /\ In (Enter F_signRequest)
         (trace_of (signer.constructAuthToken mock.env context.TODO
                      "eu-central-1" (Some mock.mockCreds))).
Proof.
  apply (constructAuthToken_request_for_region mock.env context.TODO
           "eu-central-1" (Some mock.mockCreds)).
  vm_compute. reflexivity.
Defined.

(** X7: every call of the presigner in a run of an entry point gets the
    caller's context, the credentials that the loader returned without an
    error, the request that [buildRequest] made for the region with the
    expiry of 900 seconds, the SHA-256 digest of the empty payload, the
    service name [kafka-cluster], the region of the caller and the instant of
    the clock. *)
Theorem presigner_arguments (env : Env) (ctx : context.Context)
    (region : string) (ep : EntryPoint) :
  Forall (fun e =>
            match e with
            | PresignHTTP ctx' credentials req payloadHash service region'
                signingTime =>
                ctx' = ctx
                /\ result_of (resolve env ctx region ep)
                   = Returns (Some credentials, None)
                /\ signer.buildRequest 900 ("kafka." +:+ region +:+ ".amazonaws.com")
                   = Ok req
                /\ payloadHash
                   = "e3b0c44298fc1c149afbf4c8996fb92427ae41e4649b934ca495991b7852b855"
                /\ service = "kafka-cluster"
                /\ region' = region
                /\ signingTime = time_Now env
            | _ => True
            end)
    (trace_of (generate env ctx region ep)).
Proof.
  rewrite generate_cases.
  pose proof (resolve_events env ctx region ep) as Hres.
  unfold result_of, trace_of in *.
  destruct (resolve env ctx region ep) as [[[credentials [err|]]|msg] t];
    cbn [fst snd] in *.
  1, 3: eapply Forall_impl; [exact Hres|];
        intros [] He; try exact I; discriminate He.
  rewrite constructAuthToken_cases.
  assert (Hhash : signer.calculateSHA256Hash EmptyString
                  = "e3b0c44298fc1c149afbf4c8996fb92427ae41e4649b934ca495991b7852b855")
    by (vm_compute; reflexivity).
  assert (Ht : Forall (fun e => match e with
                                | PresignHTTP _ _ _ _ _ _ _ => False
                                | _ => True
                                end) t).
  { eapply Forall_impl; [exact Hres|].
    intros [] He; try exact I; discriminate He. }
  assert (Ht' : forall P : Event -> Prop,
             (forall e, match e with
                        | PresignHTTP _ _ _ _ _ _ _ => False
                        | _ => True
                        end -> P e) -> Forall P t).
  { intros P HP. eapply Forall_impl; [exact Ht|exact HP]. }
  destruct (signer.buildRequest _ _) as [req|err] eqn:Hreq.
  2: { cbn [snd]. apply Forall_app. split; [|repeat constructor].
       apply Ht'. intros []; tauto. }
  destruct credentials as [creds|].
  2: { cbn [snd]. apply Forall_app. split; [|repeat constructor].
       apply Ht'. intros []; tauto. }
  assert (Hsign : Forall (fun e =>
            match e with
            | PresignHTTP ctx' credentials req' payloadHash service region'
                signingTime =>
                ctx' = ctx
                /\ Returns (Some creds, @None error)
                   = Returns (Some credentials, None)
                /\ Ok req = Ok req'
                /\ payloadHash
                   = "e3b0c44298fc1c149afbf4c8996fb92427ae41e4649b934ca495991b7852b855"
                /\ service = "kafka-cluster"
                /\ region' = region
                /\ signingTime = time_Now env
            | _ => True
            end) (signing_events env ctx req region creds)).
  { unfold signing_events. rewrite Hhash. repeat constructor. }
  destruct (presigned env ctx req region creds) as [[signedURL hdr] [err|]].
  { cbn [snd]. apply Forall_app. split; [apply Ht'; intros []; tauto|].
    constructor; [exact I|]. constructor; [exact I|]. exact Hsign. }
  destruct (signer.addUserAgent env signedURL) as [out [err|]]; cbn [snd];
    (apply Forall_app; split; [apply Ht'; intros []; tauto|]);
    (constructor; [exact I|]); (constructor; [exact I|]);
    (apply Forall_app; split; [exact Hsign|repeat constructor]).
Qed.

(** X8: when STS answers with complete credentials, the role loader returns
    their three fields as they are, whatever the region; and for a region of
    letters, digits, hyphens and dots the run makes four calls: the
    configuration is loaded for the region, [AssumeRole] is called on a
    client made from it, the clock is read, and the presigner is called with
    the credentials of the STS response. *)
Theorem role_credentials_reach_the_presigner (env : Env)
    (ctx : context.Context) (region roleArn stsSessionName : string)
    (cfg : aws.Config) (accessKeyId secretAccessKey sessionToken : string) :
  config_LoadDefaultConfig env ctx [config.WithRegion region] = (cfg, None) ->
  sts_AssumeRole env (sts.NewFromConfig cfg) ctx
    (role_input roleArn stsSessionName)
  = (Some {| sts.Credentials_ :=
               Some {| sts.AccessKeyId := Some accessKeyId;
                       sts.SecretAccessKey := Some secretAccessKey;
                       sts.SessionToken := Some sessionToken |} |}, None) ->
  let creds := {| aws.AccessKeyID := accessKeyId;
                  aws.SecretAccessKey := secretAccessKey;
                  aws.SessionToken := sessionToken |} in
  result_of (signer.loadCredentialsFromRoleArn env ctx region roleArn
               (session_name stsSessionName))
    = Returns (Some creds, None)
  /\ (dns_name region ->
      calls (trace_of (signer.GenerateAuthTokenFromRole env ctx region roleArn
                         stsSessionName))
      = [LoadDefaultConfig ctx [config.WithRegion region];
         AssumeRole (sts.NewFromConfig cfg) ctx
           (role_input roleArn stsSessionName);
         Now;
         PresignHTTP ctx creds
           (get_request ("kafka." +:+ region +:+ ".amazonaws.com")
              "Action=kafka-cluster%3AConnect&X-Amz-Expires=900")
           (signer.calculateSHA256Hash EmptyString) "kafka-cluster" region
           (time_Now env)]).
Proof.
  intros Hcfg Hsts creds.
  pose proof (resolve_cases env ctx region (FromRole roleArn stsSessionName))
    as Hres.
  cbn [default id load_options] in Hres. rewrite Hcfg in Hres.
  cbv zeta in Hres. rewrite Hsts in Hres. cbn [sts_fields] in Hres.
  fold creds in Hres.
  split.
  - unfold resolve, call in Hres. unfold result_of.
    destruct (signer.loadCredentialsFromRoleArn env ctx region roleArn
                (session_name stsSessionName)) as [o t].
    unfold tell, mbind, Go_bind in Hres. cbn [fst] in *.
    injection Hres as Ho _. exact Ho.
  - intros Hdns.
    change (signer.GenerateAuthTokenFromRole env ctx region roleArn
              stsSessionName)
      with (generate env ctx region (FromRole roleArn stsSessionName)).
    rewrite generate_cases, Hres, constructAuthToken_cases,
      (buildRequest_region region Hdns).
    destruct (presigned env ctx _ region creds) as [[signedURL hdr] [err|]];
      [reflexivity|].
    destruct (signer.addUserAgent env signedURL) as [out [err|]]; reflexivity.
Qed.

Lemma role_credentials_reach_the_presigner_witness :
  result_of (signer.loadCredentialsFromRoleArn mock.env context.TODO
               mock.TestRegion "arn:aws:iam::123456789012:role/msk"
               (session_name "my-session"))
    = Returns (Some {| aws.AccessKeyID := "ASIA-ROLE-KEY";
                       aws.SecretAccessKey := "ROLE-SECRET";
                       aws.SessionToken := "my-session" |}, None)
  /\ calls (trace_of (signer.GenerateAuthTokenFromRole mock.env context.TODO
                        mock.TestRegion "arn:aws:iam::123456789012:role/msk"
                        "my-session"))
     = [LoadDefaultConfig context.TODO [config.WithRegion mock.TestRegion];
        AssumeRole
          (sts.NewFromConfig
             {| aws.Region := mock.TestRegion;
                aws.Credentials_ :=
                  mock.MockCredentialsProvider mock.mockCreds |})
          context.TODO
          (role_input "arn:aws:iam::123456789012:role/msk" "my-session");
        Now;
        PresignHTTP context.TODO
          {| aws.AccessKeyID := "ASIA-ROLE-KEY";
             aws.SecretAccessKey := "ROLE-SECRET";
             aws.SessionToken := "my-session" |}
          (get_request ("kafka." +:+ mock.TestRegion +:+ ".amazonaws.com")
             "Action=kafka-cluster%3AConnect&X-Amz-Expires=900")
          (signer.calculateSHA256Hash EmptyString) "kafka-cluster"
          mock.TestRegion (time_Now mock.env)].
Proof.
  assert (Hcfg : config_LoadDefaultConfig mock.env context.TODO
                   [config.WithRegion mock.TestRegion]
                 = ({| aws.Region := mock.TestRegion;
                       aws.Credentials_ :=
                         mock.MockCredentialsProvider mock.mockCreds |}, None))
    by (vm_compute; reflexivity).
  destruct (role_credentials_reach_the_presigner mock.env context.TODO
              mock.TestRegion "arn:aws:iam::123456789012:role/msk" "my-session"
              {| aws.Region := mock.TestRegion;
                 aws.Credentials_ :=
                   mock.MockCredentialsProvider mock.mockCreds |}
              "ASIA-ROLE-KEY" "ROLE-SECRET" "my-session" Hcfg)
    as [Hloader Hcalls].
  - vm_compute. reflexivity.
  - split; [exact Hloader|]. apply Hcalls. vm_compute. reflexivity.
Defined.

(** ** The order of the calls *)

Inductive Collaborator : Set :=
  | SDKConfig
  | Provider
  | STS
  | Clock
  | Presigner.

(** The collaborator that an event calls. *)
Definition collaborator (e : Event) : option Collaborator :=
  match e with
  | Enter _ => None
  | LoadDefaultConfig _ _ => Some SDKConfig
  | Retrieve _ => Some Provider
  | AssumeRole _ _ _ => Some STS
  | Now => Some Clock
  | PresignHTTP _ _ _ _ _ _ _ => Some Presigner
  end.

(** The collaborators of an entry point, in the order of the source. *)
Definition plan (ep : EntryPoint) : list Collaborator :=
  match ep with
  | Default_ | FromProfile _ => [SDKConfig; Provider; Clock; Presigner]
  | FromRole _ _ => [SDKConfig; STS; Clock; Presigner]
  | FromCredentialsProvider _ => [Provider; Clock; Presigner]
  end.

Lemma constructAuthToken_collaborators (env : Env) (ctx : context.Context)
    (region : string) (creds : aws.Credentials) :
  omap collaborator
    (trace_of (signer.constructAuthToken env ctx region (Some creds)))
  = match signer.buildRequest signer.DefaultExpirySeconds
            (signer.endpointURLTemplate region) with
    | Ok _ => [Clock; Presigner]
    | Err _ => []
    end.
Proof.
  rewrite constructAuthToken_cases.
  destruct (signer.buildRequest _ _) as [req|err]; [|reflexivity].
  destruct (presigned env ctx req region creds) as [[signedURL hdr] [err|]];
    [reflexivity|].
  destruct (signer.addUserAgent env signedURL) as [out [err|]]; reflexivity.
Qed.

Lemma constructAuthToken_result (env : Env) (ctx : context.Context)
    (region : string) (creds : aws.Credentials) (token : string) :
  result_of (signer.constructAuthToken env ctx region (Some creds))
  = Returns (token, None) ->
  exists req,
    signer.buildRequest signer.DefaultExpirySeconds
      (signer.endpointURLTemplate region) = Ok req.
Proof.
  rewrite constructAuthToken_cases.
  destruct (signer.buildRequest _ _) as [req|err]; [eexists; reflexivity|].
  discriminate.
Qed.

(** X9: a run of an entry point calls its collaborators in the order of the
    source, each at most once, and stops at the first failure: the calls of a
    run are a prefix of [configuration, provider, clock, presigner] (with STS
    in the place of the provider for a role, and without the configuration
    for a given provider), and a run that returns a token made all of them.
    Nothing is retried. *)
Theorem collaborators_are_called_once_in_order (env : Env)
    (ctx : context.Context) (region : string) (ep : EntryPoint) :
  let called := omap collaborator (trace_of (generate env ctx region ep)) in
  match result_of (generate env ctx region ep) with
  | Returns (_, None) => called = plan ep
  | _ => called `prefix_of` plan ep
  end
  /\ NoDup called.
Proof.
  intros called.
  assert (Hplan : NoDup (plan ep)).
  { destruct ep; cbn [plan];
      repeat (constructor;
              [intros H;
               repeat (apply elem_of_cons in H as [H|H]; [discriminate H|]);
               inversion H|]);
      constructor. }
  cut (match result_of (generate env ctx region ep) with
       | Returns (_, None) => called = plan ep
       | _ => called `prefix_of` plan ep
       end).
  { intros H. split; [exact H|].
    destruct (result_of (generate env ctx region ep)) as [[token [err|]]|msg];
      [| rewrite H; exact Hplan |];
      destruct H as [k Hk]; rewrite Hk in Hplan;
      apply NoDup_app in Hplan; tauto. }
  subst called. rewrite generate_cases, resolve_cases.
  assert (Hc : forall creds t rest,
             omap collaborator t ++ [Clock; Presigner] = rest ->
             let m := (let '(o, t') :=
                         signer.constructAuthToken env ctx region (Some creds) in
                       (o, t ++ Enter F_constructAuthToken :: t')) in
             match result_of m with
             | Returns (_, None) => omap collaborator (trace_of m) = rest
             | _ => omap collaborator (trace_of m) `prefix_of` rest
             end).
  { intros creds t rest Hrest.
    pose proof (constructAuthToken_collaborators env ctx region creds) as Hcol.
    pose proof (constructAuthToken_result env ctx region creds) as Hok.
    unfold result_of, trace_of in *.
    destruct (signer.constructAuthToken env ctx region (Some creds)) as [o t'].
    cbn [fst snd] in *. rewrite omap_app. cbn [omap list_omap collaborator].
    fold (omap collaborator t'). rewrite Hcol.
    destruct o as [[token [err|]]|msg].
    - destruct (signer.buildRequest _ _) as [req|e];
        [exists []|exists [Clock; Presigner]];
        rewrite app_nil_r; symmetry; exact Hrest.
    - destruct (Hok token eq_refl) as [req ->]. exact Hrest.
    - destruct (signer.buildRequest _ _) as [req|e];
        [exists []|exists [Clock; Presigner]];
        rewrite app_nil_r; symmetry; exact Hrest. }
  destruct ep as [|awsProfile|roleArn stsSessionName|credentialsProvider];
    cbn [default id load_options plan loader].
  - destruct (config_LoadDefaultConfig env ctx _) as [cfg [e|]];
      [exists [Provider; Clock; Presigner]; reflexivity|].
    destruct (aws.Retrieve _ ctx) as [creds [e|]]; cbn [fst snd];
      [exists [Clock; Presigner]; reflexivity|].
    apply Hc. reflexivity.
  - destruct (config_LoadDefaultConfig env ctx _) as [cfg [e|]];
      [exists [Provider; Clock; Presigner]; reflexivity|].
    destruct (aws.Retrieve _ ctx) as [creds [e|]]; cbn [fst snd];
      [exists [Clock; Presigner]; reflexivity|].
    apply Hc. reflexivity.
  - destruct (config_LoadDefaultConfig env ctx _) as [cfg [e|]];
      [exists [STS; Clock; Presigner]; reflexivity|].
    cbv zeta.
    destruct (sts_AssumeRole env _ ctx _) as [out [e|]];
      [exists [Clock; Presigner]; reflexivity|].
    destruct (sts_fields out) as [creds|];
      [|exists [Clock; Presigner]; reflexivity].
    apply Hc. reflexivity.
  - destruct (aws.Retrieve _ ctx) as [creds [e|]]; cbn [fst snd];
      [exists [Clock; Presigner]; reflexivity|].
    apply Hc. reflexivity.
Qed.

(** X10: every call that a run makes into the SDK gets the context of the
    caller.  The configuration is loaded with [WithRegion] of the caller's
    region, followed for a named profile by [WithSharedConfigProfile] of that
    profile, and never for a given provider; [AssumeRole] is called only for
    a role, with its ARN. *)
Theorem sdk_calls_get_the_context_and_the_region (env : Env)
    (ctx : context.Context) (region : string) (ep : EntryPoint) :
  Forall (fun e =>
            match e with
            | LoadDefaultConfig ctx' optFns =>
                ctx' = ctx
                /\ match ep with
                   | Default_ | FromRole _ _ =>
                       optFns = [config.WithRegion region]
                   | FromProfile awsProfile =>
                       optFns = [config.WithRegion region;
                                 config.WithSharedConfigProfile awsProfile]
                   | FromCredentialsProvider _ => False
                   end
            | Retrieve ctx' =>
                ctx' = ctx
                /\ match ep with
                   | FromRole _ _ => False
                   | _ => True
                   end
            | AssumeRole _ ctx' params =>
                ctx' = ctx
                /\ match ep with
                   | FromRole roleArn _ => sts.RoleArn params = Some roleArn
                   | _ => False
                   end
            | PresignHTTP ctx' _ _ _ _ _ _ => ctx' = ctx
            | _ => True
            end)
    (trace_of (generate env ctx region ep)).
Proof.
  rewrite generate_cases, resolve_cases.
  assert (Hc : forall (P : Event -> Prop) credentials,
             (forall e, match e with
                        | PresignHTTP ctx' _ _ _ _ _ _ => ctx' = ctx
                        | Enter _ | Now => True
                        | _ => False
                        end -> P e) ->
             Forall P
               (trace_of (signer.constructAuthToken env ctx region credentials))).
  { intros P credentials HP. rewrite constructAuthToken_cases.
    destruct (signer.buildRequest _ _) as [req|err];
      [|repeat constructor; apply HP; exact I].
    destruct credentials as [creds|];
      [|repeat constructor; apply HP; exact I].
    destruct (presigned env ctx req region creds) as [[signedURL hdr] [err|]];
      [unfold trace_of, signing_events; cbn [snd];
       repeat (constructor; [apply HP; try exact I; reflexivity|]); constructor|].
    destruct (signer.addUserAgent env signedURL) as [out [err|]];
      unfold trace_of, signing_events; cbn [snd app];
      repeat (constructor; [apply HP; try exact I; reflexivity|]); constructor. }
  assert (Hg : forall (P : Event -> Prop) credentials t,
             (forall e, match e with
                        | PresignHTTP ctx' _ _ _ _ _ _ => ctx' = ctx
                        | Enter _ | Now => True
                        | _ => False
                        end -> P e) ->
             Forall P t ->
             Forall P
               (trace_of
                  (let '(o, t') :=
                     signer.constructAuthToken env ctx region credentials in
                   (o, t ++ Enter F_constructAuthToken :: t')))).
  { intros P credentials t HP Ht. specialize (Hc P credentials HP).
    unfold trace_of in *.
    destruct (signer.constructAuthToken env ctx region credentials) as [o t'].
    cbn [snd] in *. apply Forall_app. split; [exact Ht|].
    constructor; [apply HP; exact I|exact Hc]. }
  destruct ep as [|awsProfile|roleArn stsSessionName|credentialsProvider];
    cbn [default id load_options loader].
  - destruct (config_LoadDefaultConfig env ctx _) as [cfg [e|]];
      [repeat constructor|].
    destruct (aws.Retrieve _ ctx) as [creds [e|]]; cbn [fst snd];
      [repeat constructor|].
    apply Hg; [intros []; tauto|repeat constructor].
  - destruct (config_LoadDefaultConfig env ctx _) as [cfg [e|]];
      [repeat constructor|].
    destruct (aws.Retrieve _ ctx) as [creds [e|]]; cbn [fst snd];
      [repeat constructor|].
    apply Hg; [intros []; tauto|repeat constructor].
  - destruct (config_LoadDefaultConfig env ctx _) as [cfg [e|]];
      [repeat constructor|].
    cbv zeta.
    destruct (sts_AssumeRole env _ ctx _) as [out [e|]];
      [repeat constructor|].
    destruct (sts_fields out) as [creds|]; [|repeat constructor].
    apply Hg; [intros []; tauto|repeat constructor].
  - destruct (aws.Retrieve _ ctx) as [creds [e|]]; cbn [fst snd];
      [repeat constructor|].
    apply Hg; [intros []; tauto|repeat constructor].
Qed.

(** ** What the caller gets back *)

Lemma append_nonempty_r (a b : string) :
  b <> EmptyString -> a +:+ b <> EmptyString.
Proof.
  intros Hb H. apply (f_equal String.length) in H.
  rewrite length_append in H. destruct b; [congruence|].
  cbn [String.length] in H. lia.
Qed.

Lemma append_nonempty_l (a b : string) :
  a <> EmptyString -> a +:+ b <> EmptyString.
Proof.
  intros Ha H. apply (f_equal String.length) in H.
  rewrite length_append in H. destruct a; [congruence|].
  cbn [String.length] in H. lia.
Qed.

(** A URL with a query has a text. *)
Lemma String_nonempty (u : url.URL) :
  url.RawQuery u <> EmptyString -> url.String_ u <> EmptyString.
Proof.
  intros Hq. unfold url.String_. cbv zeta.
  assert (Hn : url.nonempty (url.RawQuery u) = true).
  { unfold url.nonempty. destruct (url.RawQuery u); [congruence|reflexivity]. }
  rewrite Hn, orb_true_r.
  match goal with
  | |- context [?b +:+ "?" +:+ url.RawQuery u] => generalize b
  end.
  intros buf.
  assert (H : buf +:+ "?" +:+ url.RawQuery u <> EmptyString)
    by (apply append_nonempty_r, append_nonempty_r, Hq).
  destruct (url.nonempty (url.Fragment u)); [apply append_nonempty_l|];
    exact H.
Qed.

Lemma withUserAgent_RawQuery (env : Env) (u : url.URL) :
  url.RawQuery (withUserAgent env u) <> EmptyString.
Proof.
  intros H. pose proof (Query_withUserAgent env u) as Hq. rewrite H in Hq.
  change (url.ParseQuery EmptyString) with (∅ : url.Values, @None error) in Hq.
  injection Hq as Hq. symmetry in Hq. revert Hq. apply insert_non_empty.
Qed.

(** An entry point that returns no error went through every stage. *)
Lemma generate_success (env : Env) (ctx : context.Context) (region : string)
    (ep : EntryPoint) (token : string) :
  result_of (generate env ctx region ep) = Returns (token, None) ->
  exists creds req signedURL signedHeaders u,
    result_of (resolve env ctx region ep) = Returns (Some creds, None)
    /\ signer.buildRequest signer.DefaultExpirySeconds
         (signer.endpointURLTemplate region) = Ok req
    /\ presigned env ctx req region creds = (signedURL, signedHeaders, None)
    /\ url.Parse signedURL = Ok u
    /\ token = signer.base64Encode (url.String_ (withUserAgent env u)).
Proof.
  rewrite generate_cases. unfold result_of.
  destruct (resolve env ctx region ep) as [[[credentials [err|]]|msg] t];
    cbn [fst]; [discriminate| |discriminate].
  rewrite constructAuthToken_cases.
  destruct (signer.buildRequest _ _) as [req|err]; [|discriminate].
  destruct credentials as [creds|]; [|discriminate].
  destruct (presigned env ctx req region creds) as [[signedURL hdr] [err|]]
    eqn:Hsign; [discriminate|].
  destruct (url.Parse signedURL) as [u|perr] eqn:Hparse.
  - rewrite (addUserAgent_parsed env signedURL u Hparse). cbn [fst].
    intros [= <-]. exists creds, req, signedURL, hdr, u. auto.
  - unfold signer.addUserAgent. rewrite Hparse. discriminate.
Qed.

(** An entry point that returns an error returns the empty token. *)
Lemma generate_failure (env : Env) (ctx : context.Context) (region : string)
    (ep : EntryPoint) (token : string) (err : error) :
  result_of (generate env ctx region ep) = Returns (token, Some err) ->
  token = EmptyString.
Proof.
  rewrite generate_cases. unfold result_of.
  destruct (resolve env ctx region ep) as [[[credentials [e|]]|msg] t];
    cbn [fst]; [intros [= <- _]; reflexivity| |discriminate].
  rewrite constructAuthToken_cases.
  destruct (signer.buildRequest _ _) as [req|e];
    [|intros [= <- _]; reflexivity].
  destruct credentials as [creds|]; [|discriminate].
  destruct (presigned env ctx req region creds) as [[signedURL hdr] [e|]];
    [intros [= <- _]; reflexivity|].
  destruct (signer.addUserAgent env signedURL) as [out [e|]];
    [intros [= <- _]; reflexivity|discriminate].
Qed.

(** X11: a token that comes with the [nil] error is what the pipeline made:
    the loader returned credentials, the request was built, the presigner
    returned a URL that parses, and the token decodes (URL-safe alphabet, no
    padding) to the text of that URL with its query encoded anew and
    [User-Agent] set to library-name/version/runtime-version. *)
Theorem a_token_decodes_to_the_signed_url_with_the_user_agent (env : Env)
    (ctx : context.Context) (region : string) (ep : EntryPoint)
    (token : string) :
  result_of (generate env ctx region ep) = Returns (token, None) ->
  exists creds req signedURL u,
    result_of (resolve env ctx region ep) = Returns (Some creds, None)
    /\ signer.buildRequest signer.DefaultExpirySeconds
         (signer.endpointURLTemplate region) = Ok req
    /\ (presigned env ctx req region creds).1.1 = signedURL
    /\ (presigned env ctx req region creds).2 = None
    /\ url.Parse signedURL = Ok u
    /\ base64.DecodeString token = Some (url.String_ (withUserAgent env u))
    /\ url.Query (withUserAgent env u)
       = <[signer.UserAgentKey := [userAgent env]]> (url.Query u)
    /\ url.Get (url.Query (withUserAgent env u)) "User-Agent"
       = "aws-msk-iam-sasl-signer-go/" +:+ version env +:+ "/"
           +:+ runtime_Version env.
Proof.
  intros H.
  destruct (generate_success env ctx region ep token H)
    as (creds & req & signedURL & hdr & u & Hres & Hreq & Hsign & Hparse & ->).
  exists creds, req, signedURL, u.
  assert (Hq : url.Query (withUserAgent env u)
               = <[signer.UserAgentKey := [userAgent env]]> (url.Query u)).
  { unfold url.Query at 1. rewrite Query_withUserAgent. reflexivity. }
  split; [exact Hres|]. split; [exact Hreq|].
  split; [rewrite Hsign; reflexivity|]. split; [rewrite Hsign; reflexivity|].
  split; [exact Hparse|].
  split; [apply DecodeString_EncodeToString|].
  split; [exact Hq|].
  rewrite Hq. unfold url.Get.
  change ("User-Agent"%string) with signer.UserAgentKey.
  rewrite lookup_insert_eq. reflexivity.
Qed.

Lemma a_token_decodes_to_the_signed_url_with_the_user_agent_witness :
  exists creds req signedURL u,
    result_of (resolve mock.env context.TODO mock.TestRegion Default_)
      = Returns (Some creds, None)
    /\ signer.buildRequest signer.DefaultExpirySeconds
         (signer.endpointURLTemplate mock.TestRegion) = Ok req
    /\ (presigned mock.env context.TODO req mock.TestRegion creds).1.1
       = signedURL
    /\ (presigned mock.env context.TODO req mock.TestRegion creds).2 = None
    /\ url.Parse signedURL = Ok u
    /\ base64.DecodeString (signer.base64Encode test_signedURLWithUserAgent)
       = Some (url.String_ (withUserAgent mock.env u))
    /\ url.Query (withUserAgent mock.env u)
       = <[signer.UserAgentKey := [userAgent mock.env]]> (url.Query u)
    /\ url.Get (url.Query (withUserAgent mock.env u)) "User-Agent"
       = "aws-msk-iam-sasl-signer-go/" +:+ version mock.env +:+ "/"
           +:+ runtime_Version mock.env.
Proof.
  apply (a_token_decodes_to_the_signed_url_with_the_user_agent mock.env
           context.TODO mock.TestRegion Default_
           (signer.base64Encode test_signedURLWithUserAgent)).
  vm_compute. reflexivity.
Defined.

(** X12: in what an entry point returns, the token is empty exactly when the
    error is not [nil]: every failure returns the empty token, and a token
    that comes with the [nil] error is never empty. *)
Theorem token_is_empty_exactly_on_error (env : Env) (ctx : context.Context)
    (region : string) (ep : EntryPoint) (token : string) (err : option error) :
  result_of (generate env ctx region ep) = Returns (token, err) ->
  (token = EmptyString <-> err <> None).
Proof.
  intros H. destruct err as [err|].
  - split; [discriminate|]. intros _.
    exact (generate_failure env ctx region ep token err H).
  - split; [|congruence]. intros Htoken. exfalso.
    destruct (generate_success env ctx region ep token H)
      as (creds & req & signedURL & hdr & u & _ & _ & _ & _ & Ht).
    rewrite Htoken in Ht. symmetry in Ht.
    apply EncodeToString_empty in Ht. revert Ht.
    apply String_nonempty, withUserAgent_RawQuery.
Qed.

Lemma token_is_empty_exactly_on_error_witness :
  (EmptyString = EmptyString <->
   Some (fmt.Errorf_w "failed to load credentials: " anonymous_error) <> None).
Proof.
  apply (token_is_empty_exactly_on_error mock.env context.TODO mock.TestRegion
           (FromCredentialsProvider aws.AnonymousCredentials)).
  vm_compute. reflexivity.
Defined.

(** X13: what an entry point returns depends on its loader's answer only:
    two entry points whose loaders return the same credentials and error, in
    the same region and with the same collaborators, return the same token
    and error. *)
Theorem token_depends_only_on_the_resolved_credentials (env : Env)
    (ctx : context.Context) (region : string) (ep1 ep2 : EntryPoint) :
  result_of (resolve env ctx region ep1) = result_of (resolve env ctx region ep2) ->
  result_of (generate env ctx region ep1) = result_of (generate env ctx region ep2).
Proof.
  rewrite !generate_cases. unfold result_of.
  destruct (resolve env ctx region ep1) as [o1 t1],
           (resolve env ctx region ep2) as [o2 t2].
  cbn [fst]. intros <-.
  destruct o1 as [[credentials [err|]]|msg]; [reflexivity| |reflexivity].
  destruct (signer.constructAuthToken env ctx region credentials) as [o t'].
  reflexivity.
Qed.

Lemma token_depends_only_on_the_resolved_credentials_witness :
  result_of (signer.GenerateAuthToken mock.env context.TODO mock.TestRegion)
  = result_of (signer.GenerateAuthTokenFromCredentialsProvider mock.env
                 context.TODO mock.TestRegion
                 (mock.MockCredentialsProvider mock.mockCreds)).
Proof.
  apply (token_depends_only_on_the_resolved_credentials mock.env context.TODO
           mock.TestRegion Default_
           (FromCredentialsProvider
              (mock.MockCredentialsProvider mock.mockCreds))).
  vm_compute. reflexivity.
Defined.

(** The collaborators of [env], with another presigner. *)
Definition with_presigner (env : Env)
    (presign : context.Context -> aws.Credentials -> http.Request ->
               string -> string -> string -> time.Time ->
               string * http.Header * option error) : Env :=
  {| version := version env;
     runtime_Version := runtime_Version env;
     time_Now := time_Now env;
     config_LoadDefaultConfig := config_LoadDefaultConfig env;
     sts_AssumeRole := sts_AssumeRole env;
     v4_PresignHTTP := presign |}.

(** X14: [signRequest] drops the signed headers that the presigner returns
    beside the URL: with a presigner that returns the same URLs and errors,
    whatever its headers, every entry point returns the same token and
    error. *)
Theorem signed_headers_are_dropped (env : Env)
    (presign : context.Context -> aws.Credentials -> http.Request ->
               string -> string -> string -> time.Time ->
               string * http.Header * option error)
    (ctx : context.Context) (region : string) (ep : EntryPoint) :
  (forall c creds req payloadHash service r signingTime,
      (presign c creds req payloadHash service r signingTime).1.1
      = (v4_PresignHTTP env c creds req payloadHash service r signingTime).1.1
      /\ (presign c creds req payloadHash service r signingTime).2
         = (v4_PresignHTTP env c creds req payloadHash service r signingTime).2) ->
  result_of (generate (with_presigner env presign) ctx region ep)
  = result_of (generate env ctx region ep).
Proof.
  intros Hp. rewrite !generate_cases.
  assert (Hres : resolve (with_presigner env presign) ctx region ep
                 = resolve env ctx region ep) by (destruct ep; reflexivity).
  rewrite Hres. unfold result_of.
  destruct (resolve env ctx region ep) as [[[credentials [err|]]|msg] t];
    [reflexivity| |reflexivity].
  rewrite !constructAuthToken_cases.
  destruct (signer.buildRequest _ _) as [req|err]; [|reflexivity].
  destruct credentials as [creds|]; [|reflexivity].
  unfold presigned.
  destruct (Hp ctx creds req (signer.calculateSHA256Hash EmptyString)
              signer.SigningName region (time_Now env)) as [Hu He].
  change (time_Now (with_presigner env presign)) with (time_Now env).
  change (v4_PresignHTTP (with_presigner env presign)) with presign.
  destruct (presign ctx creds req _ _ region _) as [[signedURL hdr] e],
           (v4_PresignHTTP env ctx creds req _ _ region _)
             as [[signedURL' hdr'] e'].
  cbn [fst snd] in Hu, He. subst signedURL' e'.
  destruct e as [e|]; [reflexivity|].
  change (signer.addUserAgent (with_presigner env presign) signedURL)
    with (signer.addUserAgent env signedURL).
  destruct (signer.addUserAgent env signedURL) as [out [e|]]; reflexivity.
Qed.

Lemma signed_headers_are_dropped_witness :
  result_of
    (generate
       (with_presigner mock.env
          (fun c creds req payloadHash service r signingTime =>
             ((mock.PresignHTTP c creds req payloadHash service r
                 signingTime).1.1,
              ∅,
              (mock.PresignHTTP c creds req payloadHash service r
                 signingTime).2)))
       context.TODO mock.TestRegion Default_)
  = result_of (generate mock.env context.TODO mock.TestRegion Default_).
Proof.
  apply (signed_headers_are_dropped mock.env
           (fun c creds req payloadHash service r signingTime =>
              ((mock.PresignHTTP c creds req payloadHash service r
                  signingTime).1.1,
               ∅,
               (mock.PresignHTTP c creds req payloadHash service r
                  signingTime).2))
           context.TODO mock.TestRegion Default_).
  intros c creds req payloadHash service r signingTime.
  split; reflexivity.
Defined.

(** ** [SignerOptions.Validate]: what it reads *)

(** Two configurations set the same fields among the region and the three
    credential sources. *)
Definition sets_alike (a b : signer.SignerOptions) : Prop :=
  url.is_Some_b (signer.Region a) = url.is_Some_b (signer.Region b)
  /\ url.is_Some_b (signer.AwsProfile a) = url.is_Some_b (signer.AwsProfile b)
  /\ url.is_Some_b (signer.RoleARN a) = url.is_Some_b (signer.RoleARN b)
  /\ url.is_Some_b (signer.AWSCredentials a)
     = url.is_Some_b (signer.AWSCredentials b).

(** X15: [Validate] looks only at which of the region, the named profile, the
    role ARN and the credentials object are set: it reads none of their
    values, nor the session name, the STS region and the retry settings.
    Two configurations that set the same of the four fields get the same
    verdict. *)
Theorem Validate_reads_only_what_is_set (a b : signer.SignerOptions) :
  sets_alike a b ->
  signer.Validate (Some a) = signer.Validate (Some b).
Proof.
  destruct a as [reg prof role name sreg r bo creds],
           b as [reg' prof' role' name' sreg' r' bo' creds'].
  unfold sets_alike, signer.Validate.
  cbn [signer.Region signer.AwsProfile signer.RoleARN signer.AWSCredentials].
  intros (Hr & Hp & Ho & Hc). rewrite Hp, Ho, Hc.
  destruct reg, reg'; try discriminate Hr; reflexivity.
Qed.

Lemma Validate_reads_only_what_is_set_witness :
  signer.Validate
    (Some {| signer.Region := Some "us-west-2"%string;
             signer.AwsProfile := Some "dev"%string;
             signer.RoleARN := None;
             signer.STSSessionName := Some "session"%string;
             signer.STSRegion := Some "eu-west-1"%string;
             signer.AwsMaxRetries := 3;
             signer.AwsMaxBackOffMs := 500;
             signer.AWSCredentials := None |})
  = signer.Validate
      (Some {| signer.Region := Some EmptyString;
               signer.AwsProfile := Some EmptyString;
               signer.RoleARN := None;
               signer.STSSessionName := None;
               signer.STSRegion := None;
               signer.AwsMaxRetries := (-1);
               signer.AwsMaxBackOffMs := 0;
               signer.AWSCredentials := None |}).
Proof.
  apply Validate_reads_only_what_is_set.
  split; [reflexivity|]. split; [reflexivity|]. split; reflexivity.
Defined.

(** X16: [Validate] has two errors, and returns each exactly in its case.  On
    the [nil] receiver and on a configuration without a region it returns
    [region must be provided], whatever else is set; with a region it returns
    [please provide only one of AWS profile, Role ARN and AWS Credentials]
    when two or three of the sources are set, and no other error. *)
Theorem Validate_errors (so : option signer.SignerOptions) (err : error) :
  signer.Validate so = Some err <->
  (err = errorString "region must be provided"
   /\ (so = None \/ exists o, so = Some o /\ signer.Region o = None))
  \/ (err = errorString
              "please provide only one of AWS profile, Role ARN and AWS Credentials"
      /\ exists o, so = Some o /\ signer.Region o <> None
                   /\ (2 <= sources_set o)%nat).
Proof.
  split.
  - destruct so as [o|]; [|intros [= <-]; left; auto].
    destruct o as [reg prof role name sreg r bo creds].
    unfold signer.Validate, sources_set.
    cbn [signer.Region signer.AwsProfile signer.RoleARN signer.AWSCredentials].
    destruct reg as [reg|].
    + destruct prof, role, creds; simpl; intros H; try discriminate H;
        injection H as <-; right; (split; [reflexivity|]); eexists;
        (split; [reflexivity|]); simpl; (split; [discriminate|lia]).
    + intros [= <-]. left. split; [reflexivity|]. right. eexists.
      split; reflexivity.
  - intros [[-> [->|(o & -> & Hr)]]|(-> & o & -> & Hr & Hs)].
    + reflexivity.
    + unfold signer.Validate. rewrite Hr. reflexivity.
    + destruct o as [reg prof role name sreg r bo creds].
      unfold signer.Validate, sources_set in *.
      cbn [signer.Region signer.AwsProfile signer.RoleARN
           signer.AWSCredentials] in *.
      destruct reg as [reg|]; [|congruence].
      destruct prof, role, creds; simpl in Hs |- *; try reflexivity; lia.
Qed.

Lemma Validate_errors_witness :
  (errorString "region must be provided"
   = errorString "region must be provided"
   /\ (Some {| signer.Region := None;
               signer.AwsProfile := Some "dev"%string;
               signer.RoleARN := Some "arn:aws:iam::123456789012:role/msk"%string;
               signer.STSSessionName := None;
               signer.STSRegion := None;
               signer.AwsMaxRetries := 0;
               signer.AwsMaxBackOffMs := 0;
               signer.AWSCredentials := None |} = None
       \/ exists o,
            Some {| signer.Region := None;
                    signer.AwsProfile := Some "dev"%string;
                    signer.RoleARN :=
                      Some "arn:aws:iam::123456789012:role/msk"%string;
                    signer.STSSessionName := None;
                    signer.STSRegion := None;
                    signer.AwsMaxRetries := 0;
                    signer.AwsMaxBackOffMs := 0;
                    signer.AWSCredentials := None |} = Some o
            /\ signer.Region o = None))
  \/ (errorString "region must be provided"
      = errorString
          "please provide only one of AWS profile, Role ARN and AWS Credentials"
      /\ exists o,
           Some {| signer.Region := None;
                   signer.AwsProfile := Some "dev"%string;
                   signer.RoleARN :=
                     Some "arn:aws:iam::123456789012:role/msk"%string;
                   signer.STSSessionName := None;
                   signer.STSRegion := None;
                   signer.AwsMaxRetries := 0;
                   signer.AwsMaxBackOffMs := 0;
                   signer.AWSCredentials := None |} = Some o
           /\ signer.Region o <> None /\ (2 <= sources_set o)%nat).
Proof.
  apply (proj1 (Validate_errors _ _)). reflexivity.
Defined.

(** ** Regions that give no host name *)

(** The bytes that [net/url] escapes in a host name and then refuses when it
    parses the name: a blank, a control character, and [#], [/], [?], [@],
    a backslash and the like; the percent sign is escaped to [%25], which
    the parser accepts. *)
Definition host_refused (c : ascii) : bool :=
  (N_of_ascii c <? 128) && url.shouldEscape c url.encodeHost
  && negb (byte_eqb c "%").

Definition host_accepted (c : ascii) : bool := negb (host_refused c).

Lemma unescape_check_plain (c : ascii) (rest : string) :
  url.shouldEscape c url.encodeHost = false ->
  url.unescape_check (String c rest) url.encodeHost
  = url.unescape_check rest url.encodeHost.
Proof.
  each_byte c; intros H; try reflexivity; vm_compute in H; discriminate H.
Qed.

Lemma unescape_check_escaped (c : ascii) (rest : string) :
  url.shouldEscape c url.encodeHost = true ->
  url.unescape_check
    (String "%" (String (url.upperhex (N.shiftr (N_of_ascii c) 4))
       (String (url.upperhex (N.land (N_of_ascii c) 15)) rest)))
    url.encodeHost
  = if host_refused c
    then Some (url_EscapeError
                 (String "%" (String (url.upperhex (N.shiftr (N_of_ascii c) 4))
                    (String (url.upperhex (N.land (N_of_ascii c) 15))
                       EmptyString))))
    else url.unescape_check rest url.encodeHost.
Proof.
  each_byte c; intros H; try reflexivity; vm_compute in H; discriminate H.
Qed.

Lemma unescape_check_refused (h : string) :
  strings.all_bytes host_accepted h = false ->
  url.unescape_check (url.escape h url.encodeHost) url.encodeHost <> None.
Proof.
  induction h as [|c h IH]; [discriminate|].
  cbn [strings.all_bytes]. intros H. rewrite escape_cons_host.
  destruct (url.shouldEscape c url.encodeHost) eqn:Hesc.
  - rewrite unescape_check_escaped by exact Hesc.
    unfold host_accepted in H at 1.
    destruct (host_refused c); [discriminate|]. apply IH, H.
  - rewrite unescape_check_plain by exact Hesc. apply IH.
    unfold host_accepted in H at 1. unfold host_refused in H at 1.
    rewrite Hesc, andb_false_r in H. exact H.
Qed.

Lemma parseHost_refused (h : string) :
  strings.HasPrefix (url.escape h url.encodeHost) "[" = false ->
  strings.all_bytes host_accepted h = false ->
  exists cause, (url.parseHost (url.escape h url.encodeHost)).2 = Some cause.
Proof.
  intros Hb Hr. apply unescape_check_refused in Hr.
  unfold url.parseHost, url.unescape. rewrite Hb.
  destruct (url.unescape_check (url.escape h url.encodeHost) url.encodeHost)
    as [err|]; [|congruence].
  destruct (strings.LastIndex _ ":") as [i|]; [|eexists; reflexivity].
  destruct (negb (url.validOptionalPort _)); eexists; reflexivity.
Qed.

(** X17: a region with a byte that [net/url] refuses in a host name, such as
    a blank or a slash, yields no token: the request for
    [kafka.<region>.amazonaws.com] is not built, and once the credentials are
    loaded the entry point returns the empty token and
    [failed to build request for signing: ] with the error of [url.Parse],
    without a call of the presigner. *)
Theorem region_with_a_refused_byte_yields_no_token (env : Env)
    (ctx : context.Context) (region : string) (ep : EntryPoint) :
  strings.all_bytes host_accepted region = false ->
  exists cause,
    signer.buildRequest signer.DefaultExpirySeconds
      (signer.endpointURLTemplate region)
    = Err (url_Error "parse"
             (request_text signer.DefaultExpirySeconds
                (signer.endpointURLTemplate region)) cause)
    /\ (forall token,
          result_of (generate env ctx region ep) <> Returns (token, None))
    /\ (forall credentials,
          result_of (resolve env ctx region ep) = Returns (credentials, None) ->
          result_of (generate env ctx region ep)
          = Returns (EmptyString,
                     Some (fmt.Errorf_w "failed to build request for signing: "
                             (url_Error "parse"
                                (request_text signer.DefaultExpirySeconds
                                   (signer.endpointURLTemplate region)) cause)))
          /\ Forall (fun e => collaborator e <> Some Presigner)
               (trace_of (generate env ctx region ep))).
Proof.
  intros Hr.
  assert (HE : strings.all_bytes host_accepted (signer.endpointURLTemplate region)
               = false).
  { unfold signer.endpointURLTemplate. rewrite !all_bytes_append, Hr.
    reflexivity. }
  assert (Hb : strings.HasPrefix
                 (url.escape (signer.endpointURLTemplate region) url.encodeHost)
                 "[" = false) by reflexivity.
  destruct (parseHost_refused _ Hb HE) as [cause Hcause].
  assert (Hbuild : signer.buildRequest signer.DefaultExpirySeconds
                     (signer.endpointURLTemplate region)
                   = Err (url_Error "parse"
                            (request_text signer.DefaultExpirySeconds
                               (signer.endpointURLTemplate region)) cause)).
  { rewrite buildRequest_cases.
    destruct (url.parseHost _) as [host [e|]]; cbn [snd] in Hcause;
      [|discriminate Hcause].
    injection Hcause as ->. reflexivity. }
  exists cause. split; [exact Hbuild|]. split.
  - intros token H.
    destruct (generate_success env ctx region ep token H)
      as (creds & req & _ & _ & _ & _ & Hreq & _).
    rewrite Hbuild in Hreq. discriminate Hreq.
  - intros credentials Hres. rewrite generate_cases.
    pose proof (resolve_events env ctx region ep) as Hev.
    unfold result_of, trace_of in *.
    destruct (resolve env ctx region ep) as [o t]. cbn [fst snd] in *.
    subst o. rewrite constructAuthToken_cases, Hbuild. cbn [fst snd].
    split; [reflexivity|]. apply Forall_app. split.
    + eapply Forall_impl; [exact Hev|]. intros [] He; discriminate.
    + repeat constructor; discriminate.
Qed.

Lemma region_with_a_refused_byte_yields_no_token_witness :
  exists cause,
    signer.buildRequest signer.DefaultExpirySeconds
      (signer.endpointURLTemplate "us west")
    = Err (url_Error "parse"
             (request_text signer.DefaultExpirySeconds
                (signer.endpointURLTemplate "us west")) cause)
    /\ (forall token,
          result_of (generate mock.env context.TODO "us west" Default_)
          <> Returns (token, None))
    /\ (forall credentials,
          result_of (resolve mock.env context.TODO "us west" Default_)
          = Returns (credentials, None) ->
          result_of (generate mock.env context.TODO "us west" Default_)
          = Returns (EmptyString,
                     Some (fmt.Errorf_w "failed to build request for signing: "
                             (url_Error "parse"
                                (request_text signer.DefaultExpirySeconds
                                   (signer.endpointURLTemplate "us west"))
                                cause)))
          /\ Forall (fun e => collaborator e <> Some Presigner)
               (trace_of (generate mock.env context.TODO "us west" Default_))).
Proof.
  apply (region_with_a_refused_byte_yields_no_token mock.env context.TODO
           "us west" Default_).
  vm_compute. reflexivity.
Defined.
